(** * Medral front end: file staging, submission and result rendering

    A shallow embedding of [static/script.js]: the per-tab file stage
    ([handleFileSelect], [updatePreview], [removeFile]), the submission
    pipeline ([processTab]), the result renderer ([displayResults] and
    the [build...] family) and the session request ([initializeSession]),
    followed by the properties of the specification that were checked
    against them and by further properties of the script.

    Conventions of the embedding.
    - A JavaScript string is the string of its UTF-8 bytes.
    - In every string literal of this file the character [~] stands for
      the double quote of the HTML the script writes (the script itself
      contains no [~]); see [html_scope].
    - A value is what [JSON.parse] can produce, plus [undefined], which
      property reads produce.
    - An evaluation that may throw is a [completion]. Converting a value
      to a string, as a template literal and [formData.append] do, is one
      ([str]): it throws for an object that has a property of its own
      named [toString].
    - The reads [updatePreview] starts finish later, if at all, and in
      any order: each is a step of its own ([onload]).
    - The few engine functions whose definition lies outside the script
      (Unicode lower-casing, string-to-number comparison, the wording of a
      TypeError) are fields of an [engine] the renderer is parameterised
      by. *)

From Stdlib Require Import String Ascii List ZArith Lia Bool.
From Stdlib.Strings Require Import Byte.
From Stdlib Require Import DecimalString.
Import ListNotations.

(** ** Text *)

Definition quote_of_tilde (b : byte) : byte :=
  match b with x7e => x22 | _ => b end.

Definition tilde_of_quote (b : byte) : byte :=
  match b with x22 => x7e | _ => b end.

Definition html_of_bytes (l : list byte) : string :=
  string_of_list_byte (map quote_of_tilde l).

Definition bytes_of_html (s : string) : list byte :=
  map tilde_of_quote (list_byte_of_string s).

Declare Scope html_scope.
Delimit Scope html_scope with html.
String Notation string html_of_bytes bytes_of_html : html_scope.
Bind Scope html_scope with string.
Arguments String.append (_ _)%_html_scope.
Infix "++" := String.append (right associativity, at level 60) : html_scope.
Open Scope html_scope.

(** [p] occurs in [s]. *)
Definition Contains (p s : string) : Prop :=
  exists a b, s = a ++ p ++ b.

(** [String.prototype.startsWith]. *)
Fixpoint startsWith (s p : string) {struct p} : bool :=
  match p, s with
  | EmptyString, _ => true
  | String c p', String d s' => Ascii.eqb c d && startsWith s' p'
  | String _ _, EmptyString => false
  end.

(** [String.prototype.includes]: the decision procedure of [Contains]. *)
Fixpoint includes (s p : string) : bool :=
  startsWith s p ||
  match s with
  | EmptyString => false
  | String _ s' => includes s' p
  end.

(** [s] ends with [p]. *)
Fixpoint endsWith (s p : string) : bool :=
  String.eqb s p ||
  match s with
  | EmptyString => false
  | String _ r => endsWith r p
  end.

(** Decimal digits of an integer, as [Number::toString] prints an
    integral number below 10^21. *)
Definition decimal (z : Z) : string :=
  NilZero.string_of_int (Z.to_int z).

Definition byte_code (c : ascii) : N := N_of_ascii c.

(** Number of UTF-16 code units of the string whose UTF-8 bytes are [s]:
    a continuation byte adds none, the lead byte of a four-byte sequence
    adds two. *)
Fixpoint utf16_length (s : string) : Z :=
  match s with
  | EmptyString => 0
  | String c r =>
      let n := byte_code c in
      ((if (n <? 128)%N then 1
        else if (n <? 192)%N then 0
        else if (n <? 240)%N then 1
        else 2) + utf16_length r)%Z
  end.

Definition is_continuation (c : ascii) : bool :=
  let n := byte_code c in ((128 <=? n) && (n <? 192))%N.

(** The continuation bytes at the head of [s], and what follows them. *)
Fixpoint span_continuation (s : string) : string * string :=
  match s with
  | String c r =>
      if is_continuation c
      then let '(k, rest) := span_continuation r in (String c k, rest)
      else (EmptyString, s)
  | EmptyString => (EmptyString, EmptyString)
  end.

(** The code points of a string, each as a string of its own: what the
    string iterator yields. *)
Fixpoint code_points_fuel (fuel : nat) (s : string) : list string :=
  match fuel, s with
  | S fuel', String c r =>
      let '(k, rest) := span_continuation r in
      String c k :: code_points_fuel fuel' rest
  | _, _ => []
  end.

Definition code_points (s : string) : list string :=
  code_points_fuel (String.length s) s.

(** ** JavaScript values *)

#[warnings="-register-all"]
Inductive value : Type :=
| VUndefined
| VNull
| VBool (b : bool)
| VInt (z : Z)             (* an integral number, printed as its digits *)
| VFrac (shown : string)   (* any other number, carried by the text
                              [Number::toString] gives for it; never zero *)
| VStr (s : string)
| VArr (items : list value)
| VObj (props : list (string * value)). (* own properties, in enumeration order *)

(** The parts of the engine the script calls and does not define. *)
Record engine : Type := {
  (* [String.prototype.toLowerCase] *)
  toLowerCase : string -> string;
  (* [ToNumber(s) > 0] for a string [s] *)
  stringGtZero : string -> bool;
  (* the message of the TypeError raised by a faulting operation *)
  typeErrorMessage : string -> string
}.

(** What a [throw] carries. *)
Inductive exn : Type :=
| JsError (message : string)    (* [new Error(message)] of the script *)
| TypeError (operation : string) (* raised by the engine *)
| Rejection (message : string). (* a rejected promise of [fetch] or [json()] *)

(** Completion of an evaluation: a value, or a throw. *)
Inductive completion (A : Type) : Type :=
| Returns (a : A)
| Throws (e : exn).

Arguments Returns {A} a.
Arguments Throws {A} e.

Definition andThen {A B : Type} (m : completion A) (k : A -> completion B)
  : completion B :=
  match m with
  | Returns a => k a
  | Throws e => Throws e
  end.

Notation "x <- m ;; k" := (andThen m (fun x => k))
  (at level 61, m at next level, right associativity).

(** [ToBoolean]. *)
Definition truthy (v : value) : bool :=
  match v with
  | VUndefined | VNull => false
  | VBool b => b
  | VInt z => negb (z =? 0)%Z
  | VFrac _ => true
  | VStr s => negb (String.eqb s "")
  | VArr _ | VObj _ => true
  end.

(** [a || b]. *)
Definition orElse (a b : value) : value :=
  if truthy a then a else b.

Definition nullish (v : value) : bool :=
  match v with
  | VUndefined | VNull => true
  | _ => false
  end.

Definition isNull (v : value) : bool :=
  match v with VNull => true | _ => false end.

(** [v === 'lit']. *)
Definition strictEqStr (v : value) (lit : string) : bool :=
  match v with
  | VStr s => String.eqb s lit
  | _ => false
  end.

(** [v === 0]. *)
Definition strictEqZero (v : value) : bool :=
  match v with
  | VInt z => (z =? 0)%Z
  | _ => false
  end.

Fixpoint lookup (k : string) (props : list (string * value)) : value :=
  match props with
  | [] => VUndefined
  | (k', v) :: rest => if String.eqb k k' then v else lookup k rest
  end.

(** [v.k] for a receiver that is neither [undefined] nor [null], and a
    name [k] that is [length] or no member of a built-in prototype (every
    name the script reads is one of these). *)
Definition get (k : string) (v : value) : value :=
  match v with
  | VObj props => lookup k props
  | VArr items => if String.eqb k "length" then VInt (Z.of_nat (List.length items)) else VUndefined
  | VStr s => if String.eqb k "length" then VInt (utf16_length s) else VUndefined
  | _ => VUndefined
  end.

(** [v.k] for any receiver: reading a property of [undefined] or [null]
    throws. *)
Definition prop (k : string) (v : value) : completion value :=
  if nullish v then Throws (TypeError ("read " ++ k)) else Returns (get k v).

(** [ToString], as a template literal applies it: the text, when the
    conversion returns (see [printable]). *)
Fixpoint toStr (v : value) : string :=
  match v with
  | VUndefined => "undefined"
  | VNull => "null"
  | VBool true => "true"
  | VBool false => "false"
  | VInt z => decimal z
  | VFrac shown => shown
  | VStr s => s
  | VArr items =>
      (fix join (l : list value) : string :=
         match l with
         | [] => ""
         | x :: r =>
             (if nullish x then "" else toStr x) ++
             match r with
             | [] => ""
             | _ :: _ => "," ++ join r
             end
         end) items
  | VObj _ => "[object Object]"
  end.

(** [props] has a property named [k]. *)
Definition hasKey (k : string) (props : list (string * value)) : bool :=
  existsb (fun kv => String.eqb k (fst kv)) props.

(** Whether [ToPrimitive] returns for a value. An object is converted
    through its [toString] and [valueOf]: an object with a property of
    its own named [toString] (never a function, in a parsed result) has
    none to call, and the inherited [valueOf] gives back the object, so
    the conversion throws. An array is converted through [join], which
    converts its members. *)
Fixpoint printable (v : value) : bool :=
  match v with
  | VArr items => forallb printable items
  | VObj props => negb (hasKey "toString" props)
  | _ => true
  end.

(** [`${v}`]: [ToString] of a substitution of a template literal. *)
Definition str (v : value) : completion string :=
  if printable v then Returns (toStr v)
  else Throws (TypeError "convert to primitive").

(** [v > 0], when the comparison returns. *)
Definition gtZero (E : engine) (v : value) : bool :=
  match v with
  | VUndefined | VNull => false
  | VBool b => b
  | VInt z => (0 <? z)%Z
  | VFrac shown => negb (startsWith shown "-")
  | VStr s => stringGtZero E s
  | VArr _ => stringGtZero E (toStr v)
  | VObj _ => false
  end.

(** [v > 0]: the operand is converted to a primitive first. *)
Definition greaterThanZero (E : engine) (v : value) : completion bool :=
  if printable v then Returns (gtZero E v)
  else Throws (TypeError "convert to primitive").

(** [x && x.length > 0], when the test returns. *)
Definition hasItems (E : engine) (x : value) : bool :=
  truthy x && gtZero E (get "length" x).

(** [x && x.length > 0]. *)
Definition testItems (E : engine) (x : value) : completion bool :=
  if truthy x then greaterThanZero E (get "length" x) else Returns false.

(** [l.map(f)], for an [f] that may throw. *)
Fixpoint mapEach (f : value -> completion string) (l : list value)
  : completion (list string) :=
  match l with
  | [] => Returns []
  | x :: r => piece <- f x ;; pieces <- mapEach f r ;; Returns (piece :: pieces)
  end.

(** [x.map(f).join('')], for an [f] that returns a string. Only an array
    has a [map] to call. *)
Definition mapJoin (f : value -> completion string) (x : value)
  : completion string :=
  match x with
  | VArr items => pieces <- mapEach f items ;; Returns (String.concat "" pieces)
  | _ => Throws (TypeError "call map")
  end.

(** The values [for (const x of v)] runs through. *)
Definition iterate (v : value) : completion (list value) :=
  match v with
  | VArr items => Returns items
  | VStr s => Returns (map VStr (code_points s))
  | _ => Throws (TypeError "iterate")
  end.

(** [v?.toLowerCase()]. *)
Definition optLower (E : engine) (v : value) : completion value :=
  match v with
  | VUndefined | VNull => Returns VUndefined
  | VStr s => Returns (VStr (toLowerCase E s))
  | _ => Throws (TypeError "call toLowerCase")
  end.

(** [error.message]. *)
Definition message (E : engine) (e : exn) : string :=
  match e with
  | JsError m => m
  | TypeError op => typeErrorMessage E op
  | Rejection m => m
  end.

(** ** The page: global state and the elements the script touches *)

(** The five tabs the script sets its listeners up for. *)
Inductive tab : Type := Triage | Reports | Scribe | Translator | Polypharmacy.

Definition tabName (t : tab) : string :=
  match t with
  | Triage => "triage"
  | Reports => "reports"
  | Scribe => "scribe"
  | Translator => "translator"
  | Polypharmacy => "polypharmacy"
  end.

(** One slot per tab, as in [fileStorage = {triage: [], reports: [], ...}]
    and for the elements whose id starts with a tab's name. *)
Record perTab (A : Type) : Type := {
  triage : A;
  reports : A;
  scribe : A;
  translator : A;
  polypharmacy : A
}.

Arguments triage {A} _.
Arguments reports {A} _.
Arguments scribe {A} _.
Arguments translator {A} _.
Arguments polypharmacy {A} _.

Definition every {A : Type} (a : A) : perTab A :=
  {| triage := a; reports := a; scribe := a; translator := a; polypharmacy := a |}.

Definition slot {A : Type} (t : tab) (m : perTab A) : A :=
  match t with
  | Triage => triage m
  | Reports => reports m
  | Scribe => scribe m
  | Translator => translator m
  | Polypharmacy => polypharmacy m
  end.

Definition setSlot {A : Type} (t : tab) (a : A) (m : perTab A) : perTab A :=
  match t with
  | Triage =>
      {| triage := a; reports := reports m; scribe := scribe m;
         translator := translator m; polypharmacy := polypharmacy m |}
  | Reports =>
      {| triage := triage m; reports := a; scribe := scribe m;
         translator := translator m; polypharmacy := polypharmacy m |}
  | Scribe =>
      {| triage := triage m; reports := reports m; scribe := a;
         translator := translator m; polypharmacy := polypharmacy m |}
  | Translator =>
      {| triage := triage m; reports := reports m; scribe := scribe m;
         translator := a; polypharmacy := polypharmacy m |}
  | Polypharmacy =>
      {| triage := triage m; reports := reports m; scribe := scribe m;
         translator := translator m; polypharmacy := a |}
  end.

(** A [File]: its name, its declared MIME type and its bytes. *)
Record file : Type := {
  name : string;
  type : string;
  bytes : string
}.

(** A preview container: the file-count line, when there is one; the
    items appended to it so far, each with the file read and the index its
    remove button passes; and the reads that were started for it and have
    not finished. A read is never cancelled: when it finishes, its item is
    appended to the container, whatever was drawn in between. *)
Record previewContainer : Type := {
  fileCount : option string;
  previewItems : list (Z * file);
  reads : list (Z * file)
}.

(** What the script does to the world outside its own variables. *)
Inductive event : Type :=
| Toast (text kind : string)
| Loading (show : bool)
| ConsoleError (label : string) (e : exn)
| Fetch (url : string) (files : list file) (session_id : string).

Record page : Type := {
  sessionId : value;                   (* [null] until the session is created *)
  fileStorage : perTab (list file);
  processBtn : perTab (option bool);   (* [disabled] of the tab's process button;
                                          [None] when the page has no such element *)
  preview : perTab previewContainer;
  results : perTab string;             (* [innerHTML] of the results containers *)
  loading : bool;                      (* the overlay has class [active] *)
  toast : option (string * string);    (* [textContent] and [className] *)
  trace : list event                   (* oldest first *)
}.

Definition withStorage (f : perTab (list file)) (p : page) : page :=
  {| sessionId := sessionId p; fileStorage := f; processBtn := processBtn p;
     preview := preview p; results := results p; loading := loading p;
     toast := toast p; trace := trace p |}.

Definition withButtons (b : perTab (option bool)) (p : page) : page :=
  {| sessionId := sessionId p; fileStorage := fileStorage p; processBtn := b;
     preview := preview p; results := results p; loading := loading p;
     toast := toast p; trace := trace p |}.

Definition withPreview (v : perTab previewContainer) (p : page) : page :=
  {| sessionId := sessionId p; fileStorage := fileStorage p;
     processBtn := processBtn p; preview := v; results := results p;
     loading := loading p; toast := toast p; trace := trace p |}.

Definition withResults (r : perTab string) (p : page) : page :=
  {| sessionId := sessionId p; fileStorage := fileStorage p;
     processBtn := processBtn p; preview := preview p; results := r;
     loading := loading p; toast := toast p; trace := trace p |}.

Definition withLoading (l : bool) (p : page) : page :=
  {| sessionId := sessionId p; fileStorage := fileStorage p;
     processBtn := processBtn p; preview := preview p; results := results p;
     loading := l; toast := toast p; trace := trace p |}.

Definition withToast (t : option (string * string)) (p : page) : page :=
  {| sessionId := sessionId p; fileStorage := fileStorage p;
     processBtn := processBtn p; preview := preview p; results := results p;
     loading := loading p; toast := t; trace := trace p |}.

Definition emit (e : event) (p : page) : page :=
  {| sessionId := sessionId p; fileStorage := fileStorage p;
     processBtn := processBtn p; preview := preview p; results := results p;
     loading := loading p; toast := toast p; trace := trace p ++ [e] |}.

(** The page when the script starts: nothing staged, nothing shown. The
    markup that decides which buttons exist and whether they start
    disabled is not part of the script. *)
Definition startPage (buttons : perTab (option bool)) : page :=
  {| sessionId := VNull;
     fileStorage := every [];
     processBtn := buttons;
     preview := every {| fileCount := None; previewItems := []; reads := [] |};
     results := every "";
     loading := false;
     toast := None;
     trace := [] |}.

Definition API_BASE : string := "http://localhost:8000/api".

(** ** UI helpers *)

Definition showLoading (show : bool) (p : page) : page :=
  emit (Loading show) (withLoading show p).

Definition showToast (text kind : string) (p : page) : page :=
  emit (Toast text kind) (withToast (Some (text, "toast show " ++ kind)) p).

Definition consoleError (label : string) (e : exn) (p : page) : page :=
  emit (ConsoleError label e) p.

(** ** File handling *)

Definition staged (t : tab) (p : page) : list file := slot t (fileStorage p).

Definition setStaged (t : tab) (l : list file) (p : page) : page :=
  withStorage (setSlot t l (fileStorage p)) p.

(** [l] with the index of each member. *)
Fixpoint indexed {A : Type} (from : Z) (l : list A) : list (Z * A) :=
  match l with
  | [] => []
  | x :: r => (from, x) :: indexed (from + 1) r
  end.

(** [updatePreview]: the container is emptied, a read is started for each
    staged file, and the file-count line is put in front. The reads under
    way from earlier calls go on. *)
Definition updatePreview (t : tab) (p : page) : page :=
  let files := staged t p in
  let underWay := reads (slot t (preview p)) in
  let count :=
    if (0 <? List.length files)%nat
    then Some (decimal (Z.of_nat (List.length files)) ++ " file(s) selected")
    else None in
  withPreview
    (setSlot t {| fileCount := count; previewItems := [];
                  reads := underWay ++ indexed 0 files |} (preview p)) p.

(** [reader.onload], when the [n]-th of the reads under way for the
    container of [t] finishes: its item is appended. The reads finish in
    any order, or never. *)
Definition onload (t : tab) (n : nat) (p : page) : page :=
  let container := slot t (preview p) in
  match nth_error (reads container) n with
  | None => p
  | Some item =>
      withPreview
        (setSlot t {| fileCount := fileCount container;
                      previewItems := previewItems container ++ [item];
                      reads := firstn n (reads container) ++
                               skipn (S n) (reads container) |} (preview p)) p
  end.

Definition isImage (f : file) : bool := startsWith (type f) "image/".

Definition maxFiles (t : tab) : nat :=
  match t with
  | Translator => 1
  | _ => 10
  end.

Definition handleFileSelect (t : tab) (files : list file) (p : page) : page :=
  if (List.length files =? 0)%nat then p
  else if (maxFiles t <? List.length files)%nat then
    showToast ("Maximum " ++ decimal (Z.of_nat (maxFiles t)) ++ " file(s) allowed")
              "error" p
  else
    (* Clear previous files *)
    let p := setStaged t [] p in
    (* Store file objects *)
    let p :=
      fold_left
        (fun p f => if isImage f then setStaged t (staged t p ++ [f])%list p else p)
        files p in
    let p := updatePreview t p in
    (* Enable process button *)
    match slot t (processBtn p) with
    | Some _ =>
        if (0 <? List.length (staged t p))%nat
        then withButtons (setSlot t (Some false) (processBtn p)) p
        else p
    | None => p
    end.

(** [l.splice(index, 1)]: a negative [index] counts from the end, and the
    start is clamped to the list. *)
Definition splice1 {A : Type} (index : Z) (l : list A) : list A :=
  let len := Z.of_nat (List.length l) in
  let start :=
    if (index <? 0)%Z then Z.max (len + index) 0 else Z.min index len in
  (firstn (Z.to_nat start) l ++ skipn (S (Z.to_nat start)) l)%list.

Definition removeFile (t : tab) (index : Z) (p : page) : page :=
  let p := setStaged t (splice1 index (staged t p)) p in
  let p := updatePreview t p in
  match slot t (processBtn p) with
  | Some _ =>
      if (List.length (staged t p) =? 0)%nat
      then withButtons (setSlot t (Some true) (processBtn p)) p
      else p
  | None => p
  end.

(** ** Results display *)

Section Renderer.

Variable E : engine.

(** [for (const x of l) { html += body(x) }], where evaluating the body
    may throw. *)
Fixpoint appendEach {A : Type} (body : A -> completion string) (l : list A)
    (html : string) : completion string :=
  match l with
  | [] => Returns html
  | x :: r => piece <- body x ;; appendEach body r (html ++ piece)
  end.

Definition vitalsMap : list (string * (string * string)) :=
  [ ("pulse", ("💓 Pulse", "bpm"));
    ("bp", ("🩺 Blood Pressure", "mmHg"));
    ("spo2", ("🫁 SpO2", "%"));
    ("temperature", ("🌡️ Temperature", "°C")) ].

(** One turn of the loop of [buildVitalsTable]. *)
Definition vitalItem (vitals : value) (entry : string * (string * string))
  : completion string :=
  let '(key, (label, unit)) := entry in
  let value := get key vitals in
  displayValue <-
    (if nullish value then Returns "Not recorded"
     else shown <- str value ;; Returns (shown ++ " " ++ unit)) ;;
  Returns ("
            <div class=~vital-item~>
                <span class=~vital-label~>" ++ label ++ "</span>
                <span class=~vital-value " ++ (if isNull value then "missing" else "") ++ "~>" ++ displayValue ++ "</span>
            </div>
        ").

Definition buildVitalsTable (vitals : value) : completion string :=
  if negb (truthy vitals) then Returns "<p class=~no-data~>No vitals extracted</p>"
  else
    let html := "<div class=~vitals-grid~>" in
    html <- appendEach (vitalItem vitals) vitalsMap html ;;
    html <-
      (if truthy (get "physical_signs" vitals) then
         signs <- str (get "physical_signs" vitals) ;;
         Returns (html ++ "
            <div class=~vital-item full-width~>
                <span class=~vital-label~>👀 Physical Observations</span>
                <span class=~vital-value~>" ++ signs ++ "</span>
            </div>
        ")
       else Returns html) ;;
    Returns (html ++ "</div>").

Definition buildPhysicalAssessment (physical : value) : completion string :=
  if negb (truthy physical)
  then Returns "<p class=~no-data~>No physical assessment available</p>"
  else
    let html := "<div class=~physical-assessment~>" in
    html <-
      (if truthy (get "physical_condition" physical) then
         condition <- str (get "physical_condition" physical) ;;
         Returns (html ++ "
            <div class=~assessment-item~>
                <span class=~assessment-label~>🩺 Overall Condition</span>
                <span class=~assessment-value~>" ++ condition ++ "</span>
            </div>
        ")
       else Returns html) ;;
    html <-
      (if truthy (get "distress_level" physical) then
        let level := get "distress_level" physical in
        let distressClass :=
          if strictEqStr level "Severe" then "danger"
          else if strictEqStr level "Moderate" then "warning"
          else if strictEqStr level "Mild" then "warning"
          else "info" in
        let distressIcon :=
          if strictEqStr level "Severe" then "🔴"
          else if strictEqStr level "Moderate" then "🟡"
          else if strictEqStr level "Mild" then "🟡"
          else "🟢" in
        shown <- str level ;;
        Returns (html ++ "
            <div class=~assessment-item~>
                <span class=~assessment-label~>⚠️ Distress Level</span>
                <span class=~assessment-badge " ++ distressClass ++ "~>" ++ distressIcon ++ " " ++ shown ++ "</span>
            </div>
        ")
       else Returns html) ;;
    html <-
      (if truthy (get "breathing_assessment" physical) then
         breathing <- str (get "breathing_assessment" physical) ;;
         Returns (html ++ "
            <div class=~assessment-item~>
                <span class=~assessment-label~>🫁 Breathing</span>
                <span class=~assessment-value~>" ++ breathing ++ "</span>
            </div>
        ")
       else Returns html) ;;
    html <-
      (if truthy (get "consciousness" physical) then
        let consciousnessClass :=
          if strictEqStr (get "consciousness" physical) "alert" then "success"
          else if strictEqStr (get "consciousness" physical) "drowsy" then "warning"
          else "danger" in
        shown <- str (get "consciousness" physical) ;;
        Returns (html ++ "
            <div class=~assessment-item~>
                <span class=~assessment-label~>🧠 Consciousness</span>
                <span class=~assessment-badge " ++ consciousnessClass ++ "~>" ++ shown ++ "</span>
            </div>
        ")
       else Returns html) ;;
    html <-
      (has <- testItems E (get "visible_signs" physical) ;;
       if has then
         signs <- mapJoin (fun sign =>
                             shown <- str sign ;;
                             Returns ("<span class=~sign-badge~>" ++ shown ++ "</span>"))
                          (get "visible_signs" physical) ;;
         Returns (html ++ "
            <div class=~assessment-item full-width~>
                <span class=~assessment-label~>👀 Visible Signs</span>
                <div class=~signs-list~>
                    " ++ signs ++ "
                </div>
            </div>
        ")
       else Returns html) ;;
    Returns (html ++ "</div>").

Definition buildTriageAnalysis (analysis : value) : completion string :=
  if negb (truthy analysis)
  then Returns "<p class=~no-data~>No analysis available</p>"
  else
    let statusClass := "warning" in
    let statusIcon := "🟡" in
    let statusClass :=
      if strictEqStr (get "priority" analysis) "RED" then "danger" else statusClass in
    let statusIcon :=
      if strictEqStr (get "priority" analysis) "RED" then "🔴" else statusIcon in
    let statusClass :=
      if strictEqStr (get "priority" analysis) "GREEN" then "success" else statusClass in
    let statusIcon :=
      if strictEqStr (get "priority" analysis) "GREEN" then "🟢" else statusIcon in
    priority <- str (orElse (get "priority" analysis) (VStr "Unknown")) ;;
    let html := "
        <div class=~priority-badge " ++ statusClass ++ "~>
            <span class=~priority-icon~>" ++ statusIcon ++ "</span>
            <span class=~priority-text~>" ++ priority ++ " Priority</span>
        </div>
    " in
    html <-
      (if truthy (get "justification_english" analysis) then
         justification <- str (get "justification_english" analysis) ;;
         Returns (html ++ "
            <div class=~justification~>
                <h4>🗣️ English</h4>
                <p>" ++ justification ++ "</p>
            </div>
        ")
       else Returns html) ;;
    html <-
      (if truthy (get "justification_hindi" analysis) then
         justification <- str (get "justification_hindi" analysis) ;;
         Returns (html ++ "
            <div class=~justification~>
                <h4>🗣️ हिंदी</h4>
                <p>" ++ justification ++ "</p>
            </div>
        ")
       else Returns html) ;;
    html <-
      (if truthy (get "recommended_action" analysis) then
         action <- str (get "recommended_action" analysis) ;;
         Returns (html ++ "
            <div class=~action-box~>
                <h4>💡 Recommended Action</h4>
                <p>" ++ action ++ "</p>
            </div>
        ")
       else Returns html) ;;
    (* Show vitals flags if present *)
    html <-
      (has <- testItems E (get "key_vital_flags" analysis) ;;
       if has then
         flags <- mapJoin (fun flag =>
                             shown <- str flag ;;
                             Returns ("<li class=~vital-flag~>" ++ shown ++ "</li>"))
                          (get "key_vital_flags" analysis) ;;
         Returns (html ++ "
            <div class=~flags-list~>
                <h4>⚠️ Vital Signs Concerns</h4>
                <ul>" ++ flags ++ "</ul>
            </div>
        ")
       else Returns html) ;;
    (* Show physical flags if present *)
    html <-
      (has <- testItems E (get "physical_flags" analysis) ;;
       if has then
         flags <- mapJoin (fun flag =>
                             shown <- str flag ;;
                             Returns ("<li class=~physical-flag~>" ++ shown ++ "</li>"))
                          (get "physical_flags" analysis) ;;
         Returns (html ++ "
            <div class=~flags-list~>
                <h4>👁️ Physical Assessment Concerns</h4>
                <ul>" ++ flags ++ "</ul>
            </div>
        ")
       else Returns html) ;;
    html <-
      (if truthy (get "assessment_basis" analysis) then
         basis <- str (get "assessment_basis" analysis) ;;
         Returns (html ++ "
            <div class=~assessment-basis~>
                <span class=~basis-badge~>📋 Based on: " ++ basis ++ "</span>
            </div>
        ")
       else Returns html) ;;
    Returns html.

Definition buildTriageResults (result : value) : completion string :=
  let vitals := get "vitals_extraction" result in
  let physical := get "physical_assessment" result in
  let analysis := get "triage_analysis" result in
  vitalsHtml <- buildVitalsTable vitals ;;
  physicalHtml <- buildPhysicalAssessment physical ;;
  analysisHtml <- buildTriageAnalysis analysis ;;
  Returns ("
        <div class=~result-item~>
            <div class=~result-label~>📊 Vitals Extracted</div>
            <div class=~result-content~>
                " ++ vitalsHtml ++ "
            </div>
        </div>
        <div class=~result-item~>
            <div class=~result-label~>👁️ Physical Assessment</div>
            <div class=~result-content~>
                " ++ physicalHtml ++ "
            </div>
        </div>
        <div class=~result-item~>
            <div class=~result-label~>🚑 Triage Analysis</div>
            <div class=~result-content~>
                " ++ analysisHtml ++ "
            </div>
        </div>
    ").

(** One turn of the loop of [buildTestsTable]. *)
Definition testRow (test : value) : completion string :=
  status <- prop "status" test ;;
  let statusClass :=
    if strictEqStr status "Normal" then "normal"
    else if strictEqStr status "High" then "high"
    else if strictEqStr status "Low" then "low"
    else "unknown" in
  name <- str (orElse (get "test_name" test) (VStr "Unknown")) ;;
  result <- str (orElse (get "result" test) (VStr "N/A")) ;;
  unit <- str (orElse (get "unit" test) (VStr "")) ;;
  range <- str (orElse (get "reference_range" test) (VStr "N/A")) ;;
  shown <- str (orElse (get "status" test) (VStr "Unknown")) ;;
  Returns ("
            <div class=~test-row~>
                <span class=~test-name~>" ++ name ++ "</span>
                <span class=~test-result~>" ++ result ++ " " ++ unit ++ "</span>
                <span class=~test-range~>" ++ range ++ "</span>
                <span class=~test-status " ++ statusClass ++ "~>" ++ shown ++ "</span>
            </div>
        ").

Definition buildTestsTable (tests : value) : completion string :=
  if negb (truthy tests) || strictEqZero (get "length" tests)
  then Returns "<p class=~no-data~>⚠️ No test data extracted. The image might need better quality or different angle.</p>"
  else
    let html := "<div class=~tests-table~>" in
    let html := html ++ "
        <div class=~test-header~>
            <span>Test Name</span>
            <span>Result</span>
            <span>Reference Range</span>
            <span>Status</span>
        </div>
    " in
    items <- iterate tests ;;
    html <- appendEach testRow items html ;;
    Returns (html ++ "</div>").

(** One turn of the loop of [buildPatientExplanation]. *)
Definition explanationItem (exp : value) : completion string :=
  status <- prop "status" exp ;;
  let statusIcon :=
    if strictEqStr status "Normal" then "✅"
    else if strictEqStr status "Concerning" then "⚠️"
    else "❓" in
  name <- str (get "test_name" exp) ;;
  lowered <- optLower E status ;;
  class <- str lowered ;;
  shown <- str status ;;
  explanation <- str (get "simple_explanation" exp) ;;
  analogy <-
    (if truthy (get "analogy" exp) then
       text <- str (get "analogy" exp) ;;
       Returns ("<p class=~exp-analogy~>💡 <em>" ++ text ++ "</em></p>")
     else Returns "") ;;
  Returns ("
            <div class=~explanation-item~>
                <div class=~exp-header~>
                    <span class=~exp-test-name~>" ++ statusIcon ++ " " ++ name ++ "</span>
                    <span class=~exp-status " ++ class ++ "~>" ++ shown ++ "</span>
                </div>
                <p class=~exp-description~>" ++ explanation ++ "</p>
                " ++ analogy ++ "
            </div>
        ").

Definition buildPatientExplanation (explanations : value) : completion string :=
  if negb (truthy explanations) || negb (truthy (get "explanations" explanations))
  then Returns "<p class=~no-data~>No explanations available</p>"
  else
    let html := "<div class=~explanations-list~>" in
    items <- iterate (get "explanations" explanations) ;;
    html <- appendEach explanationItem items html ;;
    html <-
      (has <- testItems E (get "next_steps" explanations) ;;
       if has then
         steps <- mapJoin (fun step =>
                             shown <- str step ;;
                             Returns ("<li>" ++ shown ++ "</li>"))
                          (get "next_steps" explanations) ;;
         Returns (html ++ "
            <div class=~next-steps~>
                <h4>📋 Next Steps</h4>
                <ul>" ++ steps ++ "</ul>
            </div>
        ")
       else Returns html) ;;
    html <-
      (if truthy (get "warning_signs" explanations) then
         signs <- str (get "warning_signs" explanations) ;;
         Returns (html ++ "
            <div class=~warning-signs~>
                <h4>🚨 Warning Signs</h4>
                <p>" ++ signs ++ "</p>
            </div>
        ")
       else Returns html) ;;
    Returns (html ++ "</div>").

Definition buildReportsResults (result : value) : completion string :=
  let tests := get "extracted_tests" result in
  let explanations := get "patient_explanations" result in
  testsHtml <- buildTestsTable tests ;;
  explanationHtml <- buildPatientExplanation explanations ;;
  Returns ("
        <div class=~result-item~>
            <div class=~result-label~>🔬 Extracted Tests</div>
            <div class=~result-content~>
                " ++ testsHtml ++ "
            </div>
        </div>
        <div class=~result-item~>
            <div class=~result-label~>📖 Patient Explanation</div>
            <div class=~result-content~>
                " ++ explanationHtml ++ "
            </div>
        </div>
    ").

Definition buildTranscribedNotes (notes : value) : completion string :=
  if negb (truthy notes)
  then Returns "<p class=~no-data~>No notes transcribed</p>"
  else
    let html := "<div class=~notes-sections~>" in
    html <-
      (has <- testItems E (get "chief_complaints" notes) ;;
       if has then
         items <- mapJoin (fun complaint =>
                             shown <- str complaint ;;
                             Returns ("<li>" ++ shown ++ "</li>"))
                          (get "chief_complaints" notes) ;;
         Returns (html ++ "
            <div class=~notes-section~>
                <h4>🩺 Chief Complaints</h4>
                <ul class=~complaints-list~>
                    " ++ items ++ "
                </ul>
            </div>
        ")
       else Returns html) ;;
    html <-
      (if truthy (get "duration" notes) then
         duration <- str (get "duration" notes) ;;
         Returns (html ++ "
            <div class=~notes-section~>
                <h4>⏳ Duration of Illness</h4>
                <p class=~duration-text~>" ++ duration ++ "</p>
            </div>
        ")
       else Returns html) ;;
    html <-
      (has <- testItems E (get "previous_medications" notes) ;;
       if has then
         items <- mapJoin (fun med =>
                             shown <- str med ;;
                             Returns ("<li>" ++ shown ++ "</li>"))
                          (get "previous_medications" notes) ;;
         Returns (html ++ "
            <div class=~notes-section~>
                <h4>💊 Previous Medications</h4>
                <ul class=~medications-list~>
                    " ++ items ++ "
                </ul>
            </div>
        ")
       else Returns html) ;;
    html <-
      (has <- testItems E (get "allergies" notes) ;;
       if has then
         items <- mapJoin (fun allergy =>
                             shown <- str allergy ;;
                             Returns ("<li class=~allergy-item~>" ++ shown ++ "</li>"))
                          (get "allergies" notes) ;;
         Returns (html ++ "
            <div class=~notes-section~>
                <h4>⚠️ Allergies</h4>
                <ul class=~allergies-list~>
                    " ++ items ++ "
                </ul>
            </div>
        ")
       else Returns (html ++ "
            <div class=~notes-section~>
                <h4>⚠️ Allergies</h4>
                <p class=~no-allergies~>No allergies noted</p>
            </div>
        ")) ;;
    html <-
      (has <- testItems E (get "examination_findings" notes) ;;
       if has then
         items <- mapJoin (fun finding =>
                             shown <- str finding ;;
                             Returns ("<li>" ++ shown ++ "</li>"))
                          (get "examination_findings" notes) ;;
         Returns (html ++ "
            <div class=~notes-section~>
                <h4>🔍 Examination Findings</h4>
                <ul class=~findings-list~>
                    " ++ items ++ "
                </ul>
            </div>
        ")
       else Returns html) ;;
    Returns (html ++ "</div>").

Definition buildExecutiveSummary (summary : value) : completion string :=
  if negb (truthy summary)
  then Returns "<p class=~no-data~>No executive summary available</p>"
  else
    let html := "<div class=~executive-summary~>" in
    html <-
      (has <- testItems E (get "executive_summary" summary) ;;
       if has then
         items <- mapJoin (fun point =>
                             shown <- str point ;;
                             Returns ("<li class=~summary-point~>" ++ shown ++ "</li>"))
                          (get "executive_summary" summary) ;;
         Returns (html ++ "
            <div class=~summary-points~>
                <h4>📌 Key Points</h4>
                <ol class=~summary-list~>
                    " ++ items ++ "
                </ol>
            </div>
        ")
       else Returns html) ;;
    html <-
      (has <- testItems E (get "critical_flags" summary) ;;
       if has then
         items <- mapJoin (fun flag =>
                             shown <- str flag ;;
                             Returns ("<li class=~flag-item~>" ++ shown ++ "</li>"))
                          (get "critical_flags" summary) ;;
         Returns (html ++ "
            <div class=~critical-flags~>
                <h4>🚨 Critical Flags</h4>
                <ul class=~flags-list~>
                    " ++ items ++ "
                </ul>
            </div>
        ")
       else Returns html) ;;
    html <-
      (if truthy (get "doctor_focus_time" summary) then
         time <- str (get "doctor_focus_time" summary) ;;
         Returns (html ++ "
            <div class=~focus-time~>
                <span class=~time-badge~>⏱️ " ++ time ++ "</span>
            </div>
        ")
       else Returns html) ;;
    Returns (html ++ "</div>").

Definition buildScribeResults (result : value) : completion string :=
  let notes := get "transcribed_notes" result in
  let summary := get "doctor_summary" result in
  notesHtml <- buildTranscribedNotes notes ;;
  summaryHtml <- buildExecutiveSummary summary ;;
  Returns ("
        <div class=~result-item~>
            <div class=~result-label~>✍️ Transcribed Notes</div>
            <div class=~result-content~>
                " ++ notesHtml ++ "
            </div>
        </div>
        <div class=~result-item~>
            <div class=~result-label~>📋 Executive Summary</div>
            <div class=~result-content~>
                " ++ summaryHtml ++ "
            </div>
        </div>
    ").

Definition newline : string := "
".

Definition hexDigit (n : N) : string :=
  String.substring (N.to_nat n) 1 "0123456789abcdef".

(** [QuoteJSONString], one byte at a time: bytes of a multi-byte sequence
    are copied. *)
Definition quoteJSONChar (c : ascii) : string :=
  let n := byte_code c in
  if (n =? 8)%N then "\b"
  else if (n =? 9)%N then "\t"
  else if (n =? 10)%N then "\n"
  else if (n =? 12)%N then "\f"
  else if (n =? 13)%N then "\r"
  else if (n =? 34)%N then "\~"
  else if (n =? 92)%N then "\\"
  else if (n <? 32)%N then "\u00" ++ hexDigit (n / 16) ++ hexDigit (n mod 16)
  else String c "".

Fixpoint quoteJSONBody (s : string) : string :=
  match s with
  | EmptyString => ""
  | String c r => quoteJSONChar c ++ quoteJSONBody r
  end.

Definition quoteJSON (s : string) : string := "~" ++ quoteJSONBody s ++ "~".

(** The members of an object as [JSON.stringify] writes them, [write]
    being what it writes for a value: a property that is [undefined] is
    left out. *)
Definition memberTexts (write : value -> string)
  : list (string * value) -> list string :=
  fix members (l : list (string * value)) : list string :=
    match l with
    | [] => []
    | (k, VUndefined) :: r => members r
    | (k, x) :: r => (quoteJSON k ++ ": " ++ write x) :: members r
    end.

(** [SerializeJSONProperty] with a gap of two spaces, at the indentation
    [indent]. An [undefined] array element is written [null], and so is a
    number that is not finite; an [undefined] property is left out. *)
Fixpoint serialize (indent : string) (v : value) : string :=
  match v with
  | VUndefined | VNull => "null"
  | VBool true => "true"
  | VBool false => "false"
  | VInt z => decimal z
  | VFrac shown =>
      if String.eqb shown "Infinity" || String.eqb shown "-Infinity"
      then "null" else shown
  | VStr s => quoteJSON s
  | VArr items =>
      let stepback := indent in
      let indent := indent ++ "  " in
      match items with
      | [] => "[]"
      | _ :: _ =>
          "[" ++ newline ++ indent ++
          String.concat ("," ++ newline ++ indent) (map (serialize indent) items) ++
          newline ++ stepback ++ "]"
      end
  | VObj props =>
      let stepback := indent in
      let indent := indent ++ "  " in
      let partial := memberTexts (serialize indent) props in
      match partial with
      | [] => "{}"
      | _ :: _ =>
          "{" ++ newline ++ indent ++
          String.concat ("," ++ newline ++ indent) partial ++
          newline ++ stepback ++ "}"
      end
  end.

(** [JSON.stringify(v, null, 2)]: [undefined] for [undefined], a string
    otherwise. *)
Definition stringify (v : value) : value :=
  match v with
  | VUndefined => VUndefined
  | _ => VStr (serialize "" v)
  end.

Definition buildTranslatorResults (result : value) : string :=
  let translation := get "translation" result in
  let validation := get "validation" result in
  "
        <div class=~result-item~>
            <div class=~result-label~>🌐 Translation</div>
            <div class=~result-value~>
                <pre>" ++ toStr (stringify translation) ++ "</pre>
            </div>
        </div>
        <div class=~result-item~>
            <div class=~result-label~>✔️ Validation</div>
            <div class=~result-value~>
                <pre>" ++ toStr (stringify validation) ++ "</pre>
            </div>
        </div>
    ".

(** One turn of the loop of [buildMedicinesList]. *)
Definition medicineCard (med : value) : completion string :=
  brand <- prop "brand_name" med ;;
  brand <- str (orElse brand (VStr "[Unclear]")) ;;
  generic <- str (orElse (get "generic_name" med) (VStr "[Unclear]")) ;;
  strength <- str (orElse (get "strength" med) (VStr "[Unclear]")) ;;
  form <- str (orElse (get "form" med) (VStr "[Unclear]")) ;;
  frequency <-
    (if truthy (get "frequency" med) then
       text <- str (get "frequency" med) ;;
       Returns ("<span class=~frequency~>⏰ " ++ text ++ "</span>")
     else Returns "") ;;
  Returns ("
            <div class=~medicine-card~>
                <div class=~med-header~>
                    <span class=~brand-name~>" ++ brand ++ "</span>
                    <span class=~generic-name~>" ++ generic ++ "</span>
                </div>
                <div class=~med-details~>
                    <span class=~strength~>💪 " ++ strength ++ "</span>
                    <span class=~form~>💊 " ++ form ++ "</span>
                    " ++ frequency ++ "
                </div>
            </div>
        ").

Definition buildMedicinesList (medicines : value) : completion string :=
  if negb (truthy medicines) || strictEqZero (get "length" medicines)
  then Returns "<p class=~no-data~>⚠️ No medicines detected. Please ensure images show medicine strips or prescriptions clearly.</p>"
  else
    let html := "<div class=~medicines-grid~>" in
    items <- iterate medicines ;;
    html <- appendEach medicineCard items html ;;
    Returns (html ++ "</div>").

Definition buildSafetyAnalysis (analysis : value) : completion string :=
  if negb (truthy analysis)
  then Returns "<p class=~no-data~>No safety analysis available</p>"
  else
    let urgencyClass := "info" in
    let urgencyIcon := "💙" in
    let urgencyClass :=
      if strictEqStr (get "urgency" analysis) "High" then "danger" else urgencyClass in
    let urgencyIcon :=
      if strictEqStr (get "urgency" analysis) "High" then "🔴" else urgencyIcon in
    let urgencyClass :=
      if strictEqStr (get "urgency" analysis) "Medium" then "warning" else urgencyClass in
    let urgencyIcon :=
      if strictEqStr (get "urgency" analysis) "Medium" then "🟡" else urgencyIcon in
    let urgencyClass :=
      if strictEqStr (get "urgency" analysis) "Low" then "success" else urgencyClass in
    let urgencyIcon :=
      if strictEqStr (get "urgency" analysis) "Low" then "🟢" else urgencyIcon in
    urgency <- str (orElse (get "urgency" analysis) (VStr "Unknown")) ;;
    let html := "
        <div class=~urgency-badge " ++ urgencyClass ++ "~>
            <span class=~urgency-icon~>" ++ urgencyIcon ++ "</span>
            <span class=~urgency-text~>" ++ urgency ++ " Urgency</span>
        </div>
    " in
    html <-
      (has <- testItems E (get "drug_interactions" analysis) ;;
       if has then
         items <- mapJoin (fun interaction =>
                             shown <- str interaction ;;
                             Returns ("<li class=~interaction-item~>" ++ shown ++ "</li>"))
                          (get "drug_interactions" analysis) ;;
         Returns (html ++ "
            <div class=~interactions-section~>
                <h4>⚠️ Drug Interactions</h4>
                <ul class=~interactions-list~>
                    " ++ items ++ "
                </ul>
            </div>
        ")
       else Returns html) ;;
    html <-
      (has <- testItems E (get "duplicate_medications" analysis) ;;
       if has then
         items <- mapJoin (fun dup =>
                             shown <- str dup ;;
                             Returns ("<li class=~duplicate-item~>" ++ shown ++ "</li>"))
                          (get "duplicate_medications" analysis) ;;
         Returns (html ++ "
            <div class=~duplicates-section~>
                <h4>🔄 Duplicate Medications</h4>
                <ul class=~duplicates-list~>
                    " ++ items ++ "
                </ul>
            </div>
        ")
       else Returns html) ;;
    html <-
      (has <- testItems E (get "safety_warnings" analysis) ;;
       if has then
         items <- mapJoin (fun warning =>
                             shown <- str warning ;;
                             Returns ("<li class=~warning-item~>" ++ shown ++ "</li>"))
                          (get "safety_warnings" analysis) ;;
         Returns (html ++ "
            <div class=~warnings-section~>
                <h4>🚨 Safety Warnings</h4>
                <ul class=~warnings-list~>
                    " ++ items ++ "
                </ul>
            </div>
        ")
       else Returns html) ;;
    html <-
      (if truthy (get "recommendation" analysis) then
         recommendation <- str (get "recommendation" analysis) ;;
         Returns (html ++ "
            <div class=~recommendation-box~>
                <h4>💡 Pharmacist Recommendation</h4>
                <p>" ++ recommendation ++ "</p>
            </div>
        ")
       else Returns html) ;;
    Returns html.

Definition buildPolypharmacyResults (result : value) : completion string :=
  let medicines := get "medicines_extracted" result in
  let analysis := get "safety_analysis" result in
  medicinesHtml <- buildMedicinesList medicines ;;
  analysisHtml <- buildSafetyAnalysis analysis ;;
  Returns ("
        <div class=~result-item~>
            <div class=~result-label~>💊 Medicines Detected</div>
            <div class=~result-content~>
                " ++ medicinesHtml ++ "
            </div>
        </div>
        <div class=~result-item~>
            <div class=~result-label~>⚠️ Safety Analysis</div>
            <div class=~result-content~>
                " ++ analysisHtml ++ "
            </div>
        </div>
    ").

(** The markup [displayResults] assigns to the results container after
    clearing it: the error block, or what the tab's builder returns. *)
Definition render (t : tab) (result : value) : completion string :=
  status <- prop "status" result ;;
  if negb (strictEqStr status "success") then
    message <- str (orElse (get "error" result) (VStr "Unknown error")) ;;
    Returns ("<p class=~result-error~>Error: " ++ message ++ "</p>")
  else
    (* Build results HTML based on tab *)
    let html := "" in
    match t with
    | Triage => built <- buildTriageResults result ;; Returns (html ++ built)
    | Reports => built <- buildReportsResults result ;; Returns (html ++ built)
    | Scribe => built <- buildScribeResults result ;; Returns (html ++ built)
    | Translator => Returns (html ++ buildTranslatorResults result)
    | Polypharmacy => built <- buildPolypharmacyResults result ;; Returns (html ++ built)
    end.

Definition setResults (t : tab) (html : string) (p : page) : page :=
  withResults (setSlot t html (results p)) p.

Definition displayResults (t : tab) (result : value) (p : page)
  : page * completion unit :=
  let p := setResults t "" p in
  match render t result with
  | Returns html => (setResults t html p, Returns tt)
  | Throws e => (p, Throws e)
  end.

(** ** Process buttons *)

(** What the network answers to the one request of a submission. *)
Inductive body : Type :=
| BodyRejects (reason : string)   (* [response.json()] rejects *)
| BodyJson (result : value).

Inductive fetched : Type :=
| FetchRejects (reason : string)  (* [fetch] rejects *)
| Response (status : Z) (json : body).

(** [response.ok]. *)
Definition ok (status : Z) : bool := ((200 <=? status) && (status <=? 299))%Z.

Definition endpoint (t : tab) : string :=
  match t with
  | Triage => "/triage/process"
  | Reports => "/reports/process"
  | Scribe => "/scribe/process"
  | Translator => "/translator/process"
  | Polypharmacy => "/polypharmacy/process"
  end.

(** The text [formData.append('session_id', sessionId)] puts into the
    form, when the conversion of [sessionId] returns. *)
Definition sessionField (p : page) : string := toStr (sessionId p).

(** The [try] block of [processTab] from [fetch] on, [net] being the
    answer to the request: the form has been filled. *)
Definition processTab_try (t : tab) (net : fetched) (p : page)
  : page * completion unit :=
  let p := emit (Fetch (API_BASE ++ endpoint t) (staged t p) (sessionField p)) p in
  match net with
  | FetchRejects reason => (p, Throws (Rejection reason))
  | Response status json =>
      if negb (ok status)
      then (p, Throws (JsError ("Server error: " ++ decimal status)))
      else
        match json with
        | BodyRejects reason => (p, Throws (Rejection reason))
        | BodyJson result =>
            match displayResults t result p with
            | (p, Returns _) =>
                (showToast "Processing completed successfully" "success" p, Returns tt)
            | (p, Throws e) => (p, Throws e)
            end
        end
  end.

(** [processTab] for a session identifier that converts to a string, as
    every identifier the server is meant to send does: the form is
    filled, the request is sent, and [net] is its answer. *)
Definition processTab (t : tab) (net : fetched) (p : page) : page :=
  if (List.length (staged t p) =? 0)%nat
  then showToast "No files selected" "error" p
  else
    let p := showLoading true p in
    let p :=
      match processTab_try t net p with
      | (p, Returns _) => p
      | (p, Throws error) =>
          let p := consoleError "Error processing:" error p in
          showToast ("Error: " ++ message E error) "error" p
      end in
    showLoading false p.

(** [processTab] when filling the form throws [error]: nothing is sent,
    no answer is awaited, and the [catch] and [finally] blocks run. *)
Definition processTab_unsent (t : tab) (error : exn) (p : page) : page :=
  if (List.length (staged t p) =? 0)%nat
  then showToast "No files selected" "error" p
  else
    let p := showLoading true p in
    let p := consoleError "Error processing:" error p in
    let p := showToast ("Error: " ++ message E error) "error" p in
    showLoading false p.

(** A click on the process button of [t]: [processTab] for any session
    identifier. [formData.append('session_id', sessionId)] converts
    [sessionId] to a string; the request is sent, and answered by [net],
    when that conversion returns. *)
Definition submit (t : tab) (net : fetched) (p : page) : page :=
  match str (sessionId p) with
  | Returns _ => processTab t net p
  | Throws error => processTab_unsent t error p
  end.

End Renderer.

(** An engine for closed examples: ASCII letters are lower-cased, other
    bytes are kept; no string counts as a positive number unless it is a
    run of digits that are not all zero; the TypeError message names the
    operation. *)
Definition lowerAscii (c : ascii) : ascii :=
  let n := byte_code c in
  if ((65 <=? n) && (n <=? 90))%N then ascii_of_N (n + 32) else c.

Fixpoint lowerAsciiString (s : string) : string :=
  match s with
  | EmptyString => EmptyString
  | String c r => String (lowerAscii c) (lowerAsciiString r)
  end.

Fixpoint digitsGtZero (seen : bool) (s : string) : bool :=
  match s with
  | EmptyString => seen
  | String c r =>
      let n := byte_code c in
      if ((48 <=? n) && (n <=? 57))%N
      then digitsGtZero (seen || negb (n =? 48)%N) r
      else false
  end.

Definition sampleEngine : engine :=
  {| toLowerCase := lowerAsciiString;
     stringGtZero := digitsGtZero false;
     typeErrorMessage := fun op => "cannot " ++ op |}.

(** ** Session *)

Section Session.

(** [String.prototype.substring], which the script calls and does not
    define: the text of a string between two positions. *)
Variable substring : string -> Z -> Z -> string.

Definition withSession (id : value) (p : page) : page :=
  {| sessionId := id; fileStorage := fileStorage p; processBtn := processBtn p;
     preview := preview p; results := results p; loading := loading p;
     toast := toast p; trace := trace p |}.

(** The [try] block of [initializeSession], given the answer to its
    request (a POST without a body to [API_BASE/session/create]): the
    page, the text it gave the [session-id] element if it got that far,
    and how the block completes. The status of the answer is not looked
    at. The request is the same every time and is not entered in the
    trace, whose [Fetch] events are the requests of submissions. *)
Definition initializeSession_try (net : fetched) (p : page)
  : page * option string * completion unit :=
  match net with
  | FetchRejects reason => (p, None, Throws (Rejection reason))
  | Response _ json =>
      match json with
      | BodyRejects reason => (p, None, Throws (Rejection reason))
      | BodyJson data =>
          match prop "session_id" data with
          | Throws e => (p, None, Throws e)
          | Returns id =>
              let p := withSession id p in
              match id with
              | VStr s =>
                  (showToast "Session created successfully" "success" p,
                   Some (substring s 0%Z 8%Z ++ "..."),
                   Returns tt)
              | VUndefined | VNull => (p, None, Throws (TypeError "read substring"))
              | _ => (p, None, Throws (TypeError "call substring"))
              end
          end
      end
  end.

Definition initializeSession (net : fetched) (p : page) : page * option string :=
  match initializeSession_try net p with
  | (p, label, Returns _) => (p, label)
  | (p, label, Throws error) =>
      let p := consoleError "Error creating session:" error p in
      (showToast "Failed to create session" "error" p, label)
  end.

End Session.

(** [substring] for closed examples: right for ASCII text. *)
Definition substringBytes (s : string) (from to : Z) : string :=
  String.substring (Z.to_nat from) (Z.to_nat (to - from)) s.

(** * The vocabulary of the statements *)

(** ** Events *)

(** A request was sent. *)
Definition isFetch (e : event) : bool :=
  match e with Fetch _ _ _ => true | _ => false end.

(** The loading overlay was switched. *)
Definition isLoading (e : event) : bool :=
  match e with Loading _ => true | _ => false end.

(** ** The shape of a result *)

(** Absent, null or an array: what a list field of a result may be. *)
Definition listOrMissing (v : value) : bool :=
  match v with
  | VUndefined | VNull | VArr _ => true
  | _ => false
  end.

(** Absent, null or an array of records that pass [ok]: what a list of
    records may be. *)
Definition recordsOrMissing (ok : value -> bool) (v : value) : bool :=
  match v with
  | VUndefined | VNull => true
  | VArr items => forallb ok items
  | _ => false
  end.

(** Neither [undefined] nor [null]. *)
Definition present (v : value) : bool := negb (nullish v).

(** Absent, null or a string: what the status of an explanation may be. *)
Definition textOrMissing (v : value) : bool :=
  match v with
  | VUndefined | VNull | VStr _ => true
  | _ => false
  end.

(** An explanation the loop of [buildPatientExplanation] can render. *)
Definition explanationOk (exp : value) : bool :=
  present exp && textOrMissing (get "status" exp).

(** No object anywhere in [v] has a property of its own named
    [toString]: every value in [v] converts to a string. *)
Fixpoint plain (v : value) : bool :=
  match v with
  | VArr items => forallb plain items
  | VObj props =>
      negb (hasKey "toString" props) &&
      (fix members (l : list (string * value)) : bool :=
         match l with
         | [] => true
         | (_, x) :: r => plain x && members r
         end) props
  | _ => true
  end.

(** ** Paths into a payload *)

(** A step into a value: a property of an object, or an element of an
    array. *)
Inductive step : Type := Key (k : string) | Index (i : nat).

(** The value a path leads to, through objects and arrays only. *)
Fixpoint read (path : list step) (v : value) : option value :=
  match path with
  | [] => Some v
  | Key k :: rest =>
      match v with
      | VObj props => read rest (lookup k props)
      | _ => None
      end
  | Index i :: rest =>
      match v with
      | VArr items =>
          match nth_error items i with
          | Some x => read rest x
          | None => None
          end
      | _ => None
      end
  end.

(** [keys.includes(k)]. *)
Definition oneOf (k : string) (keys : list string) : bool :=
  existsb (String.eqb k) keys.

(** The result of each workflow is well shaped when every list field is
    absent, null or an array, no record of a record list is null or
    absent, and the status of an explanation is absent, null or a
    string. Every other field may hold anything. *)
Definition shaped (t : tab) (payload : value) : bool :=
  match t with
  | Triage =>
      listOrMissing (get "visible_signs" (get "physical_assessment" payload)) &&
      listOrMissing (get "key_vital_flags" (get "triage_analysis" payload)) &&
      listOrMissing (get "physical_flags" (get "triage_analysis" payload))
  | Reports =>
      recordsOrMissing present (get "extracted_tests" payload) &&
      recordsOrMissing explanationOk
        (get "explanations" (get "patient_explanations" payload)) &&
      listOrMissing (get "next_steps" (get "patient_explanations" payload))
  | Scribe =>
      listOrMissing (get "chief_complaints" (get "transcribed_notes" payload)) &&
      listOrMissing (get "previous_medications" (get "transcribed_notes" payload)) &&
      listOrMissing (get "allergies" (get "transcribed_notes" payload)) &&
      listOrMissing (get "examination_findings" (get "transcribed_notes" payload)) &&
      listOrMissing (get "executive_summary" (get "doctor_summary" payload)) &&
      listOrMissing (get "critical_flags" (get "doctor_summary" payload))
  | Translator => true
  | Polypharmacy =>
      recordsOrMissing present (get "medicines_extracted" payload) &&
      listOrMissing (get "drug_interactions" (get "safety_analysis" payload)) &&
      listOrMissing (get "duplicate_medications" (get "safety_analysis" payload)) &&
      listOrMissing (get "safety_warnings" (get "safety_analysis" payload))
  end.

(** ** What the templates interpolate *)

(** The fields a template builder writes into the markup as they are:
    [section.key] ... *)
Definition scalarKeys (t : tab) (section : string) : list string :=
  match t with
  | Triage =>
      if String.eqb section "vitals_extraction"
      then ["pulse"; "bp"; "spo2"; "temperature"; "physical_signs"]
      else if String.eqb section "physical_assessment"
      then ["physical_condition"; "distress_level"; "breathing_assessment";
            "consciousness"]
      else if String.eqb section "triage_analysis"
      then ["priority"; "justification_english"; "justification_hindi";
            "recommended_action"; "assessment_basis"]
      else []
  | Reports =>
      if String.eqb section "patient_explanations" then ["warning_signs"] else []
  | Scribe =>
      if String.eqb section "transcribed_notes" then ["duration"]
      else if String.eqb section "doctor_summary" then ["doctor_focus_time"]
      else []
  | Translator => []
  | Polypharmacy =>
      if String.eqb section "safety_analysis" then ["urgency"; "recommendation"]
      else []
  end.

(** ... the members of the list [section.key] ... *)
Definition listKeys (t : tab) (section : string) : list string :=
  match t with
  | Triage =>
      if String.eqb section "physical_assessment" then ["visible_signs"]
      else if String.eqb section "triage_analysis"
      then ["key_vital_flags"; "physical_flags"]
      else []
  | Reports =>
      if String.eqb section "patient_explanations" then ["next_steps"] else []
  | Scribe =>
      if String.eqb section "transcribed_notes"
      then ["chief_complaints"; "previous_medications"; "allergies";
            "examination_findings"]
      else if String.eqb section "doctor_summary"
      then ["executive_summary"; "critical_flags"]
      else []
  | Translator => []
  | Polypharmacy =>
      if String.eqb section "safety_analysis"
      then ["drug_interactions"; "duplicate_medications"; "safety_warnings"]
      else []
  end.

(** ... the fields [key] of the records of the list [section] ... *)
Definition rowKeys (t : tab) (section : string) : list string :=
  match t with
  | Reports =>
      if String.eqb section "extracted_tests"
      then ["test_name"; "result"; "unit"; "reference_range"; "status"]
      else []
  | Polypharmacy =>
      if String.eqb section "medicines_extracted"
      then ["brand_name"; "generic_name"; "strength"; "form"; "frequency"]
      else []
  | _ => []
  end.

(** ... and the fields of the records of the list [section.sub]. *)
Definition nestedRowKeys (t : tab) (section sub : string) : list string :=
  match t with
  | Reports =>
      if String.eqb section "patient_explanations" && String.eqb sub "explanations"
      then ["test_name"; "status"; "simple_explanation"; "analogy"]
      else []
  | _ => []
  end.

(** A path whose string the builder of the tab interpolates. The
    explanation builder writes nothing but its placeholder unless
    [explanations] is there. *)
Definition interpolated (t : tab) (payload : value) (path : list step) : bool :=
  match path with
  | [Key section; Key k] =>
      oneOf k (scalarKeys t section) &&
      match t with
      | Reports => truthy (get "explanations" (get section payload))
      | _ => true
      end
  | [Key section; Key k; Index _] =>
      oneOf k (listKeys t section) &&
      match t with
      | Reports => truthy (get "explanations" (get section payload))
      | _ => true
      end
  | [Key section; Index _; Key k] => oneOf k (rowKeys t section)
  | [Key section; Key sub; Index _; Key k] => oneOf k (nestedRowKeys t section sub)
  | _ => false
  end.

(** ** The placeholders of the script *)

(** The entry of a vital that is absent ([undefined]) or [null]. *)
Definition vitalMissing (label : string) (v : value) : string :=
  "<span class=~vital-label~>" ++ label ++ "</span>
                <span class=~vital-value " ++
  (if isNull v then "missing" else "") ++ "~>Not recorded</span>".

(** The label [vitalsMap] gives to a key. *)
Fixpoint labelOf (key : string) (entries : list (string * (string * string)))
  : option string :=
  match entries with
  | [] => None
  | (k, (label, _)) :: rest => if String.eqb key k then Some label else labelOf key rest
  end.

(** The placeholder the script writes for a section that is absent or
    null ... *)
Definition sectionPlaceholder (t : tab) (section : string) : option string :=
  match t with
  | Triage =>
      if String.eqb section "vitals_extraction"
      then Some "<p class=~no-data~>No vitals extracted</p>"
      else if String.eqb section "physical_assessment"
      then Some "<p class=~no-data~>No physical assessment available</p>"
      else if String.eqb section "triage_analysis"
      then Some "<p class=~no-data~>No analysis available</p>"
      else None
  | Reports =>
      if String.eqb section "extracted_tests"
      then Some "<p class=~no-data~>⚠️ No test data extracted. The image might need better quality or different angle.</p>"
      else if String.eqb section "patient_explanations"
      then Some "<p class=~no-data~>No explanations available</p>"
      else None
  | Scribe =>
      if String.eqb section "transcribed_notes"
      then Some "<p class=~no-data~>No notes transcribed</p>"
      else if String.eqb section "doctor_summary"
      then Some "<p class=~no-data~>No executive summary available</p>"
      else None
  | Translator => None
  | Polypharmacy =>
      if String.eqb section "medicines_extracted"
      then Some "<p class=~no-data~>⚠️ No medicines detected. Please ensure images show medicine strips or prescriptions clearly.</p>"
      else if String.eqb section "safety_analysis"
      then Some "<p class=~no-data~>No safety analysis available</p>"
      else None
  end.

(** ... for a field of a section, read as [v] ... *)
Definition fieldPlaceholder (t : tab) (section key : string) (v : value)
  : option string :=
  match t with
  | Triage =>
      if String.eqb section "vitals_extraction"
      then match labelOf key vitalsMap with
           | Some label => Some (vitalMissing label v)
           | None => None
           end
      else if String.eqb section "triage_analysis" && String.eqb key "priority"
      then Some "<span class=~priority-text~>Unknown Priority</span>"
      else None
  | Reports =>
      if String.eqb section "patient_explanations" && String.eqb key "explanations"
      then Some "<p class=~no-data~>No explanations available</p>"
      else None
  | Scribe =>
      if String.eqb section "transcribed_notes" && String.eqb key "allergies"
      then Some "<p class=~no-allergies~>No allergies noted</p>"
      else None
  | Translator => None
  | Polypharmacy =>
      if String.eqb section "safety_analysis" && String.eqb key "urgency"
      then Some "<span class=~urgency-text~>Unknown Urgency</span>"
      else None
  end.

(** ... and for a field of a record of a list. *)
Definition rowPlaceholder (t : tab) (section key : string) : option string :=
  match t with
  | Reports =>
      if String.eqb section "extracted_tests" then
        if String.eqb key "test_name"
        then Some "<span class=~test-name~>Unknown</span>"
        else if String.eqb key "result"
        then Some "<span class=~test-result~>N/A "
        else if String.eqb key "reference_range"
        then Some "<span class=~test-range~>N/A</span>"
        else if String.eqb key "status"
        then Some "<span class=~test-status unknown~>Unknown</span>"
        else None
      else None
  | Polypharmacy =>
      if String.eqb section "medicines_extracted" then
        if String.eqb key "brand_name"
        then Some "<span class=~brand-name~>[Unclear]</span>"
        else if String.eqb key "generic_name"
        then Some "<span class=~generic-name~>[Unclear]</span>"
        else if String.eqb key "strength"
        then Some "<span class=~strength~>💪 [Unclear]</span>"
        else if String.eqb key "form"
        then Some "<span class=~form~>💊 [Unclear]</span>"
        else None
      else None
  | _ => None
  end.

(** The placeholder the script has for a path that leads to [v]; the
    other fields have none. *)
Definition placeholderAt (t : tab) (path : list step) (v : value) : option string :=
  match path with
  | [Key section] => sectionPlaceholder t section
  | [Key section; Key k] => fieldPlaceholder t section k v
  | [Key section; Index _; Key k] => rowPlaceholder t section k
  | _ => None
  end.

(** ** Strings [JSON.stringify] leaves as they are *)

(** A byte [QuoteJSONString] copies. *)
Definition plainChar (c : ascii) : bool :=
  let n := byte_code c in
  ((32 <=? n) && negb (n =? 34) && negb (n =? 92))%N.

(** A string made of such bytes only. *)
Fixpoint plainText (s : string) : bool :=
  match s with
  | EmptyString => true
  | String c r => plainChar c && plainText r
  end.

(** ** Pages the script can reach *)

(** What [updatePreview] leaves in the preview container of a tab whose
    staged files are [files], [underWay] being the reads that had not
    finished: the count line and no item yet. *)
Definition shownFor (files : list file) (underWay : list (Z * file))
  : previewContainer :=
  {| fileCount :=
       if (0 <? List.length files)%nat
       then Some (decimal (Z.of_nat (List.length files)) ++ " file(s) selected")
       else None;
     previewItems := [];
     reads := underWay ++ indexed 0 files |}.

(** The pages that arise from the start page through what the script
    sets going: the session request and its answer, a selection that was
    dropped or picked, a read that finishes, a click on a remove button
    (with whatever index the button carries), a click on a process button
    together with the answer of the network. The steps may come in any
    order and for any tab,
    whether or not the page has the element a handler is attached to, so
    that what holds of every reachable page holds of every page the
    script produces. Each handler is taken as one step: what the two
    asynchronous functions do after an [await] touches the session
    identifier, the results, the loading overlay and the toast, none of
    which the other handlers read. *)
Inductive reachable (E : engine) (substring : string -> Z -> Z -> string)
    (buttons : perTab (option bool)) : page -> Prop :=
| reach_start : reachable E substring buttons (startPage buttons)
| reach_session (net : fetched) (p : page) :
    reachable E substring buttons p ->
    reachable E substring buttons (fst (initializeSession substring net p))
| reach_select (t : tab) (files : list file) (p : page) :
    reachable E substring buttons p ->
    reachable E substring buttons (handleFileSelect t files p)
| reach_load (t : tab) (n : nat) (p : page) :
    reachable E substring buttons p ->
    reachable E substring buttons (onload t n p)
| reach_remove (t : tab) (index : Z) (p : page) :
    reachable E substring buttons p ->
    reachable E substring buttons (removeFile t index p)
| reach_submit (t : tab) (net : fetched) (p : page) :
    reachable E substring buttons p ->
    reachable E substring buttons (submit E t net p).

(** ** Sample files, pages and payloads for the closed examples *)

(** An image and a document, told apart by their declared type. *)
Definition png (n : string) : file :=
  {| name := n; type := "image/png"; bytes := "" |}.

Definition pdf (n : string) : file :=
  {| name := n; type := "application/pdf"; bytes := "" |}.

(** A page whose five process buttons exist and start disabled. *)
Definition freshPage : page := startPage (every (Some true)).

(** The fresh page after [a.png] and [b.png] were picked for triage. *)
Definition twoStaged : page :=
  handleFileSelect Triage [png "a.png"; png "b.png"] freshPage.

(** A failure answer of the server. *)
Definition failurePayload : value :=
  VObj [("status", VStr "error"); ("error", VStr "Model unavailable")].

(** The triage scenario of the specification. *)
Definition triageScenario : value :=
  VObj [ ("status", VStr "success");
         ("vitals_extraction",
          VObj [("pulse", VInt 110); ("bp", VNull); ("spo2", VInt 94);
                ("temperature", VFrac "38.2")]);
         ("triage_analysis",
          VObj [("priority", VStr "RED");
                ("justification_english", VStr "Tachycardia with hypoxia")]) ].

(** A triage result whose present fields are all filled in, and whose
    analysis has a priority and nothing else. *)
Definition quietTriage : value :=
  VObj [ ("status", VStr "success");
         ("vitals_extraction",
          VObj [("pulse", VInt 72); ("bp", VStr "120/80"); ("spo2", VInt 98);
                ("temperature", VInt 37)]);
         ("physical_assessment", VObj [("physical_condition", VStr "Stable")]);
         ("triage_analysis", VObj [("priority", VStr "GREEN")]) ].

(** A translation that is markup with a quoted attribute. *)
Definition quotedMarkup : value :=
  VObj [ ("status", VStr "success");
         ("translation", VStr "<a href=~x~>link</a>") ].

(** A polypharmacy result whose strings are markup. *)
Definition markupPayload : value :=
  VObj [ ("status", VStr "success");
         ("medicines_extracted",
          VArr [VObj [("brand_name", VStr "<img src=x onerror=~alert(1)~>")]]);
         ("safety_analysis",
          VObj [("safety_warnings", VArr [VStr "<script>alert(2)</script>"])]) ].

(** * Properties *)

Example toStr_samples :
  toStr (VInt 110) = "110" /\
  toStr (VArr [VInt 1; VNull; VStr "a"; VArr [VInt 2; VInt 3]]) = "1,,a,2,3" /\
  code_points "a💓b" = ["a"; "💓"; "b"] /\
  utf16_length "a💓b" = 4%Z /\
  includes "<p class=~x~>" "class=~x~" = true.
Proof. repeat split; reflexivity. Qed.

(** ** Text *)

Lemma append_empty_r (s : string) : s ++ "" = s.
Proof. induction s as [|c s IH]; simpl; [reflexivity | now rewrite IH]. Qed.

Lemma append_assoc (a b c : string) : (a ++ b) ++ c = a ++ b ++ c.
Proof. induction a as [|x a IH]; simpl; [reflexivity | now rewrite IH]. Qed.

Lemma Contains_refl (p : string) : Contains p p.
Proof. exists "", "". simpl. now rewrite append_empty_r. Qed.

Lemma Contains_empty (s : string) : Contains "" s.
Proof. exists "", s. reflexivity. Qed.

Lemma Contains_app_l (p a b : string) : Contains p a -> Contains p (a ++ b).
Proof.
  intros (x & y & ->). exists x, (y ++ b).
  now rewrite !append_assoc.
Qed.

Lemma Contains_app_r (p a b : string) : Contains p b -> Contains p (a ++ b).
Proof.
  intros (x & y & ->). exists (a ++ x), y.
  now rewrite !append_assoc.
Qed.

Lemma Contains_trans (p q s : string) :
  Contains p q -> Contains q s -> Contains p s.
Proof.
  intros (a & b & ->) (c & d & ->).
  exists (c ++ a), (b ++ d). now rewrite !append_assoc.
Qed.

Lemma Contains_cons (p : string) (c : ascii) (s : string) :
  Contains p s -> Contains p (String c s).
Proof. intros (a & b & ->). now exists (String c a), b. Qed.

Lemma startsWith_split (s p : string) :
  startsWith s p = true -> exists b, s = p ++ b.
Proof.
  revert s; induction p as [|c p IH]; intros s H.
  - now exists s.
  - destruct s as [|d s]; simpl in H; [discriminate|].
    apply andb_prop in H as [Hc Hs].
    apply Ascii.eqb_eq in Hc as ->.
    destruct (IH _ Hs) as [b ->]. now exists b.
Qed.

Lemma includes_Contains (s p : string) :
  includes s p = true -> Contains p s.
Proof.
  induction s as [|c s IH]; intros H.
  - destruct p; [apply Contains_empty | discriminate].
  - change (startsWith (String c s) p || includes s p = true) in H.
    apply orb_prop in H as [H|H].
    + apply startsWith_split in H as [b ->]. now exists "", b.
    + now apply Contains_cons, IH.
Qed.

Lemma startsWith_append (p b : string) : startsWith (p ++ b) p = true.
Proof.
  induction p as [|c p IH]; simpl; [reflexivity|].
  now rewrite Ascii.eqb_refl, IH.
Qed.

Lemma includes_unfold (s p : string) :
  includes s p =
  startsWith s p || match s with EmptyString => false | String _ r => includes r p end.
Proof. now destruct s. Qed.

Lemma Contains_includes (s p : string) :
  Contains p s -> includes s p = true.
Proof.
  intros (a & b & ->). induction a as [|c a IH].
  - change ("" ++ p ++ b) with (p ++ b).
    now rewrite includes_unfold, startsWith_append.
  - change (String c a ++ p ++ b) with (String c (a ++ p ++ b)).
    rewrite includes_unfold, IH. apply orb_true_r.
Qed.

(** A string that [includes] rejects does not occur. *)
Lemma not_includes (s p : string) :
  includes s p = false -> ~ Contains p s.
Proof.
  intros H C. apply Contains_includes in C. congruence.
Qed.

Lemma Contains_concat_map (f : value -> string) (l : list value) (x : value) :
  In x l -> Contains (f x) (String.concat "" (map f l)).
Proof.
  induction l as [|y l IH]; simpl; [tauto|].
  intros [->|H].
  - destruct (map f l); [apply Contains_refl|].
    simpl. apply Contains_app_l, Contains_refl.
  - specialize (IH H). destruct (map f l) eqn:Hm.
    + destruct l; [destruct H | discriminate].
    + simpl. now apply Contains_app_r.
Qed.

(** ** Per-tab slots *)

Lemma slot_setSlot {A : Type} (t : tab) (a : A) (m : perTab A) :
  slot t (setSlot t a m) = a.
Proof. now destruct t. Qed.

Lemma slot_setSlot_other {A : Type} (t u : tab) (a : A) (m : perTab A) :
  t <> u -> slot u (setSlot t a m) = slot u m.
Proof. destruct t, u; intros H; try reflexivity; now destruct H. Qed.

Lemma setSlot_slot {A : Type} (t : tab) (m : perTab A) :
  setSlot t (slot t m) m = m.
Proof. now destruct t, m. Qed.

Lemma setSlot_setSlot {A : Type} (t : tab) (a b : A) (m : perTab A) :
  setSlot t a (setSlot t b m) = setSlot t a m.
Proof. now destruct t. Qed.

(** ** File stage *)

(** The loop of [handleFileSelect] appends the image-typed files, in
    order, to what is staged, and touches nothing else. *)
Lemma store_images (t : tab) (files : list file) (p : page) :
  fold_left
    (fun p f => if isImage f then setStaged t (staged t p ++ [f])%list p else p)
    files p
  = setStaged t (staged t p ++ filter isImage files)%list p.
Proof.
  revert p; induction files as [|f files IH]; intros p; simpl.
  - rewrite app_nil_r. unfold setStaged, staged.
    rewrite setSlot_slot. now destruct p.
  - rewrite IH. destruct (isImage f); [|reflexivity].
    unfold setStaged, staged; simpl.
    rewrite slot_setSlot, setSlot_setSlot, <- app_assoc. reflexivity.
Qed.

Lemma staged_setStaged (t : tab) (l : list file) (p : page) :
  staged t (setStaged t l p) = l.
Proof. unfold staged, setStaged; simpl. apply slot_setSlot. Qed.

Lemma setStaged_setStaged (t : tab) (l k : list file) (p : page) :
  setStaged t l (setStaged t k p) = setStaged t l p.
Proof. unfold setStaged; simpl. now rewrite setSlot_setSlot. Qed.

Lemma staged_updatePreview (t u : tab) (p : page) :
  staged u (updatePreview t p) = staged u p.
Proof. reflexivity. Qed.

Lemma processBtn_updatePreview (t : tab) (p : page) :
  processBtn (updatePreview t p) = processBtn p.
Proof. reflexivity. Qed.

Lemma processBtn_setStaged (t : tab) (l : list file) (p : page) :
  processBtn (setStaged t l p) = processBtn p.
Proof. reflexivity. Qed.

(** What an accepted selection does, step by step. *)
Lemma handleFileSelect_accepted (t : tab) (files : list file) (p : page) :
  (0 < List.length files)%nat -> (List.length files <= maxFiles t)%nat ->
  handleFileSelect t files p =
    let q := updatePreview t (setStaged t (filter isImage files) p) in
    match slot t (processBtn p) with
    | Some _ =>
        if (0 <? List.length (filter isImage files))%nat
        then withButtons (setSlot t (Some false) (processBtn p)) q
        else q
    | None => q
    end.
Proof.
  intros Hpos Hmax. unfold handleFileSelect.
  destruct (Nat.eqb_spec (List.length files) 0) as [H0|_]; [lia|].
  destruct (Nat.ltb_spec (maxFiles t) (List.length files)) as [H1|_]; [lia|].
  rewrite store_images, staged_setStaged, setStaged_setStaged. cbv zeta.
  rewrite staged_updatePreview, staged_setStaged.
  rewrite processBtn_updatePreview, processBtn_setStaged.
  reflexivity.
Qed.

(** C2 as stated fails for the empty list: the script returns at once and
    shows nothing. *)
Lemma empty_selection_gives_no_notice :
  handleFileSelect Triage [] freshPage = freshPage /\
  toast (handleFileSelect Triage [] freshPage) = None /\
  trace (handleFileSelect Triage [] freshPage) = [].
Proof. repeat split. Qed.

(** C2, amended: a selection that is empty or longer than the tab's
    maximum leaves every staged set, button, preview and result as it was
    and sends nothing; the over-limit selection shows the error toast
    [Maximum N file(s) allowed], the empty one shows nothing at all. *)
Theorem select_rejected (t : tab) (files : list file) (p : page) :
  List.length files = 0%nat \/ (maxFiles t < List.length files)%nat ->
  fileStorage (handleFileSelect t files p) = fileStorage p /\
  processBtn (handleFileSelect t files p) = processBtn p /\
  preview (handleFileSelect t files p) = preview p /\
  results (handleFileSelect t files p) = results p /\
  trace (handleFileSelect t files p) =
    (trace p ++
     if (List.length files =? 0)%nat then []
     else [Toast ("Maximum " ++ decimal (Z.of_nat (maxFiles t)) ++ " file(s) allowed")
                 "error"])%list /\
  filter isFetch (trace (handleFileSelect t files p)) = filter isFetch (trace p).
Proof.
  intros H. unfold handleFileSelect.
  destruct (Nat.eqb_spec (List.length files) 0) as [H0|H0].
  - rewrite app_nil_r. repeat split.
  - destruct (Nat.ltb_spec (maxFiles t) (List.length files)) as [_|H1]; [|lia].
    repeat split. simpl. rewrite filter_app. simpl. apply app_nil_r.
Qed.

Lemma select_rejected_witness :
  (maxFiles Translator < List.length [png "a.png"; png "b.png"])%nat /\
  fileStorage (handleFileSelect Translator [png "a.png"; png "b.png"] twoStaged)
  = fileStorage twoStaged /\
  trace (handleFileSelect Translator [png "a.png"; png "b.png"] twoStaged)
  = [Toast "Maximum 1 file(s) allowed" "error"].
Proof.
  assert (H : (maxFiles Translator < List.length [png "a.png"; png "b.png"])%nat)
    by (simpl; lia).
  split; [exact H|].
  destruct (select_rejected Translator [png "a.png"; png "b.png"] twoStaged
              (or_intror H)) as (Hs & _ & _ & _ & Ht & _).
  split; [exact Hs | exact Ht].
Defined.

(** C4: an accepted selection stages exactly the image-typed files of the
    list, in their order, whatever was staged for the tab before; the
    other tabs keep their files. *)
Theorem select_stages_images (t : tab) (files : list file) (p : page) :
  (0 < List.length files)%nat -> (List.length files <= maxFiles t)%nat ->
  staged t (handleFileSelect t files p) = filter isImage files /\
  forall u, u <> t -> staged u (handleFileSelect t files p) = staged u p.
Proof.
  intros Hpos Hmax. rewrite (handleFileSelect_accepted t files p Hpos Hmax).
  cbv zeta.
  assert (Hq : forall u,
             staged u (updatePreview t (setStaged t (filter isImage files) p))
             = slot u (setSlot t (filter isImage files) (fileStorage p)))
    by reflexivity.
  split; [|intros u Hu];
    (destruct (slot t (processBtn p));
     [destruct (0 <? List.length (filter isImage files))%nat|]);
    try (change (staged ?x (withButtons _ ?q)) with (staged x q));
    rewrite Hq;
    first [apply slot_setSlot | apply slot_setSlot_other; congruence].
Qed.

Lemma select_stages_images_witness :
  staged Triage
    (handleFileSelect Triage [png "a.png"; pdf "b.pdf"; png "c.png"] twoStaged)
  = [png "a.png"; png "c.png"].
Proof.
  apply (select_stages_images Triage [png "a.png"; pdf "b.pdf"; png "c.png"] twoStaged);
    simpl; lia.
Defined.

(** C5 at its failing input: with [a.png] and [b.png] staged and the
    button enabled, picking one PDF empties the staged set and leaves the
    button enabled, where removing the files one by one disables it. *)
Theorem select_empty_keeps_button_enabled :
  slot Triage (processBtn twoStaged) = Some false /\
  staged Triage (handleFileSelect Triage [pdf "b.pdf"] twoStaged) = [] /\
  slot Triage (processBtn (handleFileSelect Triage [pdf "b.pdf"] twoStaged))
  = Some false /\
  staged Triage (removeFile Triage 0 (removeFile Triage 0 twoStaged)) = [] /\
  slot Triage (processBtn (removeFile Triage 0 (removeFile Triage 0 twoStaged)))
  = Some true.
Proof. repeat split. Qed.

Lemma splice1_beyond {A : Type} (index : Z) (l : list A) :
  (Z.of_nat (List.length l) <= index)%Z -> splice1 index l = l.
Proof.
  intros H. unfold splice1.
  destruct (Z.ltb_spec index 0) as [Hneg|_]; [lia|].
  rewrite Z.min_r by lia. rewrite Nat2Z.id.
  rewrite firstn_all, skipn_all2 by lia. apply app_nil_r.
Qed.

(** C6 as stated fails for a negative index: [splice] counts it from the
    end, so [-1] removes the last staged file. *)
Lemma remove_negative_index_removes_last :
  staged Triage twoStaged = [png "a.png"; png "b.png"] /\
  staged Triage (removeFile Triage (-1) twoStaged) = [png "a.png"].
Proof. split; reflexivity. Qed.

(** C6, amended: an index at or past the end of the staged set removes
    nothing, in any tab. (A negative index is not out of range for
    [splice].) *)
Theorem remove_beyond_end (t : tab) (index : Z) (p : page) :
  (Z.of_nat (List.length (staged t p)) <= index)%Z ->
  fileStorage (removeFile t index p) = fileStorage p.
Proof.
  intros H. unfold removeFile. rewrite (splice1_beyond _ _ H). cbv zeta.
  assert (Hq : fileStorage (updatePreview t (setStaged t (staged t p) p))
               = fileStorage p).
  { unfold updatePreview, setStaged, staged. simpl. apply setSlot_slot. }
  destruct (slot t (processBtn _)); [destruct (_ =? 0)%nat|]; exact Hq.
Qed.

Lemma remove_beyond_end_witness :
  fileStorage (removeFile Triage 2 twoStaged) = fileStorage twoStaged.
Proof. apply (remove_beyond_end Triage 2 twoStaged). simpl. lia. Defined.

(** C9: the limit is checked on the list as picked, before the files that
    are no images are left out. Whatever the tab, there are selections
    longer than its maximum whose images are within it, and every such
    selection is rejected: the error toast [Maximum N file(s) allowed] is
    shown and every staged set stays as it was, where the images of the
    selection, picked alone, would have been staged. *)
Theorem limit_checked_before_filter (t : tab) :
  (exists files,
     (maxFiles t < List.length files)%nat /\
     (List.length (filter isImage files) <= maxFiles t)%nat /\
     filter isImage files <> []) /\
  forall files p,
    (maxFiles t < List.length files)%nat ->
    (List.length (filter isImage files) <= maxFiles t)%nat ->
    fileStorage (handleFileSelect t files p) = fileStorage p /\
    toast (handleFileSelect t files p)
    = Some ("Maximum " ++ decimal (Z.of_nat (maxFiles t)) ++ " file(s) allowed",
            "toast show error") /\
    (filter isImage files <> [] ->
     staged t (handleFileSelect t (filter isImage files) p) = filter isImage files /\
     toast (handleFileSelect t (filter isImage files) p) = toast p).
Proof.
  split.
  - exists (png "a.png" :: repeat (pdf "b.pdf") (maxFiles t)).
    assert (Hd : filter isImage (repeat (pdf "b.pdf") (maxFiles t)) = []).
    { induction (maxFiles t) as [|n IH]; [reflexivity | exact IH]. }
    change (filter isImage (png "a.png" :: repeat (pdf "b.pdf") (maxFiles t)))
      with (png "a.png" :: filter isImage (repeat (pdf "b.pdf") (maxFiles t))).
    rewrite Hd. cbn [List.length]. rewrite repeat_length.
    split; [lia|]. split; [destruct t; simpl; lia | discriminate].
  - intros files p Hover Himages.
    assert (Hrejected : handleFileSelect t files p
                        = showToast ("Maximum " ++ decimal (Z.of_nat (maxFiles t)) ++
                                     " file(s) allowed") "error" p).
    { unfold handleFileSelect.
      destruct (Nat.eqb_spec (List.length files) 0) as [H0|_]; [lia|].
      now destruct (Nat.ltb_spec (maxFiles t) (List.length files)) as [_|H1]; [|lia]. }
    rewrite Hrejected. split; [reflexivity|]. split; [reflexivity|].
    intros Hne.
    assert (Hpos : (0 < List.length (filter isImage files))%nat).
    { destruct (filter isImage files); [now destruct Hne | simpl; lia]. }
    rewrite (handleFileSelect_accepted t (filter isImage files) p Hpos Himages).
    assert (Hidem : filter isImage (filter isImage files) = filter isImage files).
    { clear. induction files as [|f l IH]; [reflexivity|]. simpl.
      destruct (isImage f) eqn:Hf; [|exact IH]. simpl. now rewrite Hf, IH. }
    rewrite Hidem. cbv zeta.
    destruct (slot t (processBtn p)); [destruct (0 <? _)%nat|];
      (split; [|reflexivity]); unfold staged, updatePreview, setStaged;
      cbn [fileStorage withButtons withPreview withStorage]; apply slot_setSlot.
Qed.

(** ** Submission *)

Lemma trace_showToast (text kind : string) (p : page) :
  trace (showToast text kind p) = (trace p ++ [Toast text kind])%list.
Proof. reflexivity. Qed.

Lemma trace_showLoading (b : bool) (p : page) :
  trace (showLoading b p) = (trace p ++ [Loading b])%list.
Proof. reflexivity. Qed.

Lemma displayResults_frame (E : engine) (t : tab) (result : value) (p : page) :
  trace (fst (displayResults E t result p)) = trace p /\
  loading (fst (displayResults E t result p)) = loading p /\
  fileStorage (fst (displayResults E t result p)) = fileStorage p.
Proof. unfold displayResults. destruct (render E t result); repeat split. Qed.

(** The [try] block sends one request, may show the success toast, and
    never touches the loading overlay. *)
Lemma processTab_try_trace (E : engine) (t : tab) (net : fetched) (p : page) :
  exists more,
    trace (fst (processTab_try E t net p)) =
      (trace p ++ Fetch (API_BASE ++ endpoint t) (staged t p) (sessionField p) :: more)%list /\
    filter isLoading more = [] /\
    loading (fst (processTab_try E t net p)) = loading p.
Proof.
  unfold processTab_try.
  destruct net as [reason|status [reason|result]];
    try (exists []; repeat split; fail).
  - destruct (ok status); exists []; repeat split.
  - destruct (ok status); [|exists []; repeat split]. cbn [negb].
    pose proof (displayResults_frame E t result
                  (emit (Fetch (API_BASE ++ endpoint t) (staged t p) (sessionField p)) p))
      as (Ht & Hl & _).
    destruct (displayResults E t result _) as [q [u|e]]; cbn [fst snd] in *.
    + exists [Toast "Processing completed successfully" "success"].
      rewrite trace_showToast, Ht. unfold emit at 1. cbn [trace].
      rewrite <- app_assoc. repeat split. exact Hl.
    + exists []. rewrite Ht. repeat split. exact Hl.
Qed.



(** ** Results display: the status check and the triage scenario *)

Lemma strictEqStr_false (v : value) (lit : string) :
  v <> VStr lit -> strictEqStr v lit = false.
Proof.
  intros H. destruct v; try reflexivity. simpl.
  apply String.eqb_neq. congruence.
Qed.


Lemma orElse_nullish (a b : value) : nullish a = true -> orElse a b = b.
Proof. now destruct a. Qed.

Lemma printable_orElse_text (v : value) (fallback : string) :
  nullish v = true \/ (exists m, v = VStr m) ->
  printable (orElse v (VStr fallback)) = true.
Proof.
  intros [Hn|(m & ->)].
  - now rewrite (orElse_nullish _ _ Hn).
  - unfold orElse. now destruct (truthy (VStr m)).
Qed.

(** The error block, read off [render]. *)
Lemma render_failure (E : engine) (t : tab) (payload status : value) :
  prop "status" payload = Returns status ->
  status <> VStr "success" ->
  render E t payload =
    (message <- str (orElse (get "error" payload) (VStr "Unknown error")) ;;
     Returns ("<p class=~result-error~>Error: " ++ message ++ "</p>")).
Proof.
  intros Hs Hne. unfold render. rewrite Hs. cbn [andThen].
  now rewrite (strictEqStr_false _ _ Hne).
Qed.




(** C7: the triage scenario renders the priority badge with class
    [danger] and text [RED Priority], the pulse entry [110 bpm], the blood
    pressure entry [Not recorded], and the English justification. *)
Theorem triage_scenario (E : engine) :
  exists html,
    render E Triage triageScenario = Returns html /\
    Contains "<div class=~priority-badge danger~>
            <span class=~priority-icon~>🔴</span>
            <span class=~priority-text~>RED Priority</span>
        </div>" html /\
    Contains "<span class=~vital-label~>💓 Pulse</span>
                <span class=~vital-value ~>110 bpm</span>" html /\
    Contains "<span class=~vital-label~>🩺 Blood Pressure</span>
                <span class=~vital-value missing~>Not recorded</span>" html /\
    Contains "<div class=~justification~>
                <h4>🗣️ English</h4>
                <p>Tachycardia with hypoxia</p>
            </div>" html.
Proof.
  eexists. split; [reflexivity|].
  repeat split; apply includes_Contains; vm_compute; reflexivity.
Qed.

(** ** Renderer: how a builder's markup is put together *)

(** ** Renderer: how a builder's markup is put together *)

Lemma andThen_Returns {A B : Type} (m : completion A) (k : A -> completion B) (b : B) :
  andThen m k = Returns b -> exists a, m = Returns a /\ k a = Returns b.
Proof. destruct m as [a|e]; simpl; intros H; [now exists a | discriminate]. Qed.

Lemma Returns_inj {A : Type} (a b : A) : Returns a = Returns b -> a = b.
Proof. now intros [= ->]. Qed.

Lemma Contains_if (p : string) (c : bool) (a b : string) :
  Contains p a -> Contains p b -> Contains p (if c then a else b).
Proof. now destruct c. Qed.

Lemma Contains_grown (p : string) (c : bool) (h blk : string) :
  Contains p h -> Contains p (if c then h ++ blk else h).
Proof. intros H. destruct c; [now apply Contains_app_l | exact H]. Qed.

Lemma Contains_then (p : string) (c : bool) (a b : string) :
  c = true -> Contains p a -> Contains p (if c then a else b).
Proof. now intros ->. Qed.

Lemma hasItems_array (E : engine) (l : list value) (v : value) :
  In v l -> hasItems E (VArr l) = true.
Proof. destruct l; [intros [] | reflexivity]. Qed.

Lemma Contains_joined (p : string) (f : value -> string) (l : list value) (v : value) :
  In v l -> Contains p (f v) -> Contains p (String.concat "" (map f l)).
Proof.
  intros Hin Hp. eapply Contains_trans; [exact Hp|].
  now apply Contains_concat_map.
Qed.

Lemma orElse_truthy (a b : value) : truthy a = true -> orElse a b = a.
Proof. unfold orElse. now intros ->. Qed.

Lemma truthy_not_nullish (v : value) : truthy v = true -> nullish v = false.
Proof. now destruct v. Qed.

Lemma Contains_toStr_orElse (a b : value) :
  truthy a = true -> Contains (toStr a) (toStr (orElse a b)).
Proof. intros H. rewrite (orElse_truthy _ _ H). apply Contains_refl. Qed.

(** What a conversion, a list test and a joined list leave behind when
    the statement they stand in returns. *)
Lemma str_Returns (v : value) (s : string) :
  str v = Returns s -> printable v = true /\ s = toStr v.
Proof.
  unfold str. destruct (printable v); [|discriminate].
  intros H. apply Returns_inj in H. now split.
Qed.

Lemma andThen_str {B : Type} (v : value) (k : string -> completion B) (r : B) :
  andThen (str v) k = Returns r -> k (toStr v) = Returns r.
Proof.
  intros H. apply andThen_Returns in H as (s & Hs & H).
  apply str_Returns in Hs as (_ & ->). exact H.
Qed.

Lemma andThen_optional {B : Type} (c : bool) (v : value) (g : string -> string)
    (h : string) (k : string -> completion B) (r : B) :
  andThen (if c then andThen (str v) (fun s => Returns (g s)) else Returns h) k
  = Returns r ->
  (let html := if c then g (toStr v) else h in k html) = Returns r.
Proof.
  intros H. apply andThen_Returns in H as (a & Ha & H). cbv zeta.
  destruct c.
  - apply andThen_str in Ha. apply Returns_inj in Ha. now subst a.
  - apply Returns_inj in Ha. now subst a.
Qed.

Lemma andThen_testItems {B : Type} (E : engine) (x : value)
    (k : bool -> completion B) (r : B) :
  andThen (testItems E x) k = Returns r -> k (hasItems E x) = Returns r.
Proof.
  unfold testItems, hasItems, greaterThanZero.
  destruct (truthy x); [|now intros H].
  destruct (printable (get "length" x)); [now intros H | discriminate].
Qed.

Lemma mapEach_str (g : string -> string) (l : list value) (pieces : list string) :
  mapEach (fun x => s <- str x ;; Returns (g s)) l = Returns pieces ->
  pieces = map (fun x => g (toStr x)) l.
Proof.
  revert pieces; induction l as [|x l IH]; intros pieces H; simpl in H.
  - apply Returns_inj in H. now subst.
  - apply andThen_Returns in H as (piece & Hx & H).
    apply andThen_str in Hx. apply Returns_inj in Hx.
    apply andThen_Returns in H as (rest & Hl & H).
    apply Returns_inj in H. subst. simpl. now rewrite (IH _ Hl).
Qed.

Lemma mapJoin_str (g : string -> string) (l : list value) (r : string) :
  mapJoin (fun x => s <- str x ;; Returns (g s)) (VArr l) = Returns r ->
  Returns (String.concat "" (map (fun x => g (toStr x)) l)) = Returns r.
Proof.
  intros H. cbv delta [mapJoin] in H. cbv beta iota in H.
  apply andThen_Returns in H as (pieces & Hl & H).
  now rewrite <- (mapEach_str _ _ _ Hl).
Qed.

(** Regrouping, to look at a stretch of markup whose parts are known. *)
Lemma group3 (a m c r : string) : a ++ m ++ c ++ r = (a ++ m ++ c) ++ r.
Proof. now rewrite !append_assoc. Qed.

(** Take a hypothesis [H : builder ... = Returns html] apart: name the
    intermediate values of [html], split on the conditions that are not
    known, and drop the branches that throw. *)
Ltac known_true c H :=
  match goal with
  | Hc : c = true |- _ => rewrite Hc in H
  end.

Ltac take_apart H :=
  repeat first
    [ match type of H with
      | Returns _ = Returns _ => apply Returns_inj in H; destruct H
      | Throws _ = Returns _ => discriminate H
      | andThen (str _) _ = Returns _ =>
          apply andThen_str in H; cbv beta in H
      | andThen (testItems _ _) _ = Returns _ =>
          apply andThen_testItems in H; cbv beta in H
      | andThen (if ?c then ?m else Returns _) _ = Returns _ =>
          let m' := eval cbv zeta in m in
          change m with m' in H; apply andThen_optional in H; cbv beta in H
      | andThen _ _ = Returns _ =>
          let S := fresh "Step" in
          apply andThen_Returns in H; destruct H as (? & S & H); take_apart S
      | (if ?c then _ else _) = Returns _ =>
          first [ known_true c H
                | let Hc := fresh "Cond" in destruct c eqn:Hc; try discriminate Hc ]
      | (let x := ?a in @?b x) = ?r =>
          let y := fresh x in
          pose (y := a); change (b y = r) in H; cbv beta in H
      | mapJoin _ (VArr _) = Returns _ =>
          apply mapJoin_str in H; cbv beta in H
      | iterate (VArr _) = Returns _ =>
          cbv delta [iterate] in H; cbv beta iota in H
      | mapJoin _ ?x = Returns _ => destruct x; try discriminate H
      end ].

(** Open a builder on a section that is there. *)
Ltac enter H Ht :=
  cbv beta in H; rewrite Ht in H; change (negb true) with false in H;
  cbv beta iota in H.

(** Find an occurrence of the pattern in a markup built by appending. *)
Ltac occurs :=
  lazymatch goal with
  | |- Contains ?p ?p => apply Contains_refl
  | |- Contains "" _ => apply Contains_empty
  | H : Contains ?p ?x |- Contains ?p ?x => exact H
  | |- Contains (toStr ?a) (toStr (orElse ?a _)) =>
      apply Contains_toStr_orElse; assumption
  | |- Contains _ (_ ++ _) =>
      first [ apply Contains_app_r; occurs | apply Contains_app_l; occurs ]
  | |- Contains _ (if ?c then _ else _) =>
      first [ match goal with
              | Hc : c = true |- _ => apply (Contains_then _ _ _ _ Hc); occurs
              end
            | apply Contains_grown; occurs
            | apply Contains_if; occurs ]
  | |- Contains _ (String.concat "" (map _ _)) =>
      match goal with
      | Hin : In ?v _ |- _ => apply (Contains_joined _ _ _ v Hin); cbv beta; occurs
      end
  | |- Contains _ (let _ := _ in _) => cbv zeta; occurs
  | |- Contains _ ?x => first [ is_var x; unfold x; occurs | apply Contains_refl ]
  end.

(** Split a membership in a literal list of keys into its cases. *)
Ltac each_key Hk tac :=
  repeat (destruct Hk as [<-|Hk]; [tac|]); destruct Hk.

(** What a loop that appends a piece per member leaves in the markup. *)
Lemma appendEach_grows {A : Type} (body : A -> completion string) (l : list A)
    (h0 h p : string) :
  appendEach body l h0 = Returns h -> Contains p h0 -> Contains p h.
Proof.
  revert h0; induction l as [|x l IH]; intros h0 H Hp; simpl in H.
  - apply Returns_inj in H. now subst.
  - apply andThen_Returns in H as (piece & _ & H).
    apply (IH _ H). now apply Contains_app_l.
Qed.

Lemma appendEach_piece {A : Type} (body : A -> completion string) (l : list A)
    (h0 h : string) (x : A) :
  appendEach body l h0 = Returns h -> In x l ->
  exists piece, body x = Returns piece /\ Contains piece h.
Proof.
  revert h0; induction l as [|y l IH]; intros h0 H Hin; [destruct Hin|].
  simpl in H. apply andThen_Returns in H as (piece & Hy & H).
  destruct Hin as [->|Hin].
  - exists piece. split; [exact Hy|].
    apply (appendEach_grows _ _ _ _ _ H), Contains_app_r, Contains_refl.
  - apply (IH _ H Hin).
Qed.

Lemma appendEach_returns {A : Type} (body : A -> completion string) (l : list A)
    (h0 : string) :
  (forall x, In x l -> exists piece, body x = Returns piece) ->
  exists h, appendEach body l h0 = Returns h.
Proof.
  revert h0; induction l as [|x l IH]; intros h0 Hl; simpl.
  - eexists; reflexivity.
  - destruct (Hl x (or_introl eq_refl)) as [piece ->]. simpl.
    apply IH. intros y Hy. apply Hl. now right.
Qed.

Section RendererFacts.

Variable E : engine.

(** *** Vitals *)

Lemma vitalsTable_entry (vitals : value) (html : string)
    (entry : string * (string * string)) :
  buildVitalsTable vitals = Returns html ->
  truthy vitals = true -> In entry vitalsMap ->
  exists piece, vitalItem vitals entry = Returns piece /\ Contains piece html.
Proof.
  intros H Ht Hin. cbv delta [buildVitalsTable] in H. enter H Ht.
  take_apart H.
  match goal with
  | S : appendEach _ _ _ = Returns _ |- _ =>
      destruct (appendEach_piece _ _ _ _ _ S Hin) as (piece & Hp & Hc)
  end.
  exists piece. split; [exact Hp | occurs].
Qed.

Lemma vitalItem_value (vitals : value) (key label unit piece : string) :
  vitalItem vitals (key, (label, unit)) = Returns piece ->
  nullish (get key vitals) = false ->
  Contains (toStr (get key vitals)) piece.
Proof.
  intros H Hn. cbv delta [vitalItem] in H. cbv beta iota zeta in H.
  rewrite Hn in H. cbv iota in H. take_apart H. occurs.
Qed.

Lemma vitalsTable_value (vitals : value) (html k : string) :
  buildVitalsTable vitals = Returns html ->
  truthy vitals = true ->
  In k ["pulse"; "bp"; "spo2"; "temperature"; "physical_signs"] ->
  truthy (get k vitals) = true ->
  Contains (toStr (get k vitals)) html.
Proof.
  intros H Ht Hk Hv.
  assert (Hentry : forall label unit,
             In (k, (label, unit)) vitalsMap ->
             Contains (toStr (get k vitals)) html).
  { intros label unit Hin.
    destruct (vitalsTable_entry _ _ _ H Ht Hin) as (piece & Hp & Hc).
    eapply Contains_trans; [|exact Hc].
    apply (vitalItem_value _ _ _ _ _ Hp). now apply truthy_not_nullish. }
  destruct Hk as [<-|[<-|[<-|[<-|[<-|[]]]]]];
    try (eapply Hentry; simpl; tauto).
  cbv delta [buildVitalsTable] in H. enter H Ht. take_apart H. occurs.
Qed.

(** *** Physical assessment and triage analysis *)

Lemma physicalAssessment_value (physical : value) (html k : string) :
  buildPhysicalAssessment E physical = Returns html ->
  truthy physical = true ->
  In k ["physical_condition"; "distress_level"; "breathing_assessment";
        "consciousness"] ->
  truthy (get k physical) = true ->
  Contains (toStr (get k physical)) html.
Proof.
  intros H Ht Hk Hv. cbv delta [buildPhysicalAssessment] in H. enter H Ht.
  each_key Hk ltac:(take_apart H; occurs).
Qed.

Lemma physicalAssessment_item (physical : value) (html k : string)
    (l : list value) (v : value) :
  buildPhysicalAssessment E physical = Returns html ->
  truthy physical = true ->
  In k ["visible_signs"] ->
  get k physical = VArr l -> In v l ->
  Contains (toStr v) html.
Proof.
  intros H Ht Hk Hg Hin.
  pose proof (hasItems_array E l v Hin) as Hhas.
  cbv delta [buildPhysicalAssessment] in H. enter H Ht.
  each_key Hk ltac:(rewrite Hg in H; take_apart H; occurs).
Qed.

Lemma triageAnalysis_value (analysis : value) (html k : string) :
  buildTriageAnalysis E analysis = Returns html ->
  truthy analysis = true ->
  In k ["priority"; "justification_english"; "justification_hindi";
        "recommended_action"; "assessment_basis"] ->
  truthy (get k analysis) = true ->
  Contains (toStr (get k analysis)) html.
Proof.
  intros H Ht Hk Hv. cbv delta [buildTriageAnalysis] in H. enter H Ht.
  each_key Hk ltac:(take_apart H; occurs).
Qed.

Lemma triageAnalysis_item (analysis : value) (html k : string)
    (l : list value) (v : value) :
  buildTriageAnalysis E analysis = Returns html ->
  truthy analysis = true ->
  In k ["key_vital_flags"; "physical_flags"] ->
  get k analysis = VArr l -> In v l ->
  Contains (toStr v) html.
Proof.
  intros H Ht Hk Hg Hin.
  pose proof (hasItems_array E l v Hin) as Hhas.
  cbv delta [buildTriageAnalysis] in H. enter H Ht.
  each_key Hk ltac:(rewrite Hg in H; take_apart H; occurs).
Qed.

(** *** Placeholders of the triage builders *)

Lemma vitalItem_missing (vitals : value) (key label unit : string) :
  nullish (get key vitals) = true ->
  vitalItem vitals (key, (label, unit)) =
  Returns ("
            <div class=~vital-item~>
                <span class=~vital-label~>" ++ label ++ "</span>
                <span class=~vital-value " ++
  (if isNull (get key vitals) then "missing" else "") ++ "~>Not recorded</span>
            </div>
        ").
Proof. intros Hn. unfold vitalItem. now rewrite Hn. Qed.

Lemma falsy_nullish (v : value) : nullish v = true -> truthy v = false.
Proof. now destruct v. Qed.

Lemma physicalAssessment_missing (physical : value) :
  truthy physical = false ->
  buildPhysicalAssessment E physical
  = Returns "<p class=~no-data~>No physical assessment available</p>".
Proof. intros Hf. unfold buildPhysicalAssessment. now rewrite Hf. Qed.

Lemma triageAnalysis_missing (analysis : value) :
  truthy analysis = false ->
  buildTriageAnalysis E analysis
  = Returns "<p class=~no-data~>No analysis available</p>".
Proof. intros Hf. unfold buildTriageAnalysis. now rewrite Hf. Qed.

Lemma vitalsTable_missing (vitals : value) :
  truthy vitals = false ->
  buildVitalsTable vitals = Returns "<p class=~no-data~>No vitals extracted</p>".
Proof. intros Hf. unfold buildVitalsTable. now rewrite Hf. Qed.

End RendererFacts.

(** A window of consecutive parts of a markup, whose text is known. *)
Lemma Contains_window2 (p a b r : string) :
  Contains p (a ++ b) -> Contains p (a ++ b ++ r).
Proof. intros H. rewrite <- append_assoc. now apply Contains_app_l. Qed.

Lemma Contains_window3 (p a b c r : string) :
  Contains p (a ++ b ++ c) -> Contains p (a ++ b ++ c ++ r).
Proof. intros H. rewrite group3. now apply Contains_app_l. Qed.

Lemma Contains_window4 (p a b c d r : string) :
  Contains p (a ++ b ++ c ++ d) -> Contains p (a ++ b ++ c ++ d ++ r).
Proof.
  intros H. replace (a ++ b ++ c ++ d ++ r) with ((a ++ b ++ c ++ d) ++ r)
    by now rewrite !append_assoc.
  now apply Contains_app_l.
Qed.

Lemma Contains_window5 (p a b c d e r : string) :
  Contains p (a ++ b ++ c ++ d ++ e) -> Contains p (a ++ b ++ c ++ d ++ e ++ r).
Proof.
  intros H. replace (a ++ b ++ c ++ d ++ e ++ r) with ((a ++ b ++ c ++ d ++ e) ++ r)
    by now rewrite !append_assoc.
  now apply Contains_app_l.
Qed.

(** The pattern occurs in a text that evaluates. *)
Ltac computed := apply includes_Contains; vm_compute; reflexivity.

(** Find an occurrence of a pattern that runs over several consecutive
    parts of the markup, all of them known text. *)
Ltac occurs_text :=
  lazymatch goal with
  | |- Contains _ (_ ++ _) =>
      first [ computed
            | apply Contains_window5; computed
            | apply Contains_window4; computed
            | apply Contains_window3; computed
            | apply Contains_window2; computed
            | apply Contains_app_r; occurs_text
            | apply Contains_app_l; occurs_text ]
  | |- Contains _ (if _ then _ else _) =>
      first [ apply Contains_grown; occurs_text | apply Contains_if; occurs_text ]
  | |- Contains _ ?x => first [ is_var x; unfold x; occurs_text | computed ]
  end.

(** Make a value that is known to be absent or null explicit. *)
Ltac missing v Hn := destruct v; try discriminate Hn.

Section RendererPlaceholders.

Variable E : engine.

Lemma triageAnalysis_priority_missing (analysis : value) (html : string) :
  buildTriageAnalysis E analysis = Returns html ->
  truthy analysis = true ->
  nullish (get "priority" analysis) = true ->
  Contains "<span class=~priority-text~>Unknown Priority</span>" html.
Proof.
  intros H Ht Hn. cbv delta [buildTriageAnalysis] in H. enter H Ht.
  missing (get "priority" analysis) Hn; take_apart H; occurs_text.
Qed.

End RendererPlaceholders.

(** ** Renderer: when a builder returns *)

Lemma andThen_returns {A B : Type} (m : completion A) (k : A -> completion B) :
  (exists a, m = Returns a) -> (forall a, exists b, k a = Returns b) ->
  exists b, andThen m k = Returns b.
Proof. intros [a ->] Hk. apply Hk. Qed.

(** Values that hold no object with a [toString] of its own: their parts
    are such values, and they convert. *)
Lemma plain_members (props : list (string * value)) (k : string) :
  (fix members (l : list (string * value)) : bool :=
     match l with
     | [] => true
     | (_, x) :: r => plain x && members r
     end) props = true ->
  plain (lookup k props) = true.
Proof.
  induction props as [|[k' x] props IH]; intros H; [reflexivity|].
  apply andb_prop in H as [Hx Hr]. simpl.
  destruct (String.eqb k k'); [exact Hx | now apply IH].
Qed.

Lemma plain_get (k : string) (v : value) : plain v = true -> plain (get k v) = true.
Proof.
  destruct v; try reflexivity; intros H.
  - simpl. now destruct (String.eqb k "length").
  - simpl. now destruct (String.eqb k "length").
  - cbn [plain] in H. apply andb_prop in H as [_ H].
    now apply plain_members.
Qed.

Lemma plain_item (l : list value) (x : value) :
  plain (VArr l) = true -> In x l -> plain x = true.
Proof. cbn [plain]. rewrite forallb_forall. intros H Hin. now apply H. Qed.

Lemma plain_orElse (a b : value) :
  plain a = true -> plain b = true -> plain (orElse a b) = true.
Proof. intros Ha Hb. unfold orElse. now destruct (truthy a). Qed.

Lemma plain_iterate (v : value) (l : list value) (x : value) :
  plain v = true -> iterate v = Returns l -> In x l -> plain x = true.
Proof.
  intros Hv Hl Hin. destruct v; try discriminate Hl;
    apply Returns_inj in Hl; subst l.
  - apply in_map_iff in Hin as (c & <- & _). reflexivity.
  - now apply (plain_item items).
Qed.

Lemma plain_printable (v : value) : plain v = true -> printable v = true.
Proof.
  revert v. fix plain_printable 1. intros v.
  destruct v as [| |b|z|shown|s|items|props]; try reflexivity.
  - cbn [plain printable]. induction items as [|x items IH]; [reflexivity|].
    cbn [forallb]. intros H. apply andb_prop in H as [Hx Hr].
    rewrite (plain_printable x Hx). now apply IH.
  - cbn [plain printable]. intros H. now apply andb_prop in H as [H _].
Qed.

Lemma plain_optLower (E : engine) (v lowered : value) :
  optLower E v = Returns lowered -> printable lowered = true.
Proof.
  destruct v; try discriminate; intros H; apply Returns_inj in H; now subst.
Qed.

Create HintDb plainness.
#[export] Hint Resolve plain_get plain_orElse plain_printable : plainness.
#[export] Hint Extern 1 (plain _ = true) => reflexivity : plainness.
#[export] Hint Extern 1 (printable _ = true) => reflexivity : plainness.

Lemma str_returns (v : value) : printable v = true -> str v = Returns (toStr v).
Proof. intros H. unfold str. now rewrite H. Qed.

Lemma testItems_returns (E : engine) (x : value) :
  plain x = true -> testItems E x = Returns (hasItems E x).
Proof.
  intros H. unfold testItems, hasItems, greaterThanZero.
  destruct (truthy x); [|reflexivity].
  now rewrite (plain_printable _ (plain_get "length" _ H)).
Qed.

Lemma mapEach_returns (g : string -> string) (l : list value) :
  forallb printable l = true ->
  mapEach (fun x => s <- str x ;; Returns (g s)) l
  = Returns (map (fun x => g (toStr x)) l).
Proof.
  induction l as [|x l IH]; intros H; [reflexivity|].
  cbn [forallb] in H. apply andb_prop in H as [Hx Hl].
  cbn [mapEach]. rewrite (str_returns _ Hx). cbn [andThen].
  now rewrite (IH Hl).
Qed.

Lemma strStep_returns {B : Type} (v : value) (k : string -> completion B) :
  printable v = true -> (forall s, exists b, k s = Returns b) ->
  exists b, andThen (str v) k = Returns b.
Proof. intros Hv Hk. rewrite (str_returns _ Hv). apply Hk. Qed.

Lemma optionalStep_returns (c : bool) (v : value) (g : string -> string)
    (otherwise : string) :
  printable v = true ->
  exists h,
    (if c then s <- str v ;; Returns (g s) else Returns otherwise) = Returns h.
Proof.
  intros Hv. destruct c; [|eexists; reflexivity].
  rewrite (str_returns _ Hv). eexists; reflexivity.
Qed.

Lemma listStep_returns (E : engine) (g : string -> string) (x : value)
    (k : string -> string) (otherwise : string) :
  listOrMissing x = true -> plain x = true ->
  exists h,
    (has <- testItems E x ;;
     if has then items <- mapJoin (fun y => s <- str y ;; Returns (g s)) x ;;
                 Returns (k items)
     else Returns otherwise) = Returns h.
Proof.
  intros Hx Hp. rewrite (testItems_returns E x Hp). cbn [andThen].
  destruct x; try discriminate Hx; try (eexists; reflexivity).
  destruct (hasItems E (VArr items)); [|eexists; reflexivity].
  cbn [mapJoin]. rewrite mapEach_returns; [eexists; reflexivity|].
  exact (plain_printable (VArr items) Hp).
Qed.

(** Show that a builder returns, one statement at a time: a pure
    statement is passed over, a conversion returns because the value
    holds no object with a [toString] of its own, a list statement
    returns because the list field is an array or missing. *)
Ltac returns :=
  repeat first
    [ lazymatch goal with
      | |- exists h, Returns _ = Returns h => eexists; reflexivity
      | |- exists h, (let x := ?a in @?b x) = Returns h =>
          change (exists h, b a = Returns h); generalize a; intro; cbv beta
      | |- exists h, andThen (str _) _ = Returns h =>
          apply strStep_returns; [solve [auto 7 with plainness] | intro]
      | |- exists h, andThen (andThen (testItems _ _) _) _ = Returns h =>
          apply andThen_returns;
          [ apply listStep_returns with (g := fun s => _) (k := fun items => _);
            [assumption | solve [auto 7 with plainness]]
          | intro ]
      | |- exists h, andThen (if _ then _ else Returns _) _ = Returns h =>
          apply andThen_returns;
          [ cbv zeta;
            apply optionalStep_returns with (g := fun s => _);
            solve [auto 7 with plainness]
          | intro ]
      end ].

Section RendererReturns.

Variable E : engine.

Lemma vitalItem_returns (vitals : value) (entry : string * (string * string)) :
  plain vitals = true -> exists piece, vitalItem vitals entry = Returns piece.
Proof.
  intros Hp. destruct entry as (key & label & unit). unfold vitalItem.
  destruct (nullish (get key vitals)); [eexists; reflexivity|].
  rewrite str_returns by auto with plainness. eexists; reflexivity.
Qed.

Lemma vitalsTable_returns (vitals : value) :
  plain vitals = true -> exists html, buildVitalsTable vitals = Returns html.
Proof.
  intros Hp. cbv delta [buildVitalsTable]. cbv beta.
  destruct (negb (truthy vitals)); [eexists; reflexivity|].
  cbv zeta. apply andThen_returns.
  - apply appendEach_returns. intros entry _. now apply vitalItem_returns.
  - intro. returns.
Qed.

Lemma physicalAssessment_returns (physical : value) :
  listOrMissing (get "visible_signs" physical) = true ->
  plain physical = true ->
  exists html, buildPhysicalAssessment E physical = Returns html.
Proof.
  intros H1 Hp. cbv delta [buildPhysicalAssessment]. cbv beta.
  destruct (negb (truthy physical)); returns.
Qed.

Lemma triageAnalysis_returns (analysis : value) :
  listOrMissing (get "key_vital_flags" analysis) = true ->
  listOrMissing (get "physical_flags" analysis) = true ->
  plain analysis = true ->
  exists html, buildTriageAnalysis E analysis = Returns html.
Proof.
  intros H1 H2 Hp. cbv delta [buildTriageAnalysis]. cbv beta.
  destruct (negb (truthy analysis)); returns.
Qed.

End RendererReturns.

(** ** Renderer: loops over records *)

Lemma prop_Returns (k : string) (v x : value) :
  prop k v = Returns x -> nullish v = false /\ x = get k v.
Proof.
  unfold prop. destruct (nullish v); intros H; [discriminate|].
  apply Returns_inj in H. now split.
Qed.

Lemma prop_returns (k : string) (v : value) :
  nullish v = false -> prop k v = Returns (get k v).
Proof. intros H. unfold prop. now rewrite H. Qed.

Section RendererRows.

Variable E : engine.

(** *** Lab tests *)

Lemma testRow_value (test : value) (piece k : string) :
  testRow test = Returns piece ->
  In k ["test_name"; "result"; "unit"; "reference_range"; "status"] ->
  truthy (get k test) = true ->
  Contains (toStr (get k test)) piece.
Proof.
  intros H Hk Hv. cbv delta [testRow] in H. cbv beta in H.
  each_key Hk ltac:(take_apart H; occurs).
Qed.

Lemma testRow_returns (test : value) :
  nullish test = false -> plain test = true ->
  exists piece, testRow test = Returns piece.
Proof.
  intros Hn Hp. cbv delta [testRow]. cbv beta. rewrite (prop_returns _ _ Hn).
  cbn [andThen]. cbv beta. returns.
Qed.

Lemma nonempty_not_zero (l : list value) (x : value) :
  In x l ->
  negb (truthy (VArr l)) || strictEqZero (get "length" (VArr l)) = false.
Proof. destruct l; [intros [] | reflexivity]. Qed.

Lemma testsTable_row (tests : value) (html : string) (l : list value)
    (test : value) :
  buildTestsTable tests = Returns html ->
  tests = VArr l -> In test l ->
  exists piece, testRow test = Returns piece /\ Contains piece html.
Proof.
  intros H -> Hin. cbv delta [buildTestsTable] in H. cbv beta in H.
  rewrite (nonempty_not_zero _ _ Hin) in H. cbv beta iota in H.
  take_apart H.
  match goal with
  | S : appendEach _ _ _ = Returns _ |- _ =>
      destruct (appendEach_piece _ _ _ _ _ S Hin) as (piece & Hp & Hc)
  end.
  exists piece. split; [exact Hp | occurs].
Qed.

Lemma testsTable_missing (tests : value) :
  truthy tests = false ->
  buildTestsTable tests
  = Returns "<p class=~no-data~>⚠️ No test data extracted. The image might need better quality or different angle.</p>".
Proof. intros Hf. unfold buildTestsTable. now rewrite Hf. Qed.

Lemma testRow_name_missing (test : value) (piece : string) :
  testRow test = Returns piece ->
  nullish (get "test_name" test) = true ->
  Contains "<span class=~test-name~>Unknown</span>" piece.
Proof.
  intros H Hn. cbv delta [testRow] in H. cbv beta in H.
  missing (get "test_name" test) Hn; take_apart H; occurs_text.
Qed.

Lemma testRow_result_missing (test : value) (piece : string) :
  testRow test = Returns piece ->
  nullish (get "result" test) = true ->
  Contains "<span class=~test-result~>N/A " piece.
Proof.
  intros H Hn. cbv delta [testRow] in H. cbv beta in H.
  missing (get "result" test) Hn; take_apart H; occurs_text.
Qed.

Lemma testRow_range_missing (test : value) (piece : string) :
  testRow test = Returns piece ->
  nullish (get "reference_range" test) = true ->
  Contains "<span class=~test-range~>N/A</span>" piece.
Proof.
  intros H Hn. cbv delta [testRow] in H. cbv beta in H.
  missing (get "reference_range" test) Hn; take_apart H; occurs_text.
Qed.

Lemma testRow_status_missing (test : value) (piece : string) :
  testRow test = Returns piece ->
  nullish (get "status" test) = true ->
  Contains "<span class=~test-status unknown~>Unknown</span>" piece.
Proof.
  intros H Hn. cbv delta [testRow] in H. cbv beta in H.
  apply andThen_Returns in H as (status & Hs & H).
  apply prop_Returns in Hs as (_ & ->).
  missing (get "status" test) Hn; take_apart H; occurs_text.
Qed.

Lemma testsTable_returns (tests : value) :
  recordsOrMissing present tests = true -> plain tests = true ->
  exists html, buildTestsTable tests = Returns html.
Proof.
  intros Hs Hp. unfold buildTestsTable.
  destruct tests as [| |b|z|shown|s|items|props]; try discriminate Hs;
    try (eexists; reflexivity).
  destruct (negb (truthy (VArr items)) || strictEqZero (get "length" (VArr items)));
    [eexists; reflexivity|].
  cbn [iterate andThen]. cbv zeta.
  apply andThen_returns; [|intro; eexists; reflexivity].
  apply appendEach_returns. intros x Hx.
  apply testRow_returns; [|exact (plain_item _ _ Hp Hx)].
  simpl in Hs. rewrite forallb_forall in Hs.
  specialize (Hs x Hx). unfold present in Hs. now destruct (nullish x).
Qed.

End RendererRows.

Section RendererReports.

Variable E : engine.

(** *** Patient explanations *)

Lemma explanationItem_value (exp : value) (piece k : string) :
  explanationItem E exp = Returns piece ->
  In k ["test_name"; "status"; "simple_explanation"; "analogy"] ->
  truthy (get k exp) = true ->
  Contains (toStr (get k exp)) piece.
Proof.
  intros H Hk Hv. cbv delta [explanationItem] in H. cbv beta in H.
  apply andThen_Returns in H as (status & Hs & H).
  apply prop_Returns in Hs as (_ & ->).
  each_key Hk ltac:(take_apart H; occurs).
Qed.

Lemma explanationItem_returns (exp : value) :
  explanationOk exp = true -> plain exp = true ->
  exists piece, explanationItem E exp = Returns piece.
Proof.
  intros Hok Hplain. apply andb_prop in Hok as [Hp Hs].
  unfold present in Hp. apply negb_true_iff in Hp.
  cbv delta [explanationItem]. cbv beta. rewrite (prop_returns _ _ Hp).
  cbn [andThen]. cbv beta zeta.
  apply strStep_returns; [auto with plainness | intro].
  destruct (get "status" exp); try discriminate Hs;
    cbn [optLower andThen]; cbv beta; returns.
Qed.

Lemma explanations_guard (explanations : value) :
  truthy explanations = true ->
  truthy (get "explanations" explanations) = true ->
  negb (truthy explanations) || negb (truthy (get "explanations" explanations))
  = false.
Proof. intros -> ->. reflexivity. Qed.

Lemma patientExplanation_row (explanations : value) (html : string)
    (l : list value) (exp : value) :
  buildPatientExplanation E explanations = Returns html ->
  truthy explanations = true ->
  get "explanations" explanations = VArr l -> In exp l ->
  exists piece, explanationItem E exp = Returns piece /\ Contains piece html.
Proof.
  intros H Ht Hg Hin. cbv delta [buildPatientExplanation] in H. cbv beta in H.
  rewrite explanations_guard, Hg in H by (try rewrite Hg; easy).
  cbv beta iota in H.
  take_apart H;
    match goal with
    | S : appendEach _ _ _ = Returns _ |- _ =>
        destruct (appendEach_piece _ _ _ _ _ S Hin) as (piece & Hp & Hc)
    end;
    exists piece; (split; [exact Hp | occurs]).
Qed.

Lemma patientExplanation_value (explanations : value) (html k : string) :
  buildPatientExplanation E explanations = Returns html ->
  truthy explanations = true ->
  truthy (get "explanations" explanations) = true ->
  In k ["warning_signs"] ->
  truthy (get k explanations) = true ->
  Contains (toStr (get k explanations)) html.
Proof.
  intros H Ht Hg Hk Hv. cbv delta [buildPatientExplanation] in H. cbv beta in H.
  rewrite (explanations_guard _ Ht Hg) in H. cbv beta iota in H.
  each_key Hk ltac:(take_apart H; occurs).
Qed.

Lemma patientExplanation_item (explanations : value) (html k : string)
    (items : list value) (v : value) :
  buildPatientExplanation E explanations = Returns html ->
  truthy explanations = true ->
  truthy (get "explanations" explanations) = true ->
  In k ["next_steps"] ->
  get k explanations = VArr items -> In v items ->
  Contains (toStr v) html.
Proof.
  intros H Ht Hg Hk Hi Hin.
  pose proof (hasItems_array E items v Hin) as Hhas.
  cbv delta [buildPatientExplanation] in H. cbv beta in H.
  rewrite (explanations_guard _ Ht Hg) in H. cbv beta iota in H.
  each_key Hk ltac:(rewrite Hi in H; take_apart H; occurs).
Qed.

Lemma patientExplanation_missing (explanations : value) :
  truthy explanations = false \/ truthy (get "explanations" explanations) = false ->
  buildPatientExplanation E explanations
  = Returns "<p class=~no-data~>No explanations available</p>".
Proof.
  intros [Hf|Hf]; unfold buildPatientExplanation; rewrite Hf;
    [reflexivity | now rewrite orb_true_r].
Qed.

Lemma patientExplanation_returns (explanations : value) :
  recordsOrMissing explanationOk (get "explanations" explanations) = true ->
  listOrMissing (get "next_steps" explanations) = true ->
  plain explanations = true ->
  exists html, buildPatientExplanation E explanations = Returns html.
Proof.
  intros Hs Hl Hp. cbv delta [buildPatientExplanation]. cbv beta.
  destruct (negb (truthy explanations)); [eexists; reflexivity|].
  cbn [orb].
  pose proof (plain_get "explanations" _ Hp) as Hrows.
  destruct (get "explanations" explanations) as [| |b|z|shown|s|items|props];
    try discriminate Hs; try (eexists; reflexivity).
  cbn [truthy negb iterate andThen].
  generalize "<div class=~explanations-list~>". intros html.
  apply andThen_returns.
  - apply appendEach_returns. intros x Hx.
    apply explanationItem_returns; [|exact (plain_item _ _ Hrows Hx)].
    simpl in Hs. rewrite forallb_forall in Hs. now apply Hs.
  - intro. returns.
Qed.

End RendererReports.

Section RendererScribe.

Variable E : engine.

(** *** Transcribed notes and executive summary *)

Lemma transcribedNotes_value (notes : value) (html k : string) :
  buildTranscribedNotes E notes = Returns html ->
  truthy notes = true ->
  In k ["duration"] ->
  truthy (get k notes) = true ->
  Contains (toStr (get k notes)) html.
Proof.
  intros H Ht Hk Hv. cbv delta [buildTranscribedNotes] in H. enter H Ht.
  each_key Hk ltac:(take_apart H; occurs).
Qed.

Lemma transcribedNotes_item (notes : value) (html k : string)
    (l : list value) (v : value) :
  buildTranscribedNotes E notes = Returns html ->
  truthy notes = true ->
  In k ["chief_complaints"; "previous_medications"; "allergies";
        "examination_findings"] ->
  get k notes = VArr l -> In v l ->
  Contains (toStr v) html.
Proof.
  intros H Ht Hk Hg Hin.
  pose proof (hasItems_array E l v Hin) as Hhas.
  cbv delta [buildTranscribedNotes] in H. enter H Ht.
  each_key Hk ltac:(rewrite Hg in H; take_apart H; occurs).
Qed.

Lemma transcribedNotes_missing (notes : value) :
  truthy notes = false ->
  buildTranscribedNotes E notes = Returns "<p class=~no-data~>No notes transcribed</p>".
Proof. intros Hf. unfold buildTranscribedNotes. now rewrite Hf. Qed.

Lemma transcribedNotes_allergies_missing (notes : value) (html : string) :
  buildTranscribedNotes E notes = Returns html ->
  truthy notes = true ->
  nullish (get "allergies" notes) = true ->
  Contains "<p class=~no-allergies~>No allergies noted</p>" html.
Proof.
  intros H Ht Hn. cbv delta [buildTranscribedNotes] in H. enter H Ht.
  missing (get "allergies" notes) Hn; take_apart H; occurs_text.
Qed.

Lemma transcribedNotes_returns (notes : value) :
  listOrMissing (get "chief_complaints" notes) = true ->
  listOrMissing (get "previous_medications" notes) = true ->
  listOrMissing (get "allergies" notes) = true ->
  listOrMissing (get "examination_findings" notes) = true ->
  plain notes = true ->
  exists html, buildTranscribedNotes E notes = Returns html.
Proof.
  intros H1 H2 H3 H4 Hp. cbv delta [buildTranscribedNotes]. cbv beta.
  destruct (negb (truthy notes)); returns.
Qed.

Lemma executiveSummary_value (summary : value) (html k : string) :
  buildExecutiveSummary E summary = Returns html ->
  truthy summary = true ->
  In k ["doctor_focus_time"] ->
  truthy (get k summary) = true ->
  Contains (toStr (get k summary)) html.
Proof.
  intros H Ht Hk Hv. cbv delta [buildExecutiveSummary] in H. enter H Ht.
  each_key Hk ltac:(take_apart H; occurs).
Qed.

Lemma executiveSummary_item (summary : value) (html k : string)
    (l : list value) (v : value) :
  buildExecutiveSummary E summary = Returns html ->
  truthy summary = true ->
  In k ["executive_summary"; "critical_flags"] ->
  get k summary = VArr l -> In v l ->
  Contains (toStr v) html.
Proof.
  intros H Ht Hk Hg Hin.
  pose proof (hasItems_array E l v Hin) as Hhas.
  cbv delta [buildExecutiveSummary] in H. enter H Ht.
  each_key Hk ltac:(rewrite Hg in H; take_apart H; occurs).
Qed.

Lemma executiveSummary_missing (summary : value) :
  truthy summary = false ->
  buildExecutiveSummary E summary
  = Returns "<p class=~no-data~>No executive summary available</p>".
Proof. intros Hf. unfold buildExecutiveSummary. now rewrite Hf. Qed.

Lemma executiveSummary_returns (summary : value) :
  listOrMissing (get "executive_summary" summary) = true ->
  listOrMissing (get "critical_flags" summary) = true ->
  plain summary = true ->
  exists html, buildExecutiveSummary E summary = Returns html.
Proof.
  intros H1 H2 Hp. cbv delta [buildExecutiveSummary]. cbv beta.
  destruct (negb (truthy summary)); returns.
Qed.

End RendererScribe.

Section RendererPolypharmacy.

Variable E : engine.

(** *** Medicines and safety analysis *)

Lemma medicineCard_value (med : value) (piece k : string) :
  medicineCard med = Returns piece ->
  In k ["brand_name"; "generic_name"; "strength"; "form"; "frequency"] ->
  truthy (get k med) = true ->
  Contains (toStr (get k med)) piece.
Proof.
  intros H Hk Hv. cbv delta [medicineCard] in H. cbv beta in H.
  apply andThen_Returns in H as (brand & Hs & H).
  apply prop_Returns in Hs as (_ & ->).
  each_key Hk ltac:(take_apart H; occurs).
Qed.

Lemma medicineCard_returns (med : value) :
  nullish med = false -> plain med = true ->
  exists piece, medicineCard med = Returns piece.
Proof.
  intros Hn Hp. cbv delta [medicineCard]. cbv beta. rewrite (prop_returns _ _ Hn).
  cbn [andThen]. cbv beta. returns.
Qed.

Lemma medicineCard_brand_missing (med : value) (piece : string) :
  medicineCard med = Returns piece ->
  nullish (get "brand_name" med) = true ->
  Contains "<span class=~brand-name~>[Unclear]</span>" piece.
Proof.
  intros H Hn. cbv delta [medicineCard] in H. cbv beta in H.
  apply andThen_Returns in H as (brand & Hs & H).
  apply prop_Returns in Hs as (_ & ->).
  missing (get "brand_name" med) Hn; take_apart H; occurs_text.
Qed.

Lemma medicineCard_generic_missing (med : value) (piece : string) :
  medicineCard med = Returns piece ->
  nullish (get "generic_name" med) = true ->
  Contains "<span class=~generic-name~>[Unclear]</span>" piece.
Proof.
  intros H Hn. cbv delta [medicineCard] in H. cbv beta in H.
  missing (get "generic_name" med) Hn; take_apart H; occurs_text.
Qed.

Lemma medicineCard_strength_missing (med : value) (piece : string) :
  medicineCard med = Returns piece ->
  nullish (get "strength" med) = true ->
  Contains "<span class=~strength~>💪 [Unclear]</span>" piece.
Proof.
  intros H Hn. cbv delta [medicineCard] in H. cbv beta in H.
  missing (get "strength" med) Hn; take_apart H; occurs_text.
Qed.

Lemma medicineCard_form_missing (med : value) (piece : string) :
  medicineCard med = Returns piece ->
  nullish (get "form" med) = true ->
  Contains "<span class=~form~>💊 [Unclear]</span>" piece.
Proof.
  intros H Hn. cbv delta [medicineCard] in H. cbv beta in H.
  missing (get "form" med) Hn; take_apart H; occurs_text.
Qed.

Lemma medicinesList_row (medicines : value) (html : string) (l : list value)
    (med : value) :
  buildMedicinesList medicines = Returns html ->
  medicines = VArr l -> In med l ->
  exists piece, medicineCard med = Returns piece /\ Contains piece html.
Proof.
  intros H -> Hin. cbv delta [buildMedicinesList] in H. cbv beta in H.
  rewrite (nonempty_not_zero _ _ Hin) in H. cbv beta iota in H.
  take_apart H.
  match goal with
  | S : appendEach _ _ _ = Returns _ |- _ =>
      destruct (appendEach_piece _ _ _ _ _ S Hin) as (piece & Hp & Hc)
  end.
  exists piece. split; [exact Hp | occurs].
Qed.

Lemma medicinesList_missing (medicines : value) :
  truthy medicines = false ->
  buildMedicinesList medicines
  = Returns "<p class=~no-data~>⚠️ No medicines detected. Please ensure images show medicine strips or prescriptions clearly.</p>".
Proof. intros Hf. unfold buildMedicinesList. now rewrite Hf. Qed.

Lemma medicinesList_returns (medicines : value) :
  recordsOrMissing present medicines = true -> plain medicines = true ->
  exists html, buildMedicinesList medicines = Returns html.
Proof.
  intros Hs Hp. unfold buildMedicinesList.
  destruct medicines as [| |b|z|shown|s|items|props]; try discriminate Hs;
    try (eexists; reflexivity).
  destruct (negb (truthy (VArr items)) || strictEqZero (get "length" (VArr items)));
    [eexists; reflexivity|].
  cbn [iterate andThen]. cbv zeta.
  apply andThen_returns; [|intro; eexists; reflexivity].
  apply appendEach_returns. intros x Hx.
  apply medicineCard_returns; [|exact (plain_item _ _ Hp Hx)].
  simpl in Hs. rewrite forallb_forall in Hs.
  specialize (Hs x Hx). unfold present in Hs. now destruct (nullish x).
Qed.

Lemma safetyAnalysis_value (analysis : value) (html k : string) :
  buildSafetyAnalysis E analysis = Returns html ->
  truthy analysis = true ->
  In k ["urgency"; "recommendation"] ->
  truthy (get k analysis) = true ->
  Contains (toStr (get k analysis)) html.
Proof.
  intros H Ht Hk Hv. cbv delta [buildSafetyAnalysis] in H. enter H Ht.
  each_key Hk ltac:(take_apart H; occurs).
Qed.

Lemma safetyAnalysis_item (analysis : value) (html k : string)
    (l : list value) (v : value) :
  buildSafetyAnalysis E analysis = Returns html ->
  truthy analysis = true ->
  In k ["drug_interactions"; "duplicate_medications"; "safety_warnings"] ->
  get k analysis = VArr l -> In v l ->
  Contains (toStr v) html.
Proof.
  intros H Ht Hk Hg Hin.
  pose proof (hasItems_array E l v Hin) as Hhas.
  cbv delta [buildSafetyAnalysis] in H. enter H Ht.
  each_key Hk ltac:(rewrite Hg in H; take_apart H; occurs).
Qed.

Lemma safetyAnalysis_missing (analysis : value) :
  truthy analysis = false ->
  buildSafetyAnalysis E analysis
  = Returns "<p class=~no-data~>No safety analysis available</p>".
Proof. intros Hf. unfold buildSafetyAnalysis. now rewrite Hf. Qed.

Lemma safetyAnalysis_urgency_missing (analysis : value) (html : string) :
  buildSafetyAnalysis E analysis = Returns html ->
  truthy analysis = true ->
  nullish (get "urgency" analysis) = true ->
  Contains "<span class=~urgency-text~>Unknown Urgency</span>" html.
Proof.
  intros H Ht Hn. cbv delta [buildSafetyAnalysis] in H. enter H Ht.
  missing (get "urgency" analysis) Hn; take_apart H; occurs_text.
Qed.

Lemma safetyAnalysis_returns (analysis : value) :
  listOrMissing (get "drug_interactions" analysis) = true ->
  listOrMissing (get "duplicate_medications" analysis) = true ->
  listOrMissing (get "safety_warnings" analysis) = true ->
  plain analysis = true ->
  exists html, buildSafetyAnalysis E analysis = Returns html.
Proof.
  intros H1 H2 H3 Hp. cbv delta [buildSafetyAnalysis]. cbv beta.
  destruct (negb (truthy analysis)); returns.
Qed.

End RendererPolypharmacy.

(** ** Renderer: the frame around the builders *)

Lemma read_key (k : string) (rest : list step) (v x : value) :
  read (Key k :: rest) v = Some x ->
  exists props, v = VObj props /\ read rest (get k v) = Some x.
Proof.
  destruct v; try discriminate. intros H. now exists props.
Qed.

Lemma read_index (i : nat) (rest : list step) (v x : value) :
  read (Index i :: rest) v = Some x ->
  exists items y, v = VArr items /\ In y items /\ read rest y = Some x.
Proof.
  destruct v; try discriminate. simpl.
  destruct (nth_error items i) as [y|] eqn:Hy; [|discriminate].
  intros H. exists items, y. repeat split; [|exact H].
  now apply nth_error_In with i.
Qed.

Lemma read_here (v x : value) : read [] v = Some x -> v = x.
Proof. now intros [= ->]. Qed.

Lemma oneOf_In (k : string) (keys : list string) :
  oneOf k keys = true -> In k keys.
Proof.
  unfold oneOf. rewrite existsb_exists. intros (x & Hx & He).
  apply String.eqb_eq in He. now subst.
Qed.

Lemma success_status (payload : value) :
  read [Key "status"] payload = Some (VStr "success") ->
  prop "status" payload = Returns (VStr "success").
Proof.
  intros H. apply read_key in H as (props & -> & H).
  apply read_here in H. unfold prop. simpl nullish. cbv iota. now rewrite H.
Qed.

Section RendererFrame.

Variable E : engine.

Lemma render_success (t : tab) (payload : value) :
  prop "status" payload = Returns (VStr "success") ->
  render E t payload =
  match t with
  | Triage => buildTriageResults E payload
  | Reports => buildReportsResults E payload
  | Scribe => buildScribeResults E payload
  | Translator => Returns (buildTranslatorResults payload)
  | Polypharmacy => buildPolypharmacyResults E payload
  end.
Proof.
  intros Hs. unfold render. rewrite Hs. cbn [andThen].
  change (strictEqStr (VStr "success") "success") with true. cbn [negb].
  destruct t;
    [ destruct (buildTriageResults E payload)
    | destruct (buildReportsResults E payload)
    | destruct (buildScribeResults E payload)
    |
    | destruct (buildPolypharmacyResults E payload) ];
    reflexivity.
Qed.

Lemma triageResults_parts (result : value) (html : string) :
  buildTriageResults E result = Returns html ->
  exists vitalsHtml physicalHtml analysisHtml,
    buildVitalsTable (get "vitals_extraction" result) = Returns vitalsHtml /\
    buildPhysicalAssessment E (get "physical_assessment" result) = Returns physicalHtml /\
    buildTriageAnalysis E (get "triage_analysis" result) = Returns analysisHtml /\
    Contains vitalsHtml html /\
    Contains physicalHtml html /\
    Contains analysisHtml html.
Proof.
  intros H. cbv delta [buildTriageResults] in H. cbv beta in H.
  take_apart H.
  eexists. eexists. eexists.
  repeat split; [eassumption | eassumption | eassumption | occurs ..].
Qed.

Lemma reportsResults_parts (result : value) (html : string) :
  buildReportsResults E result = Returns html ->
  exists testsHtml explanationHtml,
    buildTestsTable (get "extracted_tests" result) = Returns testsHtml /\
    buildPatientExplanation E (get "patient_explanations" result)
    = Returns explanationHtml /\
    Contains testsHtml html /\
    Contains explanationHtml html.
Proof.
  intros H. cbv delta [buildReportsResults] in H. cbv beta in H.
  take_apart H.
  eexists. eexists. repeat split; [eassumption | eassumption | occurs ..].
Qed.

Lemma scribeResults_parts (result : value) (html : string) :
  buildScribeResults E result = Returns html ->
  exists notesHtml summaryHtml,
    buildTranscribedNotes E (get "transcribed_notes" result) = Returns notesHtml /\
    buildExecutiveSummary E (get "doctor_summary" result) = Returns summaryHtml /\
    Contains notesHtml html /\
    Contains summaryHtml html.
Proof.
  intros H. cbv delta [buildScribeResults] in H. cbv beta in H.
  take_apart H.
  eexists. eexists. repeat split; [eassumption | eassumption | occurs ..].
Qed.

Lemma polypharmacyResults_parts (result : value) (html : string) :
  buildPolypharmacyResults E result = Returns html ->
  exists medicinesHtml analysisHtml,
    buildMedicinesList (get "medicines_extracted" result) = Returns medicinesHtml /\
    buildSafetyAnalysis E (get "safety_analysis" result) = Returns analysisHtml /\
    Contains medicinesHtml html /\
    Contains analysisHtml html.
Proof.
  intros H. cbv delta [buildPolypharmacyResults] in H. cbv beta in H.
  take_apart H.
  eexists. eexists. repeat split; [eassumption | eassumption | occurs ..].
Qed.

Lemma triageResults_returns (result : value) :
  shaped Triage result = true -> plain result = true ->
  exists html, buildTriageResults E result = Returns html.
Proof.
  intros H Hp. cbn [shaped] in H.
  apply andb_prop in H as [H H3]. apply andb_prop in H as [H1 H2].
  destruct (vitalsTable_returns _ (plain_get "vitals_extraction" _ Hp)) as [vh Hvh].
  destruct (physicalAssessment_returns E _ H1 (plain_get _ _ Hp)) as [ph Hph].
  destruct (triageAnalysis_returns E _ H2 H3 (plain_get _ _ Hp)) as [an Han].
  unfold buildTriageResults. rewrite Hvh, Hph, Han. eexists; reflexivity.
Qed.

Lemma reportsResults_returns (result : value) :
  shaped Reports result = true -> plain result = true ->
  exists html, buildReportsResults E result = Returns html.
Proof.
  intros H Hp. cbn [shaped] in H.
  apply andb_prop in H as [H H3]. apply andb_prop in H as [H1 H2].
  destruct (testsTable_returns _ H1 (plain_get _ _ Hp)) as [th Hth].
  destruct (patientExplanation_returns E _ H2 H3 (plain_get _ _ Hp)) as [eh Heh].
  unfold buildReportsResults. rewrite Hth, Heh. eexists; reflexivity.
Qed.

Lemma scribeResults_returns (result : value) :
  shaped Scribe result = true -> plain result = true ->
  exists html, buildScribeResults E result = Returns html.
Proof.
  intros H Hp. cbn [shaped] in H.
  apply andb_prop in H as [H H6]. apply andb_prop in H as [H H5].
  apply andb_prop in H as [H H4]. apply andb_prop in H as [H H3].
  apply andb_prop in H as [H1 H2].
  destruct (transcribedNotes_returns E _ H1 H2 H3 H4 (plain_get _ _ Hp)) as [nh Hnh].
  destruct (executiveSummary_returns E _ H5 H6 (plain_get _ _ Hp)) as [sh Hsh].
  unfold buildScribeResults. rewrite Hnh, Hsh. eexists; reflexivity.
Qed.

Lemma polypharmacyResults_returns (result : value) :
  shaped Polypharmacy result = true -> plain result = true ->
  exists html, buildPolypharmacyResults E result = Returns html.
Proof.
  intros H Hp. cbn [shaped] in H.
  apply andb_prop in H as [H H4]. apply andb_prop in H as [H H3].
  apply andb_prop in H as [H1 H2].
  destruct (medicinesList_returns _ H1 (plain_get _ _ Hp)) as [mh Hmh].
  destruct (safetyAnalysis_returns E _ H2 H3 H4 (plain_get _ _ Hp)) as [ah Hah].
  unfold buildPolypharmacyResults. rewrite Hmh, Hah. eexists; reflexivity.
Qed.

(** A well shaped result with status [success], all of whose values
    convert, renders. *)
Lemma render_returns (t : tab) (payload : value) :
  prop "status" payload = Returns (VStr "success") ->
  shaped t payload = true -> plain payload = true ->
  exists html, render E t payload = Returns html.
Proof.
  intros Hs Hshape Hplain. rewrite (render_success t payload Hs).
  destruct t;
    [ now apply triageResults_returns
    | now apply reportsResults_returns
    | now apply scribeResults_returns
    | eexists; reflexivity
    | now apply polypharmacyResults_returns ].
Qed.

End RendererFrame.

(** ** Renderer: strings are written as they are *)

Lemma read_section (section : string) (payload v : value) :
  read [Key section] payload = Some v -> get section payload = v.
Proof.
  intros H. apply read_key in H as (props & -> & H). now apply read_here in H.
Qed.

Lemma read_field (section k : string) (payload v : value) :
  read [Key section; Key k] payload = Some v ->
  truthy (get section payload) = true /\ get k (get section payload) = v.
Proof.
  intros H. apply read_key in H as (props & -> & H).
  apply read_key in H as (props' & Hs & H). apply read_here in H.
  split; [now rewrite Hs | exact H].
Qed.

Lemma read_item (section k : string) (i : nat) (payload v : value) :
  read [Key section; Key k; Index i] payload = Some v ->
  truthy (get section payload) = true /\
  exists l, get k (get section payload) = VArr l /\ In v l.
Proof.
  intros H. apply read_key in H as (props & -> & H).
  apply read_key in H as (props' & Hs & H).
  apply read_index in H as (l & y & Hl & Hin & H). apply read_here in H.
  subst y. split; [now rewrite Hs | now exists l].
Qed.

Lemma read_row (section k : string) (i : nat) (payload v : value) :
  read [Key section; Index i; Key k] payload = Some v ->
  exists l row, get section payload = VArr l /\ In row l /\ get k row = v.
Proof.
  intros H. apply read_key in H as (props & -> & H).
  apply read_index in H as (l & row & Hl & Hin & H).
  apply read_key in H as (props' & -> & H). apply read_here in H.
  now exists l, (VObj props').
Qed.

Lemma read_nested_row (section sub k : string) (i : nat) (payload v : value) :
  read [Key section; Key sub; Index i; Key k] payload = Some v ->
  truthy (get section payload) = true /\
  exists l row, get sub (get section payload) = VArr l /\ In row l /\ get k row = v.
Proof.
  intros H. apply read_key in H as (props & -> & H).
  apply read_key in H as (props' & Hs & H).
  apply read_index in H as (l & row & Hl & Hin & H).
  apply read_key in H as (props'' & -> & H). apply read_here in H.
  split; [now rewrite Hs | now exists l, (VObj props'')].
Qed.

Lemma interpolated_cases (t : tab) (payload : value) (path : list step) :
  interpolated t payload path = true ->
  (exists section k,
      path = [Key section; Key k] /\ In k (scalarKeys t section) /\
      (t = Reports -> truthy (get "explanations" (get section payload)) = true)) \/
  (exists section k i,
      path = [Key section; Key k; Index i] /\ In k (listKeys t section) /\
      (t = Reports -> truthy (get "explanations" (get section payload)) = true)) \/
  (exists section i k,
      path = [Key section; Index i; Key k] /\ In k (rowKeys t section)) \/
  (exists section sub i k,
      path = [Key section; Key sub; Index i; Key k] /\
      In k (nestedRowKeys t section sub)).
Proof.
  intros H.
  destruct path as [|[section|i] [|[k|j] [|[x|y] [|[z|w] [|? ?]]]]];
    try discriminate H; cbn [interpolated] in H.
  - apply andb_prop in H as [Hk Hr]. left. exists section, k.
    repeat split; [now apply oneOf_In|]. intros ->. exact Hr.
  - apply andb_prop in H as [Hk Hr]. right; left. exists section, k, y.
    repeat split; [now apply oneOf_In|]. intros ->. exact Hr.
  - right; right; right. exists section, k, y, z.
    split; [reflexivity | now apply oneOf_In].
  - right; right; left. exists section, j, x.
    split; [reflexivity | now apply oneOf_In].
Qed.

Lemma string_value_occurs (x : value) (k s h : string) :
  get k x = VStr s ->
  (truthy (get k x) = true -> Contains (toStr (get k x)) h) ->
  Contains s h.
Proof.
  intros Hg H. destruct s as [|c s]; [apply Contains_empty|].
  rewrite Hg in H. now apply H.
Qed.

(** Split a membership in the keys of a section into the sections. *)
Ltac sections H :=
  repeat match type of H with
         | In _ (if ?c then _ else _) =>
             match c with
             | String.eqb ?s ?n => destruct (String.eqb_spec s n) as [->|?]
             | String.eqb ?s ?n && String.eqb ?s' ?n' =>
                 destruct (String.eqb_spec s n) as [->|?];
                 [destruct (String.eqb_spec s' n') as [->|?]|];
                 cbn [andb] in H
             end
         | In _ [] => destruct H
         end.

Section RendererStrings.

Variable E : engine.

Lemma triage_strings (payload : value) (html : string) :
  buildTriageResults E payload = Returns html ->
  forall path s,
    interpolated Triage payload path = true ->
    read path payload = Some (VStr s) ->
    Contains s html.
Proof.
  intros H path s Hi Hr.
  destruct (triageResults_parts E _ _ H)
    as (vh & ph & an & Hvh & Hph & Han & Cv & Cp & Ca).
  apply interpolated_cases in Hi
    as [(section & k & -> & Hk & _)
       |[(section & k & i & -> & Hk & _)
        |[(section & i & k & -> & Hk)|(section & sub & i & k & -> & Hk)]]];
    cbn [scalarKeys listKeys rowKeys nestedRowKeys] in Hk.
  - apply read_field in Hr as (Ht & Hg). sections Hk.
    + eapply Contains_trans; [|exact Cv].
      apply (string_value_occurs _ _ _ _ Hg). intros Hv.
      now apply (vitalsTable_value _ _ _ Hvh).
    + eapply Contains_trans; [|exact Cp].
      apply (string_value_occurs _ _ _ _ Hg). intros Hv.
      now apply (physicalAssessment_value E _ _ _ Hph).
    + eapply Contains_trans; [|exact Ca].
      apply (string_value_occurs _ _ _ _ Hg). intros Hv.
      now apply (triageAnalysis_value E _ _ _ Han).
  - apply read_item in Hr as (Ht & l & Hg & Hin). sections Hk.
    + eapply Contains_trans; [|exact Cp].
      exact (physicalAssessment_item E _ _ _ _ _ Hph Ht Hk Hg Hin).
    + eapply Contains_trans; [|exact Ca].
      exact (triageAnalysis_item E _ _ _ _ _ Han Ht Hk Hg Hin).
  - destruct Hk.
  - destruct Hk.
Qed.

Lemma reports_strings (payload : value) (html : string) :
  buildReportsResults E payload = Returns html ->
  forall path s,
    interpolated Reports payload path = true ->
    read path payload = Some (VStr s) ->
    Contains s html.
Proof.
  intros H path s Hi Hr.
  destruct (reportsResults_parts E _ _ H) as (th & eh & Hth & Heh & Ct & Ce).
  apply interpolated_cases in Hi
    as [(section & k & -> & Hk & Hreach)
       |[(section & k & i & -> & Hk & Hreach)
        |[(section & i & k & -> & Hk)|(section & sub & i & k & -> & Hk)]]];
    cbn [scalarKeys listKeys rowKeys nestedRowKeys] in Hk.
  - apply read_field in Hr as (Ht & Hg). sections Hk.
    eapply Contains_trans; [|exact Ce].
    apply (string_value_occurs _ _ _ _ Hg). intros Hv.
    exact (patientExplanation_value E _ _ _ Heh Ht (Hreach eq_refl) Hk Hv).
  - apply read_item in Hr as (Ht & items & Hg & Hin). sections Hk.
    eapply Contains_trans; [|exact Ce].
    exact (patientExplanation_item E _ _ _ _ _ Heh Ht (Hreach eq_refl) Hk Hg Hin).
  - apply read_row in Hr as (l & row & Hl & Hin & Hg). sections Hk.
    destruct (testsTable_row _ _ _ _ Hth Hl Hin) as (piece & Hp & Cp).
    eapply Contains_trans; [|exact Ct].
    eapply Contains_trans; [|exact Cp].
    apply (string_value_occurs _ _ _ _ Hg). intros Hv.
    exact (testRow_value _ _ _ Hp Hk Hv).
  - apply read_nested_row in Hr as (Ht & l & row & Hl & Hin & Hg). sections Hk.
    destruct (patientExplanation_row E _ _ _ _ Heh Ht Hl Hin) as (piece & Hp & Cp).
    eapply Contains_trans; [|exact Ce].
    eapply Contains_trans; [|exact Cp].
    apply (string_value_occurs _ _ _ _ Hg). intros Hv.
    exact (explanationItem_value E _ _ _ Hp Hk Hv).
Qed.

Lemma scribe_strings (payload : value) (html : string) :
  buildScribeResults E payload = Returns html ->
  forall path s,
    interpolated Scribe payload path = true ->
    read path payload = Some (VStr s) ->
    Contains s html.
Proof.
  intros H path s Hi Hr.
  destruct (scribeResults_parts E _ _ H) as (nh & sh & Hnh & Hsh & Cn & Cs).
  apply interpolated_cases in Hi
    as [(section & k & -> & Hk & _)
       |[(section & k & i & -> & Hk & _)
        |[(section & i & k & -> & Hk)|(section & sub & i & k & -> & Hk)]]];
    cbn [scalarKeys listKeys rowKeys nestedRowKeys] in Hk.
  - apply read_field in Hr as (Ht & Hg). sections Hk.
    + eapply Contains_trans; [|exact Cn].
      apply (string_value_occurs _ _ _ _ Hg). intros Hv.
      now apply (transcribedNotes_value E _ _ _ Hnh).
    + eapply Contains_trans; [|exact Cs].
      apply (string_value_occurs _ _ _ _ Hg). intros Hv.
      now apply (executiveSummary_value E _ _ _ Hsh).
  - apply read_item in Hr as (Ht & l & Hg & Hin). sections Hk.
    + eapply Contains_trans; [|exact Cn].
      exact (transcribedNotes_item E _ _ _ _ _ Hnh Ht Hk Hg Hin).
    + eapply Contains_trans; [|exact Cs].
      exact (executiveSummary_item E _ _ _ _ _ Hsh Ht Hk Hg Hin).
  - destruct Hk.
  - destruct Hk.
Qed.

Lemma polypharmacy_strings (payload : value) (html : string) :
  buildPolypharmacyResults E payload = Returns html ->
  forall path s,
    interpolated Polypharmacy payload path = true ->
    read path payload = Some (VStr s) ->
    Contains s html.
Proof.
  intros H path s Hi Hr.
  destruct (polypharmacyResults_parts E _ _ H) as (mh & ah & Hmh & Hah & Cm & Ca).
  apply interpolated_cases in Hi
    as [(section & k & -> & Hk & _)
       |[(section & k & i & -> & Hk & _)
        |[(section & i & k & -> & Hk)|(section & sub & i & k & -> & Hk)]]];
    cbn [scalarKeys listKeys rowKeys nestedRowKeys] in Hk.
  - apply read_field in Hr as (Ht & Hg). sections Hk.
    eapply Contains_trans; [|exact Ca].
    apply (string_value_occurs _ _ _ _ Hg). intros Hv.
    now apply (safetyAnalysis_value E _ _ _ Hah).
  - apply read_item in Hr as (Ht & l & Hg & Hin). sections Hk.
    eapply Contains_trans; [|exact Ca].
    exact (safetyAnalysis_item E _ _ _ _ _ Hah Ht Hk Hg Hin).
  - apply read_row in Hr as (l & row & Hl & Hin & Hg). sections Hk.
    destruct (medicinesList_row _ _ _ _ Hmh Hl Hin) as (piece & Hp & Cp).
    eapply Contains_trans; [|exact Cm].
    eapply Contains_trans; [|exact Cp].
    apply (string_value_occurs _ _ _ _ Hg). intros Hv.
    exact (medicineCard_value _ _ _ Hp Hk Hv).
  - destruct Hk.
Qed.

End RendererStrings.

(** ** Renderer: placeholders *)

Lemma Some_inj {A : Type} (a b : A) : Some a = Some b -> a = b.
Proof. now intros [= ->]. Qed.

Lemma placeholderAt_cases (t : tab) (path : list step) (v : value) (ph : string) :
  placeholderAt t path v = Some ph ->
  (exists section, path = [Key section] /\ sectionPlaceholder t section = Some ph) \/
  (exists section k,
      path = [Key section; Key k] /\ fieldPlaceholder t section k v = Some ph) \/
  (exists section i k,
      path = [Key section; Index i; Key k] /\ rowPlaceholder t section k = Some ph).
Proof.
  intros H.
  destruct path as [|[section|i] [|[k|j] [|[x|y] [|? ?]]]];
    try discriminate H; cbn [placeholderAt] in H.
  - left. now exists section.
  - right; left. now exists section, k.
  - right; right. now exists section, j, x.
Qed.

(** Split the choice of a placeholder into its cases. *)
Ltac options H :=
  repeat match type of H with
         | (if ?c then _ else _) = Some _ =>
             match c with
             | String.eqb ?s ?n => destruct (String.eqb_spec s n) as [->|?]
             | String.eqb ?s ?n && String.eqb ?s' ?n' =>
                 destruct (String.eqb_spec s n) as [->|?];
                 [destruct (String.eqb_spec s' n') as [->|?]|];
                 cbn [andb] in H
             end
         | None = Some _ => discriminate H
         | Some _ = Some _ => apply Some_inj in H; destruct H
         end.

Section RendererPlaceholderLaw.

Variable E : engine.

Lemma vitalItem_placeholder (vitals : value) (k label : string) :
  labelOf k vitalsMap = Some label ->
  nullish (get k vitals) = true ->
  exists unit piece,
    In (k, (label, unit)) vitalsMap /\
    vitalItem vitals (k, (label, unit)) = Returns piece /\
    Contains (vitalMissing label (get k vitals)) piece.
Proof.
  intros Hl Hn. unfold vitalsMap, labelOf in Hl.
  destruct (String.eqb_spec k "pulse") as [->|?];
    [apply Some_inj in Hl; destruct Hl; exists "bpm"|
  destruct (String.eqb_spec k "bp") as [->|?];
    [apply Some_inj in Hl; destruct Hl; exists "mmHg"|
  destruct (String.eqb_spec k "spo2") as [->|?];
    [apply Some_inj in Hl; destruct Hl; exists "%"|
  destruct (String.eqb_spec k "temperature") as [->|?];
    [apply Some_inj in Hl; destruct Hl; exists "°C"|discriminate Hl]]]];
    eexists;
    (split; [unfold vitalsMap; simpl; tauto|]);
    (split; [apply vitalItem_missing; exact Hn|]);
    match type of Hn with nullish ?v = true => missing v Hn end; computed.
Qed.

Lemma triage_placeholders (payload : value) (html : string) :
  buildTriageResults E payload = Returns html ->
  forall path v ph,
    read path payload = Some v -> nullish v = true ->
    placeholderAt Triage path v = Some ph ->
    Contains ph html.
Proof.
  intros H path v ph Hr Hn Hp.
  destruct (triageResults_parts E _ _ H)
    as (vh & phy & an & Hvh & Hphy & Han & Cv & Cp & Ca).
  apply placeholderAt_cases in Hp
    as [(section & -> & Hp)|[(section & k & -> & Hp)|(section & i & k & -> & Hp)]].
  - apply read_section in Hr. pose proof (falsy_nullish _ Hn) as Hf.
    cbn [sectionPlaceholder] in Hp. options Hp; rewrite <- Hr in Hf.
    + rewrite (vitalsTable_missing _ Hf) in Hvh.
      apply Returns_inj in Hvh. now subst vh.
    + rewrite (physicalAssessment_missing E _ Hf) in Hphy.
      apply Returns_inj in Hphy. now subst phy.
    + rewrite (triageAnalysis_missing E _ Hf) in Han.
      apply Returns_inj in Han. now subst an.
  - apply read_field in Hr as (Ht & Hg). cbn [fieldPlaceholder] in Hp.
    destruct (String.eqb_spec section "vitals_extraction") as [->|?].
    + destruct (labelOf k vitalsMap) as [label|] eqn:Hl; [|discriminate Hp].
      apply Some_inj in Hp. destruct Hp. rewrite <- Hg in Hn.
      destruct (vitalItem_placeholder _ _ _ Hl Hn) as (unit & piece & Hin & Hpiece & Hc).
      rewrite <- Hg.
      eapply Contains_trans; [exact Hc|].
      eapply Contains_trans; [|exact Cv].
      destruct (vitalsTable_entry _ _ _ Hvh Ht Hin) as (piece' & Hpiece' & Hc').
      rewrite Hpiece in Hpiece'. apply Returns_inj in Hpiece'. now subst piece'.
    + options Hp. rewrite <- Hg in Hn.
      eapply Contains_trans; [|exact Ca].
      exact (triageAnalysis_priority_missing E _ _ Han Ht Hn).
  - discriminate Hp.
Qed.

Lemma reports_placeholders (payload : value) (html : string) :
  buildReportsResults E payload = Returns html ->
  forall path v ph,
    read path payload = Some v -> nullish v = true ->
    placeholderAt Reports path v = Some ph ->
    Contains ph html.
Proof.
  intros H path v ph Hr Hn Hp.
  destruct (reportsResults_parts E _ _ H) as (th & eh & Hth & Heh & Ct & Ce).
  apply placeholderAt_cases in Hp
    as [(section & -> & Hp)|[(section & k & -> & Hp)|(section & i & k & -> & Hp)]].
  - apply read_section in Hr. pose proof (falsy_nullish _ Hn) as Hf.
    cbn [sectionPlaceholder] in Hp. options Hp; rewrite <- Hr in Hf.
    + rewrite (testsTable_missing _ Hf) in Hth.
      apply Returns_inj in Hth. now subst th.
    + rewrite (patientExplanation_missing E _ (or_introl Hf)) in Heh.
      apply Returns_inj in Heh. now subst eh.
  - apply read_field in Hr as (Ht & Hg). cbn [fieldPlaceholder] in Hp.
    options Hp. rewrite <- Hg in Hn. apply falsy_nullish in Hn.
    rewrite (patientExplanation_missing E _ (or_intror Hn)) in Heh.
    apply Returns_inj in Heh. now subst eh.
  - apply read_row in Hr as (l & row & Hl & Hin & Hg).
    cbn [rowPlaceholder] in Hp.
    destruct (String.eqb_spec section "extracted_tests") as [->|?];
      [|discriminate Hp].
    destruct (testsTable_row _ _ _ _ Hth Hl Hin) as (piece & Hpiece & Cp).
    rewrite <- Hg in Hn.
    options Hp; (eapply Contains_trans; [|exact Ct]);
      (eapply Contains_trans; [|exact Cp]).
    + exact (testRow_name_missing _ _ Hpiece Hn).
    + exact (testRow_result_missing _ _ Hpiece Hn).
    + exact (testRow_range_missing _ _ Hpiece Hn).
    + exact (testRow_status_missing _ _ Hpiece Hn).
Qed.

Lemma scribe_placeholders (payload : value) (html : string) :
  buildScribeResults E payload = Returns html ->
  forall path v ph,
    read path payload = Some v -> nullish v = true ->
    placeholderAt Scribe path v = Some ph ->
    Contains ph html.
Proof.
  intros H path v ph Hr Hn Hp.
  destruct (scribeResults_parts E _ _ H) as (nh & sh & Hnh & Hsh & Cn & Cs).
  apply placeholderAt_cases in Hp
    as [(section & -> & Hp)|[(section & k & -> & Hp)|(section & i & k & -> & Hp)]].
  - apply read_section in Hr. pose proof (falsy_nullish _ Hn) as Hf.
    cbn [sectionPlaceholder] in Hp. options Hp; rewrite <- Hr in Hf.
    + rewrite (transcribedNotes_missing E _ Hf) in Hnh.
      apply Returns_inj in Hnh. now subst nh.
    + rewrite (executiveSummary_missing E _ Hf) in Hsh.
      apply Returns_inj in Hsh. now subst sh.
  - apply read_field in Hr as (Ht & Hg). cbn [fieldPlaceholder] in Hp.
    options Hp. rewrite <- Hg in Hn.
    eapply Contains_trans; [|exact Cn].
    exact (transcribedNotes_allergies_missing E _ _ Hnh Ht Hn).
  - discriminate Hp.
Qed.

Lemma polypharmacy_placeholders (payload : value) (html : string) :
  buildPolypharmacyResults E payload = Returns html ->
  forall path v ph,
    read path payload = Some v -> nullish v = true ->
    placeholderAt Polypharmacy path v = Some ph ->
    Contains ph html.
Proof.
  intros H path v ph Hr Hn Hp.
  destruct (polypharmacyResults_parts E _ _ H) as (mh & ah & Hmh & Hah & Cm & Ca).
  apply placeholderAt_cases in Hp
    as [(section & -> & Hp)|[(section & k & -> & Hp)|(section & i & k & -> & Hp)]].
  - apply read_section in Hr. pose proof (falsy_nullish _ Hn) as Hf.
    cbn [sectionPlaceholder] in Hp. options Hp; rewrite <- Hr in Hf.
    + rewrite (medicinesList_missing _ Hf) in Hmh.
      apply Returns_inj in Hmh. now subst mh.
    + rewrite (safetyAnalysis_missing E _ Hf) in Hah.
      apply Returns_inj in Hah. now subst ah.
  - apply read_field in Hr as (Ht & Hg). cbn [fieldPlaceholder] in Hp.
    options Hp. rewrite <- Hg in Hn.
    eapply Contains_trans; [|exact Ca].
    exact (safetyAnalysis_urgency_missing E _ _ Hah Ht Hn).
  - apply read_row in Hr as (l & row & Hl & Hin & Hg).
    cbn [rowPlaceholder] in Hp.
    destruct (String.eqb_spec section "medicines_extracted") as [->|?];
      [|discriminate Hp].
    destruct (medicinesList_row _ _ _ _ Hmh Hl Hin) as (piece & Hpiece & Cp).
    rewrite <- Hg in Hn.
    options Hp; (eapply Contains_trans; [|exact Cm]);
      (eapply Contains_trans; [|exact Cp]).
    + exact (medicineCard_brand_missing _ _ Hpiece Hn).
    + exact (medicineCard_generic_missing _ _ Hpiece Hn).
    + exact (medicineCard_strength_missing _ _ Hpiece Hn).
    + exact (medicineCard_form_missing _ _ Hpiece Hn).
Qed.

End RendererPlaceholderLaw.

(** ** Translator: strings go through [JSON.stringify] *)

Lemma quoteJSONChar_plain (c : ascii) :
  plainChar c = true -> quoteJSONChar c = String c "".
Proof.
  unfold plainChar, quoteJSONChar. cbv zeta. intros H.
  apply andb_prop in H as [H H92]. apply andb_prop in H as [H32 H34].
  apply N.leb_le in H32. apply negb_true_iff in H34, H92.
  rewrite H34, H92.
  repeat match goal with
         | |- context [(byte_code c =? ?k)%N] =>
             destruct (N.eqb_spec (byte_code c) k); [lia|]
         end.
  destruct (N.ltb_spec (byte_code c) 32); [lia | reflexivity].
Qed.

Lemma quoteJSONBody_plain (s : string) :
  plainText s = true -> quoteJSONBody s = s.
Proof.
  induction s as [|c s IH]; [reflexivity|]. simpl.
  intros H. apply andb_prop in H as [Hc Hs].
  now rewrite (quoteJSONChar_plain _ Hc), (IH Hs).
Qed.

(** *** What [JSON.stringify] writes for a string inside a value *)

Lemma Contains_concat (sep piece : string) (l : list string) :
  In piece l -> Contains piece (String.concat sep l).
Proof.
  induction l as [|x l IH]; [intros []|].
  intros [->|Hin]; simpl.
  - destruct l; [apply Contains_refl | apply Contains_app_l, Contains_refl].
  - destruct l as [|y l]; [destruct Hin|].
    apply Contains_app_r, Contains_app_r. now apply IH.
Qed.

Lemma serialize_object (indent : string) (props : list (string * value)) :
  serialize indent (VObj props) =
  match memberTexts (serialize (indent ++ "  ")) props with
  | [] => "{}"
  | _ :: _ =>
      "{" ++ newline ++ (indent ++ "  ") ++
      String.concat ("," ++ newline ++ (indent ++ "  "))
                    (memberTexts (serialize (indent ++ "  ")) props) ++
      newline ++ indent ++ "}"
  end.
Proof. reflexivity. Qed.

Lemma serialize_array (indent : string) (items : list value) :
  serialize indent (VArr items) =
  match items with
  | [] => "[]"
  | _ :: _ =>
      "[" ++ newline ++ (indent ++ "  ") ++
      String.concat ("," ++ newline ++ (indent ++ "  "))
                    (map (serialize (indent ++ "  ")) items) ++
      newline ++ indent ++ "]"
  end.
Proof. reflexivity. Qed.

Lemma memberTexts_lookup (write : value -> string) (k : string)
    (props : list (string * value)) :
  lookup k props <> VUndefined ->
  exists name,
    In (quoteJSON name ++ ": " ++ write (lookup k props)) (memberTexts write props).
Proof.
  induction props as [|[k' x] props IH]; intros Hne; [now destruct Hne|].
  cbn [lookup] in *. destruct (String.eqb k k').
  - exists k'. destruct x; try (now left). now destruct Hne.
  - destruct (IH Hne) as [name Hin]. exists name.
    destruct x; try (now right). exact Hin.
Qed.

Lemma read_defined (path : list step) (v : value) (s : string) :
  read path v = Some (VStr s) -> v <> VUndefined.
Proof. intros H ->. destruct path as [|[k|i] rest]; discriminate H. Qed.

(** A string anywhere inside a value is written in its quoted form. *)
Lemma serialize_string (path : list step) (v : value) (s indent : string) :
  read path v = Some (VStr s) ->
  Contains (quoteJSON s) (serialize indent v).
Proof.
  revert v indent; induction path as [|[k|i] rest IH]; intros v indent H.
  - apply read_here in H. subst v. apply Contains_refl.
  - apply read_key in H as (props & -> & H). cbn [get] in H.
    rewrite serialize_object.
    destruct (memberTexts_lookup (serialize (indent ++ "  ")) k props
                (read_defined _ _ _ H)) as [name Hin].
    destruct (memberTexts (serialize (indent ++ "  ")) props) as [|m ms] eqn:Hm;
      [destruct Hin|].
    apply Contains_app_r, Contains_app_r, Contains_app_r, Contains_app_l.
    eapply Contains_trans; [|apply (Contains_concat _ _ _ Hin)].
    apply Contains_app_r, Contains_app_r. now apply IH.
  - apply read_index in H as (items & y & -> & Hin & H).
    rewrite serialize_array. destruct items as [|x items]; [destruct Hin|].
    apply Contains_app_r, Contains_app_r, Contains_app_r, Contains_app_l.
    eapply Contains_trans; [now apply (IH y (indent ++ "  "))|].
    apply Contains_concat. now apply in_map.
Qed.

Lemma stringify_defined (v : value) :
  v <> VUndefined -> toStr (stringify v) = serialize "" v.
Proof. intros Hne. destruct v; try reflexivity. now destruct Hne. Qed.

Lemma translator_strings (payload : value) (k : string) (path : list step)
    (s : string) :
  In k ["translation"; "validation"] ->
  read path (get k payload) = Some (VStr s) ->
  Contains (quoteJSON s) (buildTranslatorResults payload) /\
  (plainText s = true -> Contains s (buildTranslatorResults payload)).
Proof.
  intros Hk Hr.
  assert (Hq : Contains (quoteJSON s) (buildTranslatorResults payload)).
  { apply Contains_trans with (toStr (stringify (get k payload))).
    - rewrite (stringify_defined _ (read_defined _ _ _ Hr)).
      now apply serialize_string with path.
    - unfold buildTranslatorResults. each_key Hk ltac:(idtac; occurs). }
  split; [exact Hq|]. intros Hp.
  eapply Contains_trans; [|exact Hq].
  unfold quoteJSON. rewrite (quoteJSONBody_plain _ Hp).
  apply Contains_app_r, Contains_app_l, Contains_refl.
Qed.

(** ** The two laws of the renderer *)

(** C1 as stated fails: with the justification, the recommended action
    and the other optional fields of a triage analysis absent, the markup
    has no justification block and no placeholder of any kind. *)
Lemma absent_justification_is_left_out :
  read [Key "triage_analysis"; Key "justification_english"] quietTriage
  = Some VUndefined /\
  exists html,
    render sampleEngine Triage quietTriage = Returns html /\
    ~ Contains "justification" html /\
    ~ Contains "no-data" html /\
    ~ Contains "No " html /\
    ~ Contains "Not recorded" html /\
    ~ Contains "Unknown" html /\
    ~ Contains "N/A" html /\
    ~ Contains "[Unclear]" html.
Proof.
  split; [reflexivity|]. eexists. split; [reflexivity|].
  repeat split; apply not_includes; vm_compute; reflexivity.
Qed.

(** Outside the well shaped results the renderer can throw: a null entry
    in the list of tests is read for its status ... *)
Lemma null_test_row_throws :
  render sampleEngine Reports
    (VObj [("status", VStr "success"); ("extracted_tests", VArr [VNull])])
  = Throws (TypeError "read status").
Proof. reflexivity. Qed.

(** ... and a value that has no string form cannot be written: here a
    pulse that is an object with a property [toString]. *)
Lemma unprintable_vital_throws :
  shaped Triage
    (VObj [("status", VStr "success");
           ("vitals_extraction", VObj [("pulse", VObj [("toString", VInt 1)])])])
  = true /\
  render sampleEngine Triage
    (VObj [("status", VStr "success");
           ("vitals_extraction", VObj [("pulse", VObj [("toString", VInt 1)])])])
  = Throws (TypeError "convert to primitive").
Proof. split; reflexivity. Qed.

(** C1, amended: whenever a result with status [success] renders, the
    markup contains the placeholder of every section and field that has
    one in the script and is absent or null: the [no-data] paragraph of
    each section, [Not recorded] for a vital, [Unknown Priority] and
    [Unknown Urgency], [Unknown] and [N/A] in a test row, [[Unclear]] in
    a medicine card, [No allergies noted]. (The translator has no
    placeholder.) And the result renders, without throwing, when it is
    well shaped and holds no object with a property [toString] of its
    own. *)
Theorem placeholders_shown (E : engine) (t : tab) (payload : value) :
  read [Key "status"] payload = Some (VStr "success") ->
  (forall html,
     render E t payload = Returns html ->
     forall path v ph,
       read path payload = Some v -> nullish v = true ->
       placeholderAt t path v = Some ph ->
       Contains ph html) /\
  (shaped t payload = true -> plain payload = true ->
   exists html, render E t payload = Returns html).
Proof.
  intros Hs. apply success_status in Hs. split.
  - intros html Hr. rewrite (render_success E t payload Hs) in Hr.
    destruct t.
    + now apply (triage_placeholders E).
    + now apply (reports_placeholders E).
    + now apply (scribe_placeholders E).
    + intros path v ph _ _ Hp.
      apply placeholderAt_cases in Hp
        as [(section & -> & Hp)|[(section & k & -> & Hp)|(section & i & k & -> & Hp)]];
        discriminate Hp.
    + now apply (polypharmacy_placeholders E).
  - intros Hshape Hplain. exact (render_returns E t payload Hs Hshape Hplain).
Qed.

Lemma placeholders_shown_witness :
  exists html,
    render sampleEngine Triage triageScenario = Returns html /\
    Contains (vitalMissing "🩺 Blood Pressure" VNull) html /\
    Contains "<p class=~no-data~>No physical assessment available</p>" html.
Proof.
  destruct (placeholders_shown sampleEngine Triage triageScenario eq_refl)
    as (Hp & Hr).
  destruct (Hr eq_refl eq_refl) as (html & Hhtml).
  exists html. split; [exact Hhtml|]. split.
  - apply (Hp html Hhtml [Key "vitals_extraction"; Key "bp"] VNull); reflexivity.
  - apply (Hp html Hhtml [Key "physical_assessment"] VUndefined); reflexivity.
Defined.

(** C10 as stated fails for the translator: [JSON.stringify] escapes the
    double quotes of a string, so the markup of the payload does not occur
    in the output as it is. *)
Lemma translator_escapes_quotes :
  read [Key "translation"] quotedMarkup = Some (VStr "<a href=~x~>link</a>") /\
  exists html,
    render sampleEngine Translator quotedMarkup = Returns html /\
    ~ Contains "<a href=~x~>link</a>" html /\
    Contains "<a href=\~x\~>link</a>" html.
Proof.
  split; [reflexivity|]. eexists. split; [reflexivity|]. split.
  - apply not_includes; vm_compute; reflexivity.
  - apply includes_Contains; vm_compute; reflexivity.
Qed.

(** C10, amended: whenever a result with status [success] renders, for
    triage, reports, scribe and polypharmacy every string the builders
    interpolate (the scalar fields of a section, the members of its
    lists, the fields of test rows, explanations and medicine cards)
    occurs in the markup exactly as it is in the payload, markup
    included. The translator writes [translation] and [validation]
    through [JSON.stringify]: a string that is one of them, or lies
    anywhere inside one of them, occurs in its quoted form, which holds
    the string itself only when it has no double quote, backslash or
    control character. *)
Theorem strings_verbatim (E : engine) (t : tab) (payload : value)
    (html : string) :
  read [Key "status"] payload = Some (VStr "success") ->
  render E t payload = Returns html ->
  (forall path s,
      interpolated t payload path = true ->
      read path payload = Some (VStr s) ->
      Contains s html) /\
  (t = Translator ->
   forall k path s,
     In k ["translation"; "validation"] ->
     read (Key k :: path) payload = Some (VStr s) ->
     Contains (quoteJSON s) html /\ (plainText s = true -> Contains s html)).
Proof.
  intros Hs Hr. apply success_status in Hs.
  rewrite (render_success E t payload Hs) in Hr.
  split.
  - destruct t.
    + now apply (triage_strings E).
    + now apply (reports_strings E).
    + now apply (scribe_strings E).
    + intros path s Hi _.
      apply interpolated_cases in Hi
        as [(section & k & -> & Hk & _)
           |[(section & k & i & -> & Hk & _)
            |[(section & i & k & -> & Hk)|(section & sub & i & k & -> & Hk)]]];
        destruct Hk.
    + now apply (polypharmacy_strings E).
  - intros -> k path s Hk Hread.
    apply read_key in Hread as (props & Hpayload & Hread).
    apply Returns_inj in Hr. subst html.
    exact (translator_strings payload k path s Hk Hread).
Qed.

Lemma strings_verbatim_witness :
  exists html,
    render sampleEngine Polypharmacy markupPayload = Returns html /\
    Contains "<img src=x onerror=~alert(1)~>" html /\
    Contains "<script>alert(2)</script>" html.
Proof.
  eexists. split; [reflexivity|].
  destruct (strings_verbatim sampleEngine Polypharmacy markupPayload _
              eq_refl eq_refl) as (Hs & _).
  split.
  - apply (Hs [Key "medicines_extracted"; Index 0; Key "brand_name"]); reflexivity.
  - apply (Hs [Key "safety_analysis"; Key "safety_warnings"; Index 0]); reflexivity.
Defined.

(** * Further properties of the script *)

(** ** File stage: what the handlers keep true *)

Lemma tab_eq_dec (t u : tab) : {t = u} + {t <> u}.
Proof. decide equality. Defined.

Lemma updatePreview_shown (t : tab) (p : page) :
  updatePreview t p
  = withPreview
      (setSlot t (shownFor (staged t p) (reads (slot t (preview p)))) (preview p)) p.
Proof. reflexivity. Qed.

(** A selection leaves the stage and its controls alone, or it is
    accepted; field by field. *)
Lemma handleFileSelect_fields (t : tab) (files : list file) (p : page) :
  (fileStorage (handleFileSelect t files p) = fileStorage p /\
   processBtn (handleFileSelect t files p) = processBtn p /\
   preview (handleFileSelect t files p) = preview p) \/
  ((0 < List.length files <= maxFiles t)%nat /\
   fileStorage (handleFileSelect t files p)
   = setSlot t (filter isImage files) (fileStorage p) /\
   preview (handleFileSelect t files p)
   = setSlot t (shownFor (filter isImage files) (reads (slot t (preview p))))
       (preview p) /\
   processBtn (handleFileSelect t files p)
   = match slot t (processBtn p) with
     | Some _ =>
         if (0 <? List.length (filter isImage files))%nat
         then setSlot t (Some false) (processBtn p) else processBtn p
     | None => processBtn p
     end).
Proof.
  destruct (Nat.eqb_spec (List.length files) 0) as [H0|H0].
  { left. unfold handleFileSelect. apply Nat.eqb_eq in H0. rewrite H0. now repeat split. }
  destruct (Nat.ltb_spec (maxFiles t) (List.length files)) as [H1|H1].
  { left. unfold handleFileSelect. apply Nat.eqb_neq in H0. rewrite H0.
    apply Nat.ltb_lt in H1. rewrite H1. now repeat split. }
  right. split; [lia|].
  rewrite handleFileSelect_accepted by lia. cbv zeta.
  rewrite updatePreview_shown, staged_setStaged.
  destruct (slot t (processBtn p));
    [destruct (0 <? List.length (filter isImage files))%nat|]; now repeat split.
Qed.

Lemma handleFileSelect_accepted_fields (t : tab) (files : list file) (p : page) :
  (0 < List.length files <= maxFiles t)%nat ->
  fileStorage (handleFileSelect t files p)
  = setSlot t (filter isImage files) (fileStorage p) /\
  preview (handleFileSelect t files p)
  = setSlot t (shownFor (filter isImage files) (reads (slot t (preview p))))
      (preview p).
Proof.
  intros Hlen. rewrite handleFileSelect_accepted by lia. cbv zeta.
  rewrite updatePreview_shown, staged_setStaged.
  destruct (slot t (processBtn p));
    [destruct (0 <? List.length (filter isImage files))%nat|]; now repeat split.
Qed.

Lemma removeFile_fields (t : tab) (index : Z) (p : page) :
  fileStorage (removeFile t index p)
  = setSlot t (splice1 index (staged t p)) (fileStorage p) /\
  preview (removeFile t index p)
  = setSlot t (shownFor (splice1 index (staged t p)) (reads (slot t (preview p))))
      (preview p) /\
  processBtn (removeFile t index p)
  = match slot t (processBtn p) with
    | Some _ =>
        if (List.length (splice1 index (staged t p)) =? 0)%nat
        then setSlot t (Some true) (processBtn p) else processBtn p
    | None => processBtn p
    end /\
  results (removeFile t index p) = results p /\
  trace (removeFile t index p) = trace p.
Proof.
  unfold removeFile. cbv zeta.
  rewrite updatePreview_shown, staged_setStaged.
  change (processBtn (withPreview _ (setStaged _ _ p))) with (processBtn p).
  change (staged t (withPreview ?v (setStaged t ?l p))) with (staged t (setStaged t l p)).
  rewrite staged_setStaged.
  destruct (slot t (processBtn p));
    [destruct (List.length (splice1 index (staged t p)) =? 0)%nat|]; now repeat split.
Qed.

(** A submission touches neither the stage nor its controls, whatever
    the network answers. *)
Lemma processTab_fields (E : engine) (t : tab) (net : fetched) (p : page) :
  sessionId (processTab E t net p) = sessionId p /\
  fileStorage (processTab E t net p) = fileStorage p /\
  processBtn (processTab E t net p) = processBtn p /\
  preview (processTab E t net p) = preview p.
Proof.
  unfold processTab. destruct (List.length (staged t p) =? 0)%nat; [now repeat split|].
  cbv zeta. unfold processTab_try.
  destruct net as [reason|status [reason|result]];
    try (now repeat split);
    destruct (ok status); try (now repeat split).
  cbn [negb]. unfold displayResults. destruct (render E t result); now repeat split.
Qed.

Lemma processTab_unsent_fields (E : engine) (t : tab) (error : exn) (p : page) :
  sessionId (processTab_unsent E t error p) = sessionId p /\
  fileStorage (processTab_unsent E t error p) = fileStorage p /\
  processBtn (processTab_unsent E t error p) = processBtn p /\
  preview (processTab_unsent E t error p) = preview p /\
  results (processTab_unsent E t error p) = results p.
Proof.
  unfold processTab_unsent.
  destruct (List.length (staged t p) =? 0)%nat; now repeat split.
Qed.

Lemma submit_fields (E : engine) (t : tab) (net : fetched) (p : page) :
  sessionId (submit E t net p) = sessionId p /\
  fileStorage (submit E t net p) = fileStorage p /\
  processBtn (submit E t net p) = processBtn p /\
  preview (submit E t net p) = preview p.
Proof.
  unfold submit. destruct (str (sessionId p)) as [text|error].
  - apply processTab_fields.
  - destruct (processTab_unsent_fields E t error p) as (H1 & H2 & H3 & H4 & _).
    now repeat split.
Qed.

(** A read that finishes touches the preview container of its tab and
    nothing else. *)
Lemma onload_fields (t : tab) (n : nat) (p : page) :
  sessionId (onload t n p) = sessionId p /\
  fileStorage (onload t n p) = fileStorage p /\
  processBtn (onload t n p) = processBtn p /\
  results (onload t n p) = results p /\
  toast (onload t n p) = toast p /\
  trace (onload t n p) = trace p /\
  forall u, u <> t -> slot u (preview (onload t n p)) = slot u (preview p).
Proof.
  unfold onload. cbv zeta.
  destruct (nth_error (reads (slot t (preview p))) n); repeat split.
  intros u Hu. cbn [preview withPreview]. apply slot_setSlot_other. congruence.
Qed.

(** The session request touches neither the stage nor its controls nor
    the results. *)
Lemma initializeSession_fields (substring : string -> Z -> Z -> string)
    (net : fetched) (p : page) :
  fileStorage (fst (initializeSession substring net p)) = fileStorage p /\
  processBtn (fst (initializeSession substring net p)) = processBtn p /\
  preview (fst (initializeSession substring net p)) = preview p /\
  results (fst (initializeSession substring net p)) = results p.
Proof.
  unfold initializeSession, initializeSession_try.
  destruct net as [reason|status [reason|data]]; try (now repeat split).
  destruct (prop "session_id" data) as [id|e]; [|now repeat split].
  destruct id; now repeat split.
Qed.

Lemma splice1_In {A : Type} (index : Z) (l : list A) (x : A) :
  In x (splice1 index l) -> In x l.
Proof.
  unfold splice1. cbv zeta. generalize (Z.to_nat
    (if (index <? 0)%Z
     then Z.max (Z.of_nat (List.length l) + index) 0
     else Z.min index (Z.of_nat (List.length l)))).
  intros n. revert n. induction l as [|y l IH]; intros n H.
  - now rewrite firstn_nil, skipn_nil in H.
  - destruct n as [|n]; simpl in H.
    + right. destruct l; exact H.
    + destruct H as [H|H]; [now left|]. right. now apply (IH n).
Qed.

Lemma splice1_length {A : Type} (index : Z) (l : list A) :
  (List.length (splice1 index l) <= List.length l)%nat.
Proof.
  unfold splice1. cbv zeta. rewrite length_app, length_firstn, length_skipn. lia.
Qed.

Lemma splice1_forallb {A : Type} (f : A -> bool) (index : Z) (l : list A) :
  forallb f l = true -> forallb f (splice1 index l) = true.
Proof.
  rewrite !forallb_forall. intros H x Hx. apply H. now apply splice1_In in Hx.
Qed.

Lemma indexed_nth {A : Type} (l : list A) (from i : Z) (x : A) :
  In (i, x) (indexed from l) ->
  (from <= i)%Z /\ nth_error l (Z.to_nat (i - from)) = Some x.
Proof.
  revert from; induction l as [|y l IH]; intros from H; [destruct H|].
  simpl in H. destruct H as [H|H].
  - injection H as <- <-. split; [lia|]. now rewrite Z.sub_diag.
  - apply IH in H as [Hle Hn]. split; [lia|].
    replace (Z.to_nat (i - from)) with (S (Z.to_nat (i - (from + 1)))) by lia.
    exact Hn.
Qed.

(** X1: on every page the script can reach, no tab holds more files than
    its maximum, and every staged file is image-typed. *)
Theorem staged_within_limit (E : engine) (substring : string -> Z -> Z -> string)
    (buttons : perTab (option bool)) (p : page) :
  reachable E substring buttons p ->
  forall t, (List.length (staged t p) <= maxFiles t)%nat /\
            forallb isImage (staged t p) = true.
Proof.
  induction 1
    as [|net p _ IH|t files p _ IH|t n p _ IH|t index p _ IH|t net p _ IH];
    intros u.
  - destruct u; (split; [simpl; lia | reflexivity]).
  - unfold staged in *.
    destruct (initializeSession_fields substring net p) as (-> & _). apply IH.
  - unfold staged in *.
    destruct (handleFileSelect_fields t files p) as [(-> & _)|(Hlen & -> & _)];
      [apply IH|].
    destruct (tab_eq_dec t u) as [<-|Hu].
    + rewrite slot_setSlot. split; [|apply forallb_filter].
      pose proof (filter_length_le isImage files). lia.
    + rewrite slot_setSlot_other by exact Hu. apply IH.
  - unfold staged in *.
    destruct (onload_fields t n p) as (_ & -> & _). apply IH.
  - unfold staged in *.
    destruct (removeFile_fields t index p) as (-> & _). unfold staged.
    destruct (tab_eq_dec t u) as [<-|Hu].
    + rewrite slot_setSlot. destruct (IH t) as [Hl Hf]. split.
      * pose proof (splice1_length index (slot t (fileStorage p))). lia.
      * now apply splice1_forallb.
    + rewrite slot_setSlot_other by exact Hu. apply IH.
  - unfold staged in *.
    destruct (submit_fields E t net p) as (_ & -> & _). apply IH.
Qed.

Lemma staged_within_limit_witness :
  (List.length (staged Triage (removeFile Triage 1 twoStaged)) <= maxFiles Triage)%nat /\
  forallb isImage (staged Triage (removeFile Triage 1 twoStaged)) = true.
Proof.
  apply (staged_within_limit sampleEngine substringBytes (every (Some true))
           (removeFile Triage 1 twoStaged)).
  apply reach_remove, reach_select, reach_start.
Defined.

(** X2: a read is never cancelled. A read that is under way for the
    preview of a tab when the tab is redrawn (a file is removed, or a
    selection is accepted) is still under way afterwards, and when it
    finishes its item is appended to the redrawn preview, in front of the
    items of the files staged now and with the index it was started with:
    the preview can show a file that is no longer staged. *)
Theorem stale_read_lands_in_redrawn_preview (t : tab) (n : nat)
    (item : Z * file) (p : page) :
  nth_error (reads (slot t (preview p))) n = Some item ->
  (forall index,
      previewItems (slot t (preview (removeFile t index p))) = [] /\
      previewItems (slot t (preview (onload t n (removeFile t index p)))) = [item] /\
      staged t (onload t n (removeFile t index p)) = splice1 index (staged t p)) /\
  (forall files,
      (0 < List.length files <= maxFiles t)%nat ->
      previewItems (slot t (preview (handleFileSelect t files p))) = [] /\
      previewItems (slot t (preview (onload t n (handleFileSelect t files p)))) = [item] /\
      staged t (onload t n (handleFileSelect t files p)) = filter isImage files).
Proof.
  intros Hn.
  assert (Hload : forall q files,
             preview q = setSlot t (shownFor files (reads (slot t (preview p))))
                           (preview p) ->
             previewItems (slot t (preview q)) = [] /\
             previewItems (slot t (preview (onload t n q))) = [item]).
  { intros q files Hq. unfold onload. cbv zeta. rewrite Hq, slot_setSlot.
    split; [reflexivity|]. cbn [reads shownFor].
    rewrite nth_error_app1 by (apply nth_error_Some; congruence).
    rewrite Hn. cbn [preview withPreview]. now rewrite slot_setSlot. }
  split.
  - intros index.
    destruct (removeFile_fields t index p) as (Hs & Hv & _).
    destruct (Hload _ _ Hv) as (H0 & H1).
    split; [exact H0|]. split; [exact H1|].
    unfold staged. destruct (onload_fields t n (removeFile t index p)) as (_ & -> & _).
    now rewrite Hs, slot_setSlot.
  - intros files Hlen.
    destruct (handleFileSelect_accepted_fields t files p Hlen) as (Hs & Hv).
    destruct (Hload _ _ Hv) as (H0 & H1).
    split; [exact H0|]. split; [exact H1|].
    unfold staged.
    destruct (onload_fields t n (handleFileSelect t files p)) as (_ & -> & _).
    now rewrite Hs, slot_setSlot.
Qed.

Lemma stale_read_lands_in_redrawn_preview_witness :
  staged Triage (onload Triage 0 (handleFileSelect Triage [png "c.png"] twoStaged))
  = [png "c.png"] /\
  previewItems (slot Triage
           (preview (onload Triage 0 (handleFileSelect Triage [png "c.png"] twoStaged))))
  = [(0%Z, png "a.png")].
Proof.
  destruct (stale_read_lands_in_redrawn_preview Triage 0 (0%Z, png "a.png") twoStaged
              eq_refl) as (_ & Hselect).
  assert (Hlen : (0 < List.length [png "c.png"] <= maxFiles Triage)%nat)
    by (simpl; lia).
  destruct (Hselect [png "c.png"] Hlen) as (_ & Hitems & Hstaged).
  split; [exact Hstaged | exact Hitems].
Defined.

(** X3: on every page the script can reach, a tab that has files staged
    has its process button, when the page has one, enabled. *)
Theorem staged_files_can_be_submitted (E : engine)
    (substring : string -> Z -> Z -> string) (buttons : perTab (option bool))
    (p : page) :
  reachable E substring buttons p ->
  forall t b, staged t p <> [] -> slot t (processBtn p) = Some b -> b = false.
Proof.
  induction 1
    as [|net p _ IH|t files p _ IH|t n p _ IH|t index p _ IH|t net p _ IH];
    intros u b.
  - destruct u; intros H; now destruct H.
  - unfold staged in *.
    destruct (initializeSession_fields substring net p) as (-> & -> & _).
    apply IH.
  - unfold staged in *.
    destruct (handleFileSelect_fields t files p)
      as [(-> & -> & _)|(_ & -> & _ & ->)]; [apply IH|].
    destruct (tab_eq_dec t u) as [<-|Hu].
    + rewrite slot_setSlot. intros Hne.
      destruct (slot t (processBtn p)) eqn:Hb; [|cbv iota; congruence].
      destruct (filter isImage files) as [|f l]; [now destruct Hne|].
      cbn [List.length Nat.ltb Nat.leb]. rewrite slot_setSlot. congruence.
    + rewrite slot_setSlot_other by exact Hu.
      destruct (slot t (processBtn p));
        [destruct (0 <? List.length (filter isImage files))%nat|];
        rewrite ?slot_setSlot_other by exact Hu; apply IH.
  - unfold staged in *.
    destruct (onload_fields t n p) as (_ & -> & -> & _). apply IH.
  - unfold staged in *.
    destruct (removeFile_fields t index p) as (-> & _ & -> & _). unfold staged.
    destruct (tab_eq_dec t u) as [<-|Hu].
    + rewrite slot_setSlot. intros Hne.
      assert (Hold : slot t (fileStorage p) <> []).
      { intros Hnil. apply Hne. rewrite Hnil. unfold splice1. cbv zeta.
        now rewrite firstn_nil, skipn_nil. }
      destruct (slot t (processBtn p)) eqn:Hb; [|cbv iota; congruence].
      destruct (splice1 index (slot t (fileStorage p))) as [|f l];
        [now destruct Hne|].
      cbn [List.length Nat.eqb]. rewrite Hb. intros Hbb.
      apply (IH t b Hold). now rewrite Hb.
    + rewrite slot_setSlot_other by exact Hu.
      destruct (slot t (processBtn p));
        [destruct (List.length (splice1 index (slot t (fileStorage p))) =? 0)%nat|];
        rewrite ?slot_setSlot_other by exact Hu; apply IH.
  - unfold staged in *.
    destruct (submit_fields E t net p) as (_ & -> & -> & _). apply IH.
Qed.

Lemma staged_files_can_be_submitted_witness :
  staged Triage (processTab sampleEngine Triage (FetchRejects "offline") twoStaged) <> [] /\
  slot Triage (processBtn (processTab sampleEngine Triage (FetchRejects "offline") twoStaged))
  = Some false.
Proof.
  assert (Hne : staged Triage
                  (processTab sampleEngine Triage (FetchRejects "offline") twoStaged)
                <> []) by discriminate.
  split; [exact Hne|].
  assert (Hr : reachable sampleEngine substringBytes (every (Some true))
                 (processTab sampleEngine Triage (FetchRejects "offline") twoStaged))
    by exact (reach_submit _ _ _ Triage (FetchRejects "offline") twoStaged
                (reach_select _ _ _ _ _ _ (reach_start _ _ _))).
  destruct (slot Triage (processBtn
              (processTab sampleEngine Triage (FetchRejects "offline") twoStaged)))
    as [b|] eqn:Hb; [|discriminate Hb].
  f_equal.
  exact (staged_files_can_be_submitted sampleEngine substringBytes (every (Some true)) _ Hr
           Triage b Hne Hb).
Defined.
(** ** File stage: removing and selecting *)

Lemma splice1_inside {A : Type} (index : Z) (l : list A) :
  (0 <= index < Z.of_nat (List.length l))%Z ->
  splice1 index l
  = (firstn (Z.to_nat index) l ++ skipn (S (Z.to_nat index)) l)%list.
Proof.
  intros H. unfold splice1. cbv zeta.
  destruct (Z.ltb_spec index 0) as [Hneg|_]; [lia|].
  now rewrite Z.min_l by lia.
Qed.

Lemma splice1_from_end {A : Type} (index : Z) (l : list A) :
  (index < 0)%Z ->
  splice1 index l = splice1 (Z.max (Z.of_nat (List.length l) + index) 0) l.
Proof.
  intros H. unfold splice1. cbv zeta.
  destruct (Z.ltb_spec index 0) as [_|Hpos]; [|lia].
  destruct (Z.ltb_spec (Z.max (Z.of_nat (List.length l) + index) 0) 0) as [Hneg|_];
    [lia|].
  now rewrite Z.min_l by lia.
Qed.

(** X4: removing at a position that holds a file takes out that file and
    no other: the files before it keep their positions, the files after
    it move up by one; the other tabs keep their files; the preview of
    the tab is emptied, gets the count line for what is left and a read
    started for each file left, beside the reads still under way; and the
    process button, when the page has one, is disabled when nothing is
    left and keeps its state otherwise. *)
Theorem remove_takes_one_out (t : tab) (index : Z) (p : page) :
  (0 <= index < Z.of_nat (List.length (staged t p)))%Z ->
  (forall j,
      nth_error (staged t (removeFile t index p)) j
      = if (j <? Z.to_nat index)%nat
        then nth_error (staged t p) j
        else nth_error (staged t p) (S j)) /\
  S (List.length (staged t (removeFile t index p))) = List.length (staged t p) /\
  (forall u, u <> t -> staged u (removeFile t index p) = staged u p) /\
  slot t (preview (removeFile t index p))
  = shownFor (staged t (removeFile t index p)) (reads (slot t (preview p))) /\
  (forall b, slot t (processBtn p) = Some b ->
             slot t (processBtn (removeFile t index p))
             = Some (if (List.length (staged t p) =? 1)%nat then true else b)).
Proof.
  intros H.
  destruct (removeFile_fields t index p) as (Hs & Hv & Hb & _).
  assert (Hst : staged t (removeFile t index p)
                = (firstn (Z.to_nat index) (staged t p)
                   ++ skipn (S (Z.to_nat index)) (staged t p))%list).
  { unfold staged at 1. rewrite Hs, slot_setSlot. now apply splice1_inside. }
  assert (Hlen : S (List.length (staged t (removeFile t index p)))
                 = List.length (staged t p)).
  { rewrite Hst, length_app, length_firstn, length_skipn. lia. }
  split; [|split; [exact Hlen|split; [|split]]].
  - intros j. rewrite Hst, nth_error_app, length_firstn.
    rewrite Nat.min_l by lia.
    destruct (Nat.ltb_spec j (Z.to_nat index)) as [Hj|Hj].
    + rewrite nth_error_firstn.
      destruct (Nat.ltb_spec j (Z.to_nat index)); [reflexivity | lia].
    + rewrite nth_error_skipn. f_equal. lia.
  - intros u Hu. unfold staged. rewrite Hs. apply slot_setSlot_other. congruence.
  - rewrite Hv, slot_setSlot. unfold staged at 2. now rewrite Hs, slot_setSlot.
  - intros b Hbtn. rewrite Hb, Hbtn.
    replace (splice1 index (staged t p)) with (staged t (removeFile t index p))
      by (unfold staged at 1; now rewrite Hs, slot_setSlot).
    destruct (Nat.eqb_spec (List.length (staged t (removeFile t index p))) 0) as [H0|H0];
      destruct (Nat.eqb_spec (List.length (staged t p)) 1) as [H1|H1]; try lia.
    + apply slot_setSlot.
    + exact Hbtn.
Qed.

Lemma remove_takes_one_out_witness :
  staged Triage (removeFile Triage 0 twoStaged) = [png "b.png"] /\
  slot Triage (processBtn (removeFile Triage 0 (removeFile Triage 0 twoStaged)))
  = Some true.
Proof.
  assert (H : (0 <= 0 < Z.of_nat (List.length (staged Triage twoStaged)))%Z)
    by (simpl; lia).
  destruct (remove_takes_one_out Triage 0 twoStaged H) as (Hn & _).
  assert (H' : (0 <= 0 < Z.of_nat (List.length
                                     (staged Triage (removeFile Triage 0 twoStaged))))%Z)
    by (simpl; lia).
  destruct (remove_takes_one_out Triage 0 (removeFile Triage 0 twoStaged) H')
    as (_ & _ & _ & _ & Hb).
  split; [reflexivity|]. exact (Hb false eq_refl).
Defined.

(** X5: a negative index counts from the end of the staged set, as
    [splice] does: it removes what the position [length + index] holds, or
    the first file when that is before the start. *)
Theorem remove_counts_from_end (t : tab) (index : Z) (p : page) :
  (index < 0)%Z ->
  removeFile t index p
  = removeFile t (Z.max (Z.of_nat (List.length (staged t p)) + index) 0) p.
Proof.
  intros H. unfold removeFile. now rewrite <- (splice1_from_end index _ H).
Qed.

Lemma remove_counts_from_end_witness :
  removeFile Triage (-5) twoStaged = removeFile Triage 0 twoStaged /\
  removeFile Triage (-1) twoStaged = removeFile Triage 1 twoStaged.
Proof.
  split.
  - apply (remove_counts_from_end Triage (-5) twoStaged). lia.
  - apply (remove_counts_from_end Triage (-1) twoStaged). lia.
Defined.

(** X6: an accepted selection is silent: no toast, no console output, no
    request, the results stay; the preview of the tab is emptied, gets the
    count line for the image-typed files and a read started for each of
    them, beside the reads still under way; when there is at least one
    image the process button, if the page has one, is enabled; the
    previews and buttons of the other tabs stay as they were. *)
Theorem select_redraws_and_enables (t : tab) (files : list file) (p : page) :
  (0 < List.length files)%nat -> (List.length files <= maxFiles t)%nat ->
  trace (handleFileSelect t files p) = trace p /\
  toast (handleFileSelect t files p) = toast p /\
  results (handleFileSelect t files p) = results p /\
  slot t (preview (handleFileSelect t files p))
  = shownFor (filter isImage files) (reads (slot t (preview p))) /\
  (forall b, filter isImage files <> [] -> slot t (processBtn p) = Some b ->
             slot t (processBtn (handleFileSelect t files p)) = Some false) /\
  (forall u, u <> t ->
             slot u (preview (handleFileSelect t files p)) = slot u (preview p) /\
             slot u (processBtn (handleFileSelect t files p)) = slot u (processBtn p)).
Proof.
  intros Hpos Hmax.
  rewrite (handleFileSelect_accepted t files p Hpos Hmax). cbv zeta.
  rewrite updatePreview_shown, staged_setStaged.
  destruct (slot t (processBtn p)) as [b0|] eqn:Hb;
    [destruct (filter isImage files) as [|f l] eqn:Hf; cbn [List.length Nat.ltb Nat.leb]|];
    cbn [trace toast results preview processBtn withButtons withPreview setStaged withStorage];
    repeat split;
    try apply slot_setSlot;
    try (intros; apply slot_setSlot);
    try (intros; congruence);
    try (apply slot_setSlot_other; congruence).
Qed.

Lemma select_redraws_and_enables_witness :
  trace (handleFileSelect Reports [png "a.png"; pdf "b.pdf"] freshPage) = [] /\
  slot Reports (processBtn (handleFileSelect Reports [png "a.png"; pdf "b.pdf"] freshPage))
  = Some false /\
  fileCount (slot Reports (preview (handleFileSelect Reports [png "a.png"; pdf "b.pdf"] freshPage)))
  = Some "1 file(s) selected".
Proof.
  assert (Hpos : (0 < List.length [png "a.png"; pdf "b.pdf"])%nat) by (simpl; lia).
  assert (Hmax : (List.length [png "a.png"; pdf "b.pdf"] <= maxFiles Reports)%nat)
    by (simpl; lia).
  destruct (select_redraws_and_enables Reports [png "a.png"; pdf "b.pdf"] freshPage
              Hpos Hmax) as (Ht & _ & _ & Hv & Hb & _).
  split; [exact Ht|]. split.
  - apply (Hb true); [discriminate | reflexivity].
  - now rewrite Hv.
Defined.
(** ** Submission: the request, the answer, and what is kept *)

Lemma endpoint_tabName (t : tab) : endpoint t = "/" ++ tabName t ++ "/process".
Proof. now destruct t. Qed.

Lemma staged_nonempty_length (t : tab) (p : page) :
  staged t p <> [] -> (List.length (staged t p) =? 0)%nat = false.
Proof. destruct (staged t p); [intros H; now destruct H | reflexivity]. Qed.

(** A submission with files staged, unfolded once. *)
Lemma processTab_run (E : engine) (t : tab) (net : fetched) (p : page) :
  staged t p <> [] ->
  processTab E t net p =
    showLoading false
      match processTab_try E t net (showLoading true p) with
      | (q, Returns _) => q
      | (q, Throws error) =>
          showToast ("Error: " ++ message E error) "error"
            (consoleError "Error processing:" error q)
      end.
Proof.
  intros H. unfold processTab. now rewrite (staged_nonempty_length t p H).
Qed.

(** The requests of a submission whose form was filled. *)
Lemma processTab_requests (E : engine) (t : tab) (net : fetched) (p : page) :
  filter isFetch (trace (processTab E t net p)) =
    (filter isFetch (trace p) ++
     match staged t p with
     | [] => []
     | _ :: _ =>
         [Fetch ("http://localhost:8000/api/" ++ tabName t ++ "/process")
                (staged t p) (sessionField p)]
     end)%list.
Proof.
  destruct (staged t p) as [|f l] eqn:Hst.
  - unfold processTab. rewrite Hst. cbn [List.length Nat.eqb].
    rewrite trace_showToast, filter_app. reflexivity.
  - assert (Hne : staged t p <> []) by (rewrite Hst; discriminate).
    rewrite (processTab_run E t net p Hne), trace_showLoading.
    assert (Hurl : API_BASE ++ endpoint t
                   = "http://localhost:8000/api/" ++ tabName t ++ "/process")
      by now destruct t.
    assert (Htry : exists more,
               trace (fst (processTab_try E t net (showLoading true p)))
               = (trace p ++ [Loading true] ++
                  Fetch (API_BASE ++ endpoint t) (staged t p) (sessionField p) :: more)%list /\
               filter isFetch more = []).
    { assert (Hsent : forall e, trace (emit e (showLoading true p))
                                = (trace p ++ [Loading true] ++ [e])%list).
      { intros e. unfold emit. cbn [trace]. rewrite trace_showLoading.
        now rewrite <- app_assoc. }
      unfold processTab_try. cbv zeta.
      destruct net as [reason|status [reason|result]].
      - exists []. split; [apply Hsent | reflexivity].
      - destruct (ok status); exists []; (split; [apply Hsent | reflexivity]).
      - destruct (ok status); [|exists []; split; [apply Hsent | reflexivity]].
        cbn [negb].
        pose proof (displayResults_frame E t result
                      (emit (Fetch (API_BASE ++ endpoint t) (staged t (showLoading true p))
                               (sessionField (showLoading true p)))
                         (showLoading true p))) as (Ht & _).
        destruct (displayResults E t result _) as [q [u|e]]; cbn [fst] in *.
        + exists [Toast "Processing completed successfully" "success"].
          rewrite trace_showToast, Ht, Hsent. split; [|reflexivity].
          now rewrite <- !app_assoc.
        + exists []. rewrite Ht. split; [apply Hsent | reflexivity]. }
    destruct Htry as (more & Ht & Hf).
    destruct (processTab_try E t net (showLoading true p)) as [q [u|e]];
      cbn [fst] in Ht.
    + rewrite Ht, !filter_app. cbn [filter isFetch]. rewrite Hf, Hst, <- Hurl.
      unfold sessionField. now rewrite !app_nil_r.
    + rewrite trace_showToast. unfold consoleError, emit. cbn [trace].
      rewrite Ht, !filter_app. cbn [filter isFetch app]. rewrite Hf, Hst, <- Hurl.
      unfold sessionField. now rewrite !app_nil_r.
Qed.

Lemma submit_sent (E : engine) (t : tab) (net : fetched) (p : page) :
  printable (sessionId p) = true -> submit E t net p = processTab E t net p.
Proof. intros H. unfold submit, str. now rewrite H. Qed.

Lemma submit_unsent (E : engine) (t : tab) (net : fetched) (p : page) :
  staged t p <> [] -> printable (sessionId p) = false ->
  submit E t net p =
    showLoading false
      (showToast ("Error: " ++ message E (TypeError "convert to primitive")) "error"
         (consoleError "Error processing:" (TypeError "convert to primitive")
            (showLoading true p))).
Proof.
  intros Hne H. unfold submit, str. rewrite H. unfold processTab_unsent.
  now rewrite (staged_nonempty_length t p Hne).
Qed.

(** X7: a click on a process button sends one request when files are
    staged and the session identifier converts to a string, and none when
    the stage is empty or the identifier has no string form. The request
    goes to the tab's own endpoint, [/api/<tab>/process], and carries the
    staged files in their order and the text of the session identifier,
    [null] when no session was created. When the identifier has no string
    form, the conversion error goes to the console and into the error
    toast, the results stay as they were, and the loading overlay is
    released. *)
Theorem submit_sends_one_request (E : engine) (t : tab) (net : fetched) (p : page) :
  filter isFetch (trace (submit E t net p)) =
    (filter isFetch (trace p) ++
     match staged t p with
     | [] => []
     | _ :: _ =>
         if printable (sessionId p)
         then [Fetch ("http://localhost:8000/api/" ++ tabName t ++ "/process")
                     (staged t p) (toStr (sessionId p))]
         else []
     end)%list /\
  (sessionId p = VNull -> toStr (sessionId p) = "null") /\
  (staged t p <> [] -> printable (sessionId p) = false ->
   trace (submit E t net p) =
     (trace p ++
      [ Loading true;
        ConsoleError "Error processing:" (TypeError "convert to primitive");
        Toast ("Error: " ++ message E (TypeError "convert to primitive")) "error";
        Loading false ])%list /\
   toast (submit E t net p)
   = Some ("Error: " ++ message E (TypeError "convert to primitive"),
           "toast show error") /\
   results (submit E t net p) = results p /\
   loading (submit E t net p) = false).
Proof.
  split; [|split].
  - destruct (printable (sessionId p)) eqn:Hp.
    + rewrite (submit_sent E t net p Hp). apply processTab_requests.
    + destruct (staged t p) as [|f l] eqn:Hst.
      * unfold submit, str. rewrite Hp. unfold processTab_unsent. rewrite Hst.
        cbn [List.length Nat.eqb]. rewrite trace_showToast, filter_app. reflexivity.
      * assert (Hne : staged t p <> []) by (rewrite Hst; discriminate).
        rewrite (submit_unsent E t net p Hne Hp).
        rewrite trace_showLoading, trace_showToast.
        unfold consoleError, emit. cbn [trace]. rewrite trace_showLoading.
        rewrite !filter_app. cbn [filter isFetch]. now rewrite !app_nil_r.
  - now intros ->.
  - intros Hne Hp. rewrite (submit_unsent E t net p Hne Hp).
    split; [|now repeat split].
    rewrite trace_showLoading, trace_showToast.
    unfold consoleError, emit. cbn [trace]. rewrite trace_showLoading.
    now rewrite <- !app_assoc.
Qed.

Lemma submit_sends_one_request_witness :
  trace (submit sampleEngine Triage (FetchRejects "offline")
           (withSession (VObj [("toString", VInt 1)]) twoStaged))
  = [ Loading true;
      ConsoleError "Error processing:" (TypeError "convert to primitive");
      Toast "Error: cannot convert to primitive" "error";
      Loading false ].
Proof.
  assert (Hne : staged Triage (withSession (VObj [("toString", VInt 1)]) twoStaged) <> [])
    by discriminate.
  destruct (submit_sends_one_request sampleEngine Triage (FetchRejects "offline")
              (withSession (VObj [("toString", VInt 1)]) twoStaged))
    as (_ & _ & H).
  destruct (H Hne eq_refl) as (Ht & _). exact Ht.
Defined.

Lemma processTab_results_other (E : engine) (t u : tab) (net : fetched) (p : page) :
  u <> t -> slot u (results (processTab E t net p)) = slot u (results p).
Proof.
  intros Hu. unfold processTab.
  destruct (List.length (staged t p) =? 0)%nat; [reflexivity|].
  cbv zeta. unfold processTab_try.
  destruct net as [reason|status [reason|result]];
    try reflexivity; destruct (ok status); try reflexivity.
  cbn [negb]. unfold displayResults, setResults.
  destruct (render E t result);
    cbn [results showLoading showToast consoleError emit withLoading withToast withResults];
    rewrite ?slot_setSlot_other by congruence; reflexivity.
Qed.

(** X8: whatever the network answers, a submission keeps the staged files
    of every tab, the previews, the process buttons and the session
    identifier as they were, and writes to no results container but the
    tab's own: what was submitted can be submitted again. *)
Theorem submit_keeps_stage (E : engine) (t : tab) (net : fetched) (p : page) :
  fileStorage (processTab E t net p) = fileStorage p /\
  preview (processTab E t net p) = preview p /\
  processBtn (processTab E t net p) = processBtn p /\
  sessionId (processTab E t net p) = sessionId p /\
  forall u, u <> t ->
    slot u (results (processTab E t net p)) = slot u (results p).
Proof.
  destruct (processTab_fields E t net p) as (Hi & Hs & Hb & Hv).
  repeat split; try assumption.
  intros u Hu. now apply processTab_results_other.
Qed.

(** X9: when the request fails before a result is read (the request is
    rejected, the status is outside 200-299, or the body cannot be read),
    the results container keeps what it showed: no error block is written
    into it. The reason goes to the console and into the error toast. *)
Theorem submit_failure_keeps_results (E : engine) (t : tab) (net : fetched)
    (reason : string) (p : page) :
  staged t p <> [] ->
  net = FetchRejects reason \/
  (exists status, net = Response status (BodyRejects reason) /\ ok status = true) \/
  (exists status json, net = Response status json /\ ok status = false /\
                       reason = "Server error: " ++ decimal status) ->
  results (processTab E t net p) = results p /\
  toast (processTab E t net p) = Some ("Error: " ++ reason, "toast show error") /\
  exists e,
    message E e = reason /\
    trace (processTab E t net p) =
      (trace p ++
       [ Loading true;
         Fetch (API_BASE ++ endpoint t) (staged t p) (sessionField p);
         ConsoleError "Error processing:" e;
         Toast ("Error: " ++ reason) "error";
         Loading false ])%list.
Proof.
  intros Hne Hnet. rewrite (processTab_run E t net p Hne).
  assert (Htrace : forall e,
             trace (showLoading false
                      (showToast ("Error: " ++ message E e) "error"
                         (consoleError "Error processing:" e
                            (emit (Fetch (API_BASE ++ endpoint t) (staged t p) (sessionField p))
                               (showLoading true p)))))
             = (trace p ++
                [ Loading true;
                  Fetch (API_BASE ++ endpoint t) (staged t p) (sessionField p);
                  ConsoleError "Error processing:" e;
                  Toast ("Error: " ++ message E e) "error";
                  Loading false ])%list).
  { intros e. rewrite trace_showLoading, trace_showToast.
    unfold consoleError, emit. cbn [trace]. rewrite trace_showLoading.
    now rewrite <- !app_assoc. }
  unfold processTab_try. cbv zeta.
  destruct Hnet as [->|[(status & -> & Hok)|(status & json & -> & Hok & ->)]];
    try rewrite Hok; cbn [negb].
  - split; [reflexivity|]. split; [reflexivity|].
    exists (Rejection reason). split; [reflexivity | apply Htrace].
  - split; [reflexivity|]. split; [reflexivity|].
    exists (Rejection reason). split; [reflexivity | apply Htrace].
  - split; [reflexivity|]. split; [reflexivity|].
    exists (JsError ("Server error: " ++ decimal status)).
    split; [reflexivity | apply Htrace].
Qed.

Lemma submit_failure_keeps_results_witness :
  results (processTab sampleEngine Triage (FetchRejects "Failed to fetch") twoStaged)
  = results twoStaged /\
  toast (processTab sampleEngine Triage (FetchRejects "Failed to fetch") twoStaged)
  = Some ("Error: Failed to fetch", "toast show error").
Proof.
  assert (Hne : staged Triage twoStaged <> []) by discriminate.
  destruct (submit_failure_keeps_results sampleEngine Triage
              (FetchRejects "Failed to fetch") "Failed to fetch" twoStaged
              Hne (or_introl eq_refl)) as (Hr & Ht & _).
  split; [exact Hr | exact Ht].
Defined.

(** A submission whose answer is read and rendered, step by step. *)
Lemma processTab_rendered (E : engine) (t : tab) (status : Z) (result : value)
    (html : string) (p : page) :
  staged t p <> [] -> ok status = true ->
  render E t result = Returns html ->
  processTab E t (Response status (BodyJson result)) p =
    showLoading false
      (showToast "Processing completed successfully" "success"
         (setResults t html
            (setResults t ""
               (emit (Fetch (API_BASE ++ endpoint t) (staged t p) (sessionField p))
                  (showLoading true p))))).
Proof.
  intros Hne Hok Hr. rewrite (processTab_run E t _ p Hne).
  unfold processTab_try. cbv zeta. rewrite Hok. cbn [negb].
  unfold displayResults. now rewrite Hr.
Qed.

Lemma processTab_rendered_trace (t : tab) (html : string) (p : page) :
  trace (showLoading false
           (showToast "Processing completed successfully" "success"
              (setResults t html
                 (setResults t ""
                    (emit (Fetch (API_BASE ++ endpoint t) (staged t p) (sessionField p))
                       (showLoading true p))))))
  = (trace p ++
     [ Loading true;
       Fetch (API_BASE ++ endpoint t) (staged t p) (sessionField p);
       Toast "Processing completed successfully" "success";
       Loading false ])%list.
Proof.
  rewrite trace_showLoading, trace_showToast.
  unfold setResults, emit. cbn [trace withResults]. rewrite trace_showLoading.
  now rewrite <- !app_assoc.
Qed.

(** X10: when the answer is read and rendered, the markup [render] returns
    replaces what the tab's results container showed, the success toast
    is shown last, and nothing is written to the console. *)
Theorem submit_success_shows_markup (E : engine) (t : tab) (status : Z)
    (result : value) (html : string) (p : page) :
  staged t p <> [] -> ok status = true ->
  render E t result = Returns html ->
  slot t (results (processTab E t (Response status (BodyJson result)) p)) = html /\
  toast (processTab E t (Response status (BodyJson result)) p)
  = Some ("Processing completed successfully", "toast show success") /\
  trace (processTab E t (Response status (BodyJson result)) p) =
    (trace p ++
     [ Loading true;
       Fetch (API_BASE ++ endpoint t) (staged t p) (sessionField p);
       Toast "Processing completed successfully" "success";
       Loading false ])%list.
Proof.
  intros Hne Hok Hr. rewrite (processTab_rendered E t status result html p Hne Hok Hr).
  split; [|split; [reflexivity | apply processTab_rendered_trace]].
  unfold setResults.
  cbn [results showLoading showToast emit withLoading withToast withResults].
  apply slot_setSlot.
Qed.

Lemma submit_success_shows_markup_witness :
  exists html,
    render sampleEngine Triage quietTriage = Returns html /\
    slot Triage
      (results (processTab sampleEngine Triage (Response 200 (BodyJson quietTriage))
                  twoStaged))
    = html /\
    toast (processTab sampleEngine Triage (Response 200 (BodyJson quietTriage)) twoStaged)
    = Some ("Processing completed successfully", "toast show success").
Proof.
  assert (Hne : staged Triage twoStaged <> []) by discriminate.
  eexists. split; [reflexivity|].
  destruct (submit_success_shows_markup sampleEngine Triage 200 quietTriage _
              twoStaged Hne eq_refl eq_refl) as (Hs & Ht & _).
  split; [exact Hs | exact Ht].
Defined.

(** X11: a result that reports a failure of its own (its status is not
    [success]) and comes with a status in 200-299 is shown as the error
    block in the results container, and the toast that follows says
    [Processing completed successfully]. *)
Theorem failure_payload_gets_success_toast (E : engine) (t : tab) (status : Z)
    (payload st : value) (p : page) :
  staged t p <> [] -> ok status = true ->
  prop "status" payload = Returns st -> st <> VStr "success" ->
  printable (orElse (get "error" payload) (VStr "Unknown error")) = true ->
  slot t (results (processTab E t (Response status (BodyJson payload)) p))
  = "<p class=~result-error~>Error: " ++
    toStr (orElse (get "error" payload) (VStr "Unknown error")) ++ "</p>" /\
  toast (processTab E t (Response status (BodyJson payload)) p)
  = Some ("Processing completed successfully", "toast show success") /\
  filter (fun e => match e with ConsoleError _ _ => true | _ => false end)
         (trace (processTab E t (Response status (BodyJson payload)) p))
  = filter (fun e => match e with ConsoleError _ _ => true | _ => false end)
           (trace p).
Proof.
  intros Hne Hok Hs Hst Hp.
  assert (Hr : render E t payload =
               Returns ("<p class=~result-error~>Error: " ++
                        toStr (orElse (get "error" payload) (VStr "Unknown error")) ++
                        "</p>")).
  { rewrite (render_failure E t payload st Hs Hst). unfold str. now rewrite Hp. }
  rewrite (processTab_rendered E t status payload _ p Hne Hok Hr).
  split; [|split; [reflexivity|]].
  - unfold setResults.
    cbn [results showLoading showToast emit withLoading withToast withResults].
    apply slot_setSlot.
  - rewrite processTab_rendered_trace, filter_app. cbn [filter]. apply app_nil_r.
Qed.

Lemma failure_payload_gets_success_toast_witness :
  slot Reports
    (results (processTab sampleEngine Reports (Response 200 (BodyJson failurePayload))
                (handleFileSelect Reports [png "a.png"] freshPage)))
  = "<p class=~result-error~>Error: Model unavailable</p>" /\
  toast (processTab sampleEngine Reports (Response 200 (BodyJson failurePayload))
           (handleFileSelect Reports [png "a.png"] freshPage))
  = Some ("Processing completed successfully", "toast show success").
Proof.
  assert (Hne : staged Reports (handleFileSelect Reports [png "a.png"] freshPage) <> [])
    by discriminate.
  assert (Hst : VStr "error" <> VStr "success") by discriminate.
  destruct (failure_payload_gets_success_toast sampleEngine Reports 200 failurePayload
              (VStr "error") (handleFileSelect Reports [png "a.png"] freshPage)
              Hne eq_refl eq_refl Hst eq_refl) as (Hs & Ht & _).
  split; [exact Hs | exact Ht].
Defined.

(** X12: when rendering the answer throws, the tab's results container is
    left empty (what it showed before is gone), the error goes to the
    console and its message into the error toast; no success toast is
    shown. *)
Theorem submit_render_failure_clears_results (E : engine) (t : tab) (status : Z)
    (result : value) (e : exn) (p : page) :
  staged t p <> [] -> ok status = true ->
  render E t result = Throws e ->
  slot t (results (processTab E t (Response status (BodyJson result)) p)) = "" /\
  toast (processTab E t (Response status (BodyJson result)) p)
  = Some ("Error: " ++ message E e, "toast show error") /\
  trace (processTab E t (Response status (BodyJson result)) p) =
    (trace p ++
     [ Loading true;
       Fetch (API_BASE ++ endpoint t) (staged t p) (sessionField p);
       ConsoleError "Error processing:" e;
       Toast ("Error: " ++ message E e) "error";
       Loading false ])%list.
Proof.
  intros Hne Hok Hr. rewrite (processTab_run E t _ p Hne).
  unfold processTab_try. cbv zeta. rewrite Hok. cbn [negb].
  unfold displayResults. rewrite Hr. cbv zeta. repeat split.
  - unfold setResults, consoleError.
    cbn [results showLoading showToast emit withLoading withToast withResults].
    apply slot_setSlot.
  - rewrite trace_showLoading, trace_showToast.
    unfold setResults, consoleError, emit. cbn [trace withResults].
    rewrite trace_showLoading. now rewrite <- !app_assoc.
Qed.

Lemma submit_render_failure_clears_results_witness :
  slot Triage
    (results (processTab sampleEngine Triage (Response 200 (BodyJson VNull)) twoStaged))
  = "" /\
  toast (processTab sampleEngine Triage (Response 200 (BodyJson VNull)) twoStaged)
  = Some ("Error: cannot read status", "toast show error").
Proof.
  assert (Hne : staged Triage twoStaged <> []) by discriminate.
  destruct (submit_render_failure_clears_results sampleEngine Triage 200 VNull
              (TypeError "read status") twoStaged Hne eq_refl eq_refl)
    as (Hs & Ht & _).
  split; [exact Hs | exact Ht].
Defined.
(** ** Session *)

Lemma initializeSession_toast (substring : string -> Z -> Z -> string)
    (net : fetched) (p : page) :
  toast (fst (initializeSession substring net p))
  = Some ("Session created successfully", "toast show success") \/
  toast (fst (initializeSession substring net p))
  = Some ("Failed to create session", "toast show error").
Proof.
  unfold initializeSession, initializeSession_try.
  destruct net as [reason|status [reason|data]]; try (now right).
  destruct (prop "session_id" data) as [id|e]; [|now right].
  destruct id; try (now right). now left.
Qed.

(** X13: the session request ends with exactly one toast. It is the
    success toast exactly when the body of the answer is JSON that holds a
    string under [session_id], whatever the status of the answer; then
    that string is the session identifier from now on, and the label shows
    its first eight positions followed by three dots. In every other case
    the failure toast is shown and the label is not written. *)
Theorem session_created_iff (substring : string -> Z -> Z -> string)
    (net : fetched) (p : page) :
  (toast (fst (initializeSession substring net p))
   = Some ("Session created successfully", "toast show success") <->
   exists status data s,
     net = Response status (BodyJson data) /\
     prop "session_id" data = Returns (VStr s)) /\
  (forall status data s,
     net = Response status (BodyJson data) ->
     prop "session_id" data = Returns (VStr s) ->
     sessionId (fst (initializeSession substring net p)) = VStr s /\
     snd (initializeSession substring net p) = Some (substring s 0%Z 8%Z ++ "...") /\
     trace (fst (initializeSession substring net p))
     = (trace p ++ [Toast "Session created successfully" "success"])%list) /\
  (toast (fst (initializeSession substring net p))
   <> Some ("Session created successfully", "toast show success") ->
   toast (fst (initializeSession substring net p))
   = Some ("Failed to create session", "toast show error") /\
   snd (initializeSession substring net p) = None).
Proof.
  split; [split|split].
  - unfold initializeSession, initializeSession_try.
    destruct net as [reason|status [reason|data]]; try discriminate.
    destruct (prop "session_id" data) as [id|e] eqn:Hs; [|discriminate].
    destruct id; try discriminate. intros _. now exists status, data, s.
  - intros (status & data & s & -> & Hs).
    unfold initializeSession, initializeSession_try. now rewrite Hs.
  - intros status data s -> Hs.
    unfold initializeSession, initializeSession_try. rewrite Hs. now repeat split.
  - unfold initializeSession, initializeSession_try.
    destruct net as [reason|status [reason|data]]; try (now split).
    destruct (prop "session_id" data) as [id|e]; [|now split].
    destruct id; now split.
Qed.

(** X14: a session request that fails after the body was read leaves its
    mark: when the body is JSON without a string under [session_id], the
    session identifier is overwritten with what was found there before
    the failure toast is shown. A click on a process button afterwards,
    with files staged, sends the text of that value ([undefined] when
    there was none) when the value converts to a string; when it does
    not, nothing is sent and the error toast shows the conversion error.
    A request that fails before that (it is rejected, the body cannot be
    read, or the body is [null]) keeps the session identifier. *)
Theorem failed_session_overwrites_id (E : engine)
    (substring : string -> Z -> Z -> string) (net : fetched) (p : page) :
  (forall status data,
     net = Response status (BodyJson data) ->
     nullish data = false ->
     (forall s, get "session_id" data <> VStr s) ->
     toast (fst (initializeSession substring net p))
     = Some ("Failed to create session", "toast show error") /\
     sessionId (fst (initializeSession substring net p)) = get "session_id" data /\
     forall t answer,
       staged t p <> [] ->
       if printable (get "session_id" data)
       then In (Fetch (API_BASE ++ endpoint t) (staged t p)
                      (toStr (get "session_id" data)))
               (trace (submit E t answer (fst (initializeSession substring net p))))
       else filter isFetch
              (trace (submit E t answer (fst (initializeSession substring net p))))
            = filter isFetch (trace p) /\
            toast (submit E t answer (fst (initializeSession substring net p)))
            = Some ("Error: " ++ message E (TypeError "convert to primitive"),
                    "toast show error")) /\
  ((exists reason, net = FetchRejects reason) \/
   (exists status reason, net = Response status (BodyRejects reason)) \/
   (exists status data, net = Response status (BodyJson data) /\ nullish data = true) ->
   sessionId (fst (initializeSession substring net p)) = sessionId p /\
   toast (fst (initializeSession substring net p))
   = Some ("Failed to create session", "toast show error")).
Proof.
  split.
  - intros status data -> Hn Hs.
    assert (Hq : exists e,
               fst (initializeSession substring (Response status (BodyJson data)) p)
               = showToast "Failed to create session" "error"
                   (consoleError "Error creating session:" e
                      (withSession (get "session_id" data) p))).
    { unfold initializeSession, initializeSession_try.
      rewrite (prop_returns _ _ Hn).
      destruct (get "session_id" data) as [| |b|z|shown|s|items|props];
        try (eexists; reflexivity).
      now destruct (Hs s). }
    destruct Hq as (e & ->). split; [reflexivity|]. split; [reflexivity|].
    intros t answer Hne.
    set (q := showToast _ _ _).
    assert (Hst : staged t q = staged t p) by reflexivity.
    assert (Hid : sessionId q = get "session_id" data) by reflexivity.
    rewrite <- Hst in Hne.
    destruct (printable (get "session_id" data)) eqn:Hp.
    + rewrite submit_sent by (now rewrite Hid).
      rewrite (processTab_run E t answer q Hne).
      rewrite trace_showLoading.
      destruct (processTab_try_trace E t answer (showLoading true q))
        as (more & Ht & _).
      change (staged t (showLoading true q)) with (staged t q) in Ht.
      change (sessionField (showLoading true q)) with (toStr (sessionId q)) in Ht.
      rewrite Hst, Hid in Ht.
      destruct (processTab_try E t answer (showLoading true q)) as [r [u|e']];
        cbn [fst] in Ht.
      * rewrite Ht. apply in_or_app. left. apply in_or_app. right. now left.
      * rewrite trace_showToast. unfold consoleError, emit. cbn [trace].
        do 3 (apply in_or_app; left). rewrite Ht.
        apply in_or_app. right. now left.
    + rewrite submit_unsent by (try rewrite Hid; assumption).
      split; [|reflexivity].
      rewrite trace_showLoading, trace_showToast.
      unfold consoleError, emit. cbn [trace]. rewrite trace_showLoading.
      unfold q. rewrite trace_showToast. unfold consoleError, emit, withSession.
      cbn [trace]. rewrite !filter_app. cbn [filter isFetch].
      now rewrite !app_nil_r.
  - unfold initializeSession, initializeSession_try.
    intros [(reason & ->)|[(status & reason & ->)|(status & data & -> & Hn)]];
      try (now split).
    unfold prop. rewrite Hn. now split.
Qed.

Lemma failed_session_overwrites_id_witness :
  sessionId (fst (initializeSession substringBytes
                    (Response 500 (BodyJson (VObj [("detail", VStr "Internal Server Error")])))
                    twoStaged))
  = VUndefined /\
  In (Fetch "http://localhost:8000/api/triage/process" [png "a.png"; png "b.png"] "undefined")
     (trace (submit sampleEngine Triage (FetchRejects "offline")
               (fst (initializeSession substringBytes
                       (Response 500 (BodyJson (VObj [("detail", VStr "Internal Server Error")])))
                       twoStaged)))).
Proof.
  destruct (failed_session_overwrites_id sampleEngine substringBytes
              (Response 500 (BodyJson (VObj [("detail", VStr "Internal Server Error")])))
              twoStaged) as (H & _).
  destruct (H 500%Z (VObj [("detail", VStr "Internal Server Error")]) eq_refl eq_refl)
    as (_ & Hs & Hf); [discriminate|].
  split; [exact Hs|].
  apply (Hf Triage (FetchRejects "offline")). discriminate.
Defined.

(** ** Renderer: one row per record, in order *)

Lemma concat_cons (x : string) (l : list string) :
  String.concat "" (x :: l) = x ++ String.concat "" l.
Proof. destruct l; simpl; [now rewrite append_empty_r | reflexivity]. Qed.

Lemma appendEach_concat (body : value -> completion string) (l : list value)
    (h0 h : string) :
  appendEach body l h0 = Returns h ->
  exists pieces,
    Forall2 (fun x piece => body x = Returns piece) l pieces /\
    h = h0 ++ String.concat "" pieces.
Proof.
  revert h0; induction l as [|x l IH]; intros h0 H; simpl in H.
  - apply Returns_inj in H. exists []. split; [constructor|].
    simpl. now rewrite append_empty_r.
  - apply andThen_Returns in H as (piece & Hx & H).
    destruct (IH _ H) as (pieces & Hall & ->).
    exists (piece :: pieces). split; [now constructor|].
    now rewrite concat_cons, append_assoc.
Qed.

Lemma appendEach_throws (body : value -> completion string) (l : list value)
    (h0 : string) (e : exn) :
  (forall x, In x l -> (exists piece, body x = Returns piece) \/ body x = Throws e) ->
  (exists x, In x l /\ body x = Throws e) ->
  appendEach body l h0 = Throws e.
Proof.
  revert h0; induction l as [|y l IH]; intros h0 Hall (x & Hin & Hx);
    [destruct Hin|].
  simpl. destruct (Hall y (or_introl eq_refl)) as [[piece Hy]|Hy]; rewrite Hy;
    [|reflexivity].
  simpl. apply IH.
  - intros z Hz. apply Hall. now right.
  - destruct Hin as [->|Hin]; [congruence|]. now exists x.
Qed.

Lemma absent_entry (l : list value) :
  forallb present l = false -> exists x, In x l /\ nullish x = true.
Proof.
  intros Hp. destruct (existsb nullish l) eqn:Hex.
  - apply existsb_exists in Hex as (x & Hx & Hn). now exists x.
  - apply not_true_iff_false in Hp. destruct Hp.
    apply forallb_forall. intros x Hx. unfold present.
    destruct (nullish x) eqn:Hn; [|reflexivity].
    assert (existsb nullish l = true) by (apply existsb_exists; now exists x).
    congruence.
Qed.

(** A loop whose body throws on some member throws. *)
Lemma appendEach_stops (body : value -> completion string) (l : list value)
    (h0 : string) :
  (exists x e, In x l /\ body x = Throws e) ->
  exists e, appendEach body l h0 = Throws e.
Proof.
  revert h0; induction l as [|y l IH]; intros h0 (x & e & Hin & Hx);
    [destruct Hin|].
  simpl. destruct (body y) as [piece|e'] eqn:Hy; [|now exists e'].
  simpl. apply IH. destruct Hin as [->|Hin]; [congruence|]. now exists x, e.
Qed.

(** A loop over records whose body throws [e] on an entry that is
    [null] or absent, and on no other, throws [e] as soon as the list has
    such an entry. *)
Lemma appendEach_absent (body : value -> completion string) (l : list value)
    (h0 : string) (e : exn) :
  (forall x, nullish x = true -> body x = Throws e) ->
  (forall x, In x l -> nullish x = false -> exists piece, body x = Returns piece) ->
  forallb present l = false ->
  appendEach body l h0 = Throws e.
Proof.
  intros Hthrows Hreturns Hp. apply appendEach_throws.
  - intros x Hx. destruct (nullish x) eqn:Hn; [right | left]; auto.
  - destruct (existsb nullish l) eqn:Hex.
    + apply existsb_exists in Hex as (x & Hx & Hn). exists x. auto.
    + apply not_true_iff_false in Hp. destruct Hp.
      apply forallb_forall. intros x Hx. unfold present.
      destruct (nullish x) eqn:Hn; [|reflexivity].
      assert (existsb nullish l = true) by (apply existsb_exists; now exists x).
      congruence.
Qed.

Lemma testRow_throws (test : value) :
  nullish test = true -> testRow test = Throws (TypeError "read status").
Proof. intros Hn. unfold testRow, prop. now rewrite Hn. Qed.

Lemma medicineCard_throws (med : value) :
  nullish med = true -> medicineCard med = Throws (TypeError "read brand_name").
Proof. intros Hn. unfold medicineCard, prop. now rewrite Hn. Qed.

(** X15: a non-empty list of lab tests is rendered as the table header
    followed by one row per test, in the order of the list, and nothing
    else. The table is rendered when no entry of the list is [null] and
    none holds an object with a property [toString] of its own. When some
    entry is [null] the table is not rendered at all: the builder
    throws, and what it throws is the failure to read that entry's
    status unless a value before it could not be written. *)
Theorem tests_table_rows (l : list value) (test : value) :
  In test l ->
  (forall html, buildTestsTable (VArr l) = Returns html ->
     exists rows,
       Forall2 (fun test row => testRow test = Returns row) l rows /\
       html = "<div class=~tests-table~>
        <div class=~test-header~>
            <span>Test Name</span>
            <span>Result</span>
            <span>Reference Range</span>
            <span>Status</span>
        </div>
    " ++ String.concat "" rows ++ "</div>") /\
  (forallb present l = true -> forallb plain l = true ->
   exists html, buildTestsTable (VArr l) = Returns html) /\
  (forallb present l = false ->
   (exists e, buildTestsTable (VArr l) = Throws e) /\
   (forallb plain l = true ->
    buildTestsTable (VArr l) = Throws (TypeError "read status"))).
Proof.
  intros Hin. split; [|split].
  - intros html H. cbv delta [buildTestsTable] in H. cbv beta in H.
    rewrite (nonempty_not_zero _ _ Hin) in H. cbv beta iota in H.
    take_apart H.
    match goal with
    | S : appendEach _ _ _ = Returns _ |- _ =>
        destruct (appendEach_concat _ _ _ _ S) as (rows & Hall & Hh)
    end.
    exists rows. split; [exact Hall|]. rewrite Hh.
    repeat match goal with x := _ : string |- _ => subst x end.
    now rewrite !append_assoc.
  - intros Hp Hplain. now apply testsTable_returns.
  - intros Hp. unfold buildTestsTable.
    rewrite (nonempty_not_zero _ _ Hin). cbn [iterate andThen]. cbv zeta.
    split.
    + destruct (absent_entry l Hp) as (x & Hx & Hn).
      destruct (appendEach_stops testRow l
                  ("<div class=~tests-table~>" ++ "
        <div class=~test-header~>
            <span>Test Name</span>
            <span>Result</span>
            <span>Reference Range</span>
            <span>Status</span>
        </div>
    ")) as [e He].
      { exists x, (TypeError "read status"). split; [exact Hx|].
        now apply testRow_throws. }
      exists e. now rewrite He.
    + intros Hplain.
      rewrite (appendEach_absent testRow l _ (TypeError "read status") testRow_throws);
        [reflexivity | | exact Hp].
      intros x Hx Hn. apply (testRow_returns x Hn).
      exact (plain_item l x Hplain Hx).
Qed.

Lemma tests_table_rows_witness :
  (exists html,
     buildTestsTable (VArr [VObj [("test_name", VStr "Hb")]; VObj [("test_name", VStr "WBC")]])
     = Returns html) /\
  buildTestsTable (VArr [VObj [("test_name", VStr "Hb")]; VNull])
  = Throws (TypeError "read status").
Proof.
  split.
  - apply (tests_table_rows
             [VObj [("test_name", VStr "Hb")]; VObj [("test_name", VStr "WBC")]]
             (VObj [("test_name", VStr "Hb")])); [now left | reflexivity ..].
  - apply (tests_table_rows [VObj [("test_name", VStr "Hb")]; VNull]
             (VObj [("test_name", VStr "Hb")])); [now left | reflexivity ..].
Defined.

(** X16: a non-empty list of medicines is rendered as one card per
    medicine, in the order of the list, inside the grid, and nothing
    else. The grid is rendered when no entry of the list is [null] and
    none holds an object with a property [toString] of its own. When some
    entry is [null] the grid is not rendered at all: the builder throws,
    and what it throws is the failure to read that entry's brand name
    unless a value before it could not be written. *)
Theorem medicine_cards (l : list value) (med : value) :
  In med l ->
  (forall html, buildMedicinesList (VArr l) = Returns html ->
     exists cards,
       Forall2 (fun med card => medicineCard med = Returns card) l cards /\
       html = "<div class=~medicines-grid~>" ++ String.concat "" cards ++ "</div>") /\
  (forallb present l = true -> forallb plain l = true ->
   exists html, buildMedicinesList (VArr l) = Returns html) /\
  (forallb present l = false ->
   (exists e, buildMedicinesList (VArr l) = Throws e) /\
   (forallb plain l = true ->
    buildMedicinesList (VArr l) = Throws (TypeError "read brand_name"))).
Proof.
  intros Hin. split; [|split].
  - intros html H. cbv delta [buildMedicinesList] in H. cbv beta in H.
    rewrite (nonempty_not_zero _ _ Hin) in H. cbv beta iota in H.
    take_apart H.
    match goal with
    | S : appendEach _ _ _ = Returns _ |- _ =>
        destruct (appendEach_concat _ _ _ _ S) as (cards & Hall & Hh)
    end.
    exists cards. split; [exact Hall|]. rewrite Hh.
    repeat match goal with x := _ : string |- _ => subst x end.
    now rewrite !append_assoc.
  - intros Hp Hplain. now apply medicinesList_returns.
  - intros Hp. unfold buildMedicinesList.
    rewrite (nonempty_not_zero _ _ Hin). cbn [iterate andThen]. cbv zeta.
    split.
    + destruct (absent_entry l Hp) as (x & Hx & Hn).
      destruct (appendEach_stops medicineCard l "<div class=~medicines-grid~>")
        as [e He].
      { exists x, (TypeError "read brand_name"). split; [exact Hx|].
        now apply medicineCard_throws. }
      exists e. now rewrite He.
    + intros Hplain.
      rewrite (appendEach_absent medicineCard l _ (TypeError "read brand_name")
                 medicineCard_throws);
        [reflexivity | | exact Hp].
      intros x Hx Hn. apply (medicineCard_returns x Hn).
      exact (plain_item l x Hplain Hx).
Qed.

Lemma medicine_cards_witness :
  (exists html,
     buildMedicinesList (VArr [VObj [("brand_name", VStr "Crocin")]]) = Returns html) /\
  buildMedicinesList (VArr [VNull; VObj [("brand_name", VStr "Crocin")]])
  = Throws (TypeError "read brand_name").
Proof.
  split.
  - apply (medicine_cards [VObj [("brand_name", VStr "Crocin")]]
             (VObj [("brand_name", VStr "Crocin")])); [now left | reflexivity ..].
  - apply (medicine_cards [VNull; VObj [("brand_name", VStr "Crocin")]] VNull);
      [now left | reflexivity ..].
Defined.
(** ** Renderer: values that are there but falsy *)

Lemma falsy_cases (v : value) :
  truthy v = false ->
  v = VUndefined \/ v = VNull \/ v = VBool false \/ v = VInt 0 \/ v = VStr "".
Proof.
  destruct v as [| |b|z|shown|s|items|props]; simpl; intros H;
    try discriminate H; auto.
  - destruct b; [discriminate H | auto].
  - apply negb_false_iff, Z.eqb_eq in H. subst. auto.
  - apply negb_false_iff, String.eqb_eq in H. subst. auto 6.
Qed.

(** Make a value that is known to be falsy explicit. *)
Ltac falsy Hf H :=
  destruct (falsy_cases _ Hf) as [Hv|[Hv|[Hv|[Hv|Hv]]]]; rewrite Hv in H.

Lemma testRow_falsy (test : value) (piece k ph : string) :
  testRow test = Returns piece ->
  In (k, ph) [ ("test_name", "<span class=~test-name~>Unknown</span>");
               ("result", "<span class=~test-result~>N/A ");
               ("reference_range", "<span class=~test-range~>N/A</span>");
               ("status", "<span class=~test-status unknown~>Unknown</span>") ] ->
  truthy (get k test) = false ->
  Contains ph piece.
Proof.
  intros H Hk Hf. cbv delta [testRow] in H. cbv beta in H.
  apply andThen_Returns in H as (status & Hs & H).
  apply prop_Returns in Hs as (_ & ->).
  repeat (destruct Hk as [Hk|Hk];
          [apply pair_equal_spec in Hk as [<- <-];
           falsy Hf H; take_apart H; occurs_text|]).
  destruct Hk.
Qed.

(** X17: in a row of the tests table a field that is there but falsy (the
    number 0, the empty string, [false]) is treated as missing: a result
    of 0 is shown as [N/A], an empty name as [Unknown]. *)
Theorem falsy_test_fields_read_as_missing (l : list value) (html : string)
    (test : value) (k ph : string) :
  buildTestsTable (VArr l) = Returns html ->
  In test l ->
  In (k, ph) [ ("test_name", "<span class=~test-name~>Unknown</span>");
               ("result", "<span class=~test-result~>N/A ");
               ("reference_range", "<span class=~test-range~>N/A</span>");
               ("status", "<span class=~test-status unknown~>Unknown</span>") ] ->
  truthy (get k test) = false ->
  Contains ph html.
Proof.
  intros H Hin Hk Hf.
  destruct (testsTable_row (VArr l) html l test H eq_refl Hin) as (piece & Hp & Hc).
  eapply Contains_trans; [|exact Hc].
  exact (testRow_falsy test piece k ph Hp Hk Hf).
Qed.

Lemma falsy_test_fields_read_as_missing_witness :
  exists html,
    buildTestsTable
      (VArr [VObj [("test_name", VStr "Bilirubin"); ("result", VInt 0);
                   ("unit", VStr "mg/dL"); ("status", VStr "Normal")]])
    = Returns html /\
    Contains "<span class=~test-result~>N/A " html.
Proof.
  eexists. split; [reflexivity|].
  apply (falsy_test_fields_read_as_missing
           [VObj [("test_name", VStr "Bilirubin"); ("result", VInt 0);
                  ("unit", VStr "mg/dL"); ("status", VStr "Normal")]]
           _
           (VObj [("test_name", VStr "Bilirubin"); ("result", VInt 0);
                  ("unit", VStr "mg/dL"); ("status", VStr "Normal")])
           "result" "<span class=~test-result~>N/A ").
  - reflexivity.
  - now left.
  - simpl. tauto.
  - reflexivity.
Defined.

(** X18: whenever the vitals table is rendered, a vital that is there is
    shown with its unit, whatever it is: the vitals table only asks
    whether the value is [null] or absent, so a value of 0 is shown as
    [0], where the tests table would show a placeholder. *)
Theorem recorded_vital_shown_with_unit (vitals : value) (html k label unit : string) :
  buildVitalsTable vitals = Returns html ->
  truthy vitals = true ->
  In (k, (label, unit)) vitalsMap ->
  nullish (get k vitals) = false ->
  Contains ("<span class=~vital-label~>" ++ label ++ "</span>
                <span class=~vital-value ~>" ++ toStr (get k vitals) ++ " " ++ unit ++ "</span>")
           html.
Proof.
  intros H Ht Hin Hn.
  destruct (vitalsTable_entry vitals html _ H Ht Hin) as (piece & Hp & Hc).
  eapply Contains_trans; [|exact Hc].
  cbv delta [vitalItem] in Hp. cbv beta iota zeta in Hp.
  rewrite Hn in Hp. cbv iota in Hp. take_apart Hp.
  assert (Hnull : isNull (get k vitals) = false)
    by (destruct (get k vitals); try reflexivity; discriminate Hn).
  rewrite Hnull. generalize (toStr (get k vitals)). intros shown.
  exists "
            <div class=~vital-item~>
                ", "
            </div>
        ".
  now rewrite !append_assoc.
Qed.

Lemma recorded_vital_shown_with_unit_witness :
  exists html,
    buildVitalsTable (VObj [("spo2", VInt 0)]) = Returns html /\
    Contains "<span class=~vital-label~>🫁 SpO2</span>
                <span class=~vital-value ~>0 %</span>" html.
Proof.
  eexists. split; [reflexivity|].
  apply (recorded_vital_shown_with_unit (VObj [("spo2", VInt 0)]) _ "spo2" "🫁 SpO2" "%").
  - reflexivity.
  - reflexivity.
  - simpl. tauto.
  - reflexivity.
Defined.
(** ** Renderer: the style of a badge *)

(** X19: the priority badge of a triage analysis is styled [danger] with
    a red disc for the priority [RED], [success] with a green disc for
    [GREEN], and [warning] with a yellow disc for anything else: an absent
    priority, another word, or the same word in another case. *)
Theorem priority_badge_style (E : engine) (analysis : value) (html : string) :
  buildTriageAnalysis E analysis = Returns html ->
  truthy analysis = true ->
  (get "priority" analysis = VStr "RED" ->
   Contains "<div class=~priority-badge danger~>
            <span class=~priority-icon~>🔴</span>
            <span class=~priority-text~>RED Priority</span>" html) /\
  (get "priority" analysis = VStr "GREEN" ->
   Contains "<div class=~priority-badge success~>
            <span class=~priority-icon~>🟢</span>
            <span class=~priority-text~>GREEN Priority</span>" html) /\
  (get "priority" analysis <> VStr "RED" ->
   get "priority" analysis <> VStr "GREEN" ->
   Contains "<div class=~priority-badge warning~>
            <span class=~priority-icon~>🟡</span>
            <span class=~priority-text~>" html).
Proof.
  intros H Ht. cbv delta [buildTriageAnalysis] in H. enter H Ht.
  split; [|split].
  - intros Hp. rewrite Hp in H. take_apart H; occurs_text.
  - intros Hp. rewrite Hp in H. take_apart H; occurs_text.
  - intros Hr Hg.
    rewrite (strictEqStr_false _ _ Hr), (strictEqStr_false _ _ Hg) in H.
    take_apart H; occurs_text.
Qed.

Lemma priority_badge_style_witness :
  exists html,
    buildTriageAnalysis sampleEngine (VObj [("priority", VStr "red")]) = Returns html /\
    Contains "<div class=~priority-badge warning~>
            <span class=~priority-icon~>🟡</span>
            <span class=~priority-text~>" html.
Proof.
  eexists. split; [reflexivity|].
  apply (priority_badge_style sampleEngine (VObj [("priority", VStr "red")]) _
           eq_refl eq_refl); discriminate.
Defined.

(** X20: the urgency badge of a safety analysis is styled [danger] for
    the urgency [High], [warning] for [Medium], [success] for [Low], and
    [info] with a blue heart for anything else, an absent urgency
    included. *)
Theorem urgency_badge_style (E : engine) (analysis : value) (html : string) :
  buildSafetyAnalysis E analysis = Returns html ->
  truthy analysis = true ->
  (get "urgency" analysis = VStr "High" ->
   Contains "<div class=~urgency-badge danger~>
            <span class=~urgency-icon~>🔴</span>
            <span class=~urgency-text~>High Urgency</span>" html) /\
  (get "urgency" analysis = VStr "Medium" ->
   Contains "<div class=~urgency-badge warning~>
            <span class=~urgency-icon~>🟡</span>
            <span class=~urgency-text~>Medium Urgency</span>" html) /\
  (get "urgency" analysis = VStr "Low" ->
   Contains "<div class=~urgency-badge success~>
            <span class=~urgency-icon~>🟢</span>
            <span class=~urgency-text~>Low Urgency</span>" html) /\
  (get "urgency" analysis <> VStr "High" ->
   get "urgency" analysis <> VStr "Medium" ->
   get "urgency" analysis <> VStr "Low" ->
   Contains "<div class=~urgency-badge info~>
            <span class=~urgency-icon~>💙</span>
            <span class=~urgency-text~>" html).
Proof.
  intros H Ht. cbv delta [buildSafetyAnalysis] in H. enter H Ht.
  split; [|split; [|split]].
  - intros Hp. rewrite Hp in H. take_apart H; occurs_text.
  - intros Hp. rewrite Hp in H. take_apart H; occurs_text.
  - intros Hp. rewrite Hp in H. take_apart H; occurs_text.
  - intros Hh Hm Hl.
    rewrite (strictEqStr_false _ _ Hh), (strictEqStr_false _ _ Hm),
      (strictEqStr_false _ _ Hl) in H.
    take_apart H; occurs_text.
Qed.

Lemma urgency_badge_style_witness :
  exists html,
    buildSafetyAnalysis sampleEngine (VObj [("urgency", VStr "Critical")]) = Returns html /\
    Contains "<div class=~urgency-badge info~>
            <span class=~urgency-icon~>💙</span>
            <span class=~urgency-text~>" html.
Proof.
  eexists. split; [reflexivity|].
  apply (urgency_badge_style sampleEngine (VObj [("urgency", VStr "Critical")]) _
           eq_refl eq_refl); discriminate.
Defined.

(** A stretch of markup around a value that is not known: the text
    before it ends the known text on its left, the text after it starts
    the known text on its right. *)
Lemma endsWith_split (s p : string) :
  endsWith s p = true -> exists a, s = a ++ p.
Proof.
  induction s as [|c s IH]; intros H.
  - destruct p; [now exists "" | discriminate H].
  - change (String.eqb (String c s) p || endsWith s p = true) in H.
    apply orb_prop in H as [H|H].
    + apply String.eqb_eq in H as ->. now exists "".
    + destruct (IH H) as [a ->]. now exists (String c a).
Qed.

Lemma Contains_around (a x b l r : string) :
  endsWith l a = true -> startsWith r b = true ->
  Contains ((a ++ x) ++ b) ((l ++ x) ++ r).
Proof.
  intros Hl Hr. apply endsWith_split in Hl as [pre ->].
  apply startsWith_split in Hr as [post ->].
  exists pre, post. now rewrite !append_assoc.
Qed.

Ltac around :=
  lazymatch goal with
  | |- Contains (_ ++ _ ++ _) _ =>
      repeat match goal with
             | Hne : strictEqStr _ _ = false |- _ => rewrite Hne
             end;
      rewrite <- !append_assoc; apply Contains_around; vm_compute; reflexivity
  end.

(** Find an occurrence of a pattern that runs around a value. *)
Ltac occurs_around :=
  first
    [ around
    | lazymatch goal with
      | |- Contains _ (_ ++ _) =>
          first [ apply Contains_app_r; occurs_around
                | apply Contains_app_l; occurs_around ]
      | |- Contains _ (if ?c then _ else _) =>
          first [ match goal with
                  | Hc : c = true |- _ =>
                      apply (Contains_then _ _ _ _ Hc); occurs_around
                  end
                | apply Contains_grown; occurs_around
                | apply Contains_if; occurs_around ]
      | |- Contains _ (let _ := _ in _) => cbv zeta; occurs_around
      | |- Contains _ ?x => is_var x; unfold x; occurs_around
      end ].

(** Put a string that a field is known to hold in its place. *)
Ltac given Hp H :=
  rewrite Hp in H;
  match type of Hp with
  | _ = VStr ?s => change (truthy (VStr s)) with true in H; cbv iota in H
  end.

(** X21: in the physical assessment a consciousness that is given and is
    neither [alert] nor [drowsy] is styled [danger]; a distress level
    that is given and is none of [Severe], [Moderate], [Mild] is styled
    [info] with a green disc, and [Mild] is styled [warning] like
    [Moderate]. *)
Theorem assessment_badge_style (E : engine) (physical : value) (html : string) :
  buildPhysicalAssessment E physical = Returns html ->
  truthy physical = true ->
  (get "consciousness" physical = VStr "alert" ->
   Contains "<span class=~assessment-badge success~>alert</span>" html) /\
  (get "consciousness" physical = VStr "drowsy" ->
   Contains "<span class=~assessment-badge warning~>drowsy</span>" html) /\
  (truthy (get "consciousness" physical) = true ->
   get "consciousness" physical <> VStr "alert" ->
   get "consciousness" physical <> VStr "drowsy" ->
   Contains ("<span class=~assessment-badge danger~>" ++
             toStr (get "consciousness" physical) ++ "</span>") html) /\
  (get "distress_level" physical = VStr "Severe" ->
   Contains "<span class=~assessment-badge danger~>🔴 Severe</span>" html) /\
  (get "distress_level" physical = VStr "Moderate" ->
   Contains "<span class=~assessment-badge warning~>🟡 Moderate</span>" html) /\
  (get "distress_level" physical = VStr "Mild" ->
   Contains "<span class=~assessment-badge warning~>🟡 Mild</span>" html) /\
  (truthy (get "distress_level" physical) = true ->
   get "distress_level" physical <> VStr "Severe" ->
   get "distress_level" physical <> VStr "Moderate" ->
   get "distress_level" physical <> VStr "Mild" ->
   Contains ("<span class=~assessment-badge info~>🟢 " ++
             toStr (get "distress_level" physical) ++ "</span>") html).
Proof.
  intros H Ht. cbv delta [buildPhysicalAssessment] in H. enter H Ht.
  repeat split.
  - intros Hp. given Hp H. take_apart H; occurs_text.
  - intros Hp. given Hp H. take_apart H; occurs_text.
  - intros Hc Ha Hd.
    apply strictEqStr_false in Ha, Hd.
    take_apart H; occurs_around.
  - intros Hp. given Hp H. take_apart H; occurs_text.
  - intros Hp. given Hp H. take_apart H; occurs_text.
  - intros Hp. given Hp H. take_apart H; occurs_text.
  - intros Hc Hs Hm Hl.
    apply strictEqStr_false in Hs, Hm, Hl.
    take_apart H; occurs_around.
Qed.

Lemma assessment_badge_style_witness :
  exists html,
    buildPhysicalAssessment sampleEngine
      (VObj [("distress_level", VStr "Mild"); ("consciousness", VStr "Alert")])
    = Returns html /\
    Contains "<span class=~assessment-badge warning~>🟡 Mild</span>" html /\
    Contains "<span class=~assessment-badge danger~>Alert</span>" html.
Proof.
  eexists. split; [reflexivity|].
  destruct (assessment_badge_style sampleEngine
              (VObj [("distress_level", VStr "Mild"); ("consciousness", VStr "Alert")])
              _ eq_refl eq_refl) as (_ & _ & Hc & _ & _ & Hm & _).
  split; [now apply Hm|]. apply Hc; [reflexivity | discriminate | discriminate].
Defined.
(** ** Renderer: the status of an explanation *)

Lemma Contains_around2 (a x m y b l r : string) :
  endsWith l a = true -> startsWith r b = true ->
  Contains ((((a ++ x) ++ m) ++ y) ++ b) ((((l ++ x) ++ m) ++ y) ++ r).
Proof.
  intros Hl Hr. apply endsWith_split in Hl as [pre ->].
  apply startsWith_split in Hr as [post ->].
  exists pre, post. now rewrite !append_assoc.
Qed.

(** X22: an explanation is styled by its status in lower case. Whenever
    the explanation is rendered, the class of the status badge is the
    status lower-cased, [undefined] when there is none, and the icon is a
    check mark for [Normal], a warning sign for [Concerning] and a
    question mark otherwise. It is rendered when the status is a string
    or missing and no value in the explanation is an object with a
    property [toString] of its own. A status that is there and is no
    string (a number, [true]) cannot be lower-cased: the explanation
    throws, and what it throws is the failed call of [toLowerCase] when
    the test name could be written. *)
Theorem explanation_status_style (E : engine) (exp : value) :
  nullish exp = false ->
  (forall piece,
     explanationItem E exp = Returns piece ->
     (forall s, get "status" exp = VStr s ->
        Contains ("<span class=~exp-status " ++ toLowerCase E s ++ "~>" ++ s ++ "</span>")
                 piece) /\
     (get "status" exp = VStr "Normal" ->
        Contains "<span class=~exp-test-name~>✅ " piece) /\
     (get "status" exp = VStr "Concerning" ->
        Contains "<span class=~exp-test-name~>⚠️ " piece) /\
     (forall s, get "status" exp = VStr s -> s <> "Normal" -> s <> "Concerning" ->
        Contains "<span class=~exp-test-name~>❓ " piece) /\
     (nullish (get "status" exp) = true ->
        Contains "<span class=~exp-test-name~>❓ " piece /\
        Contains "<span class=~exp-status undefined~>" piece)) /\
  (textOrMissing (get "status" exp) = true -> plain exp = true ->
   exists piece, explanationItem E exp = Returns piece) /\
  (textOrMissing (get "status" exp) = false ->
   (exists e, explanationItem E exp = Throws e) /\
   (printable (get "test_name" exp) = true ->
    explanationItem E exp = Throws (TypeError "call toLowerCase"))).
Proof.
  intros Hn. split; [|split].
  - intros piece H. cbv delta [explanationItem] in H. cbv beta in H.
    rewrite (prop_returns _ _ Hn) in H. cbn [andThen] in H. cbv beta in H.
    split; [|split; [|split; [|split]]].
    + intros s Hs. rewrite Hs in H. cbn [optLower andThen] in H.
      cbv zeta in H. take_apart H. cbn [toStr].
      do 4 apply Contains_app_r. apply Contains_window5.
      rewrite <- !append_assoc. apply Contains_around2; vm_compute; reflexivity.
    + intros Hs. rewrite Hs in H. cbn [optLower andThen] in H.
      take_apart H. generalize (toStr (get "test_name" exp)). intro. occurs_text.
    + intros Hs. rewrite Hs in H. cbn [optLower andThen] in H.
      take_apart H. generalize (toStr (get "test_name" exp)). intro. occurs_text.
    + intros s Hs Hnormal Hconcerning. rewrite Hs in H.
      assert (H1 : strictEqStr (VStr s) "Normal" = false)
        by (apply strictEqStr_false; congruence).
      assert (H2 : strictEqStr (VStr s) "Concerning" = false)
        by (apply strictEqStr_false; congruence).
      rewrite H1, H2 in H. cbn [optLower andThen] in H.
      take_apart H. cbn [toStr].
      generalize (toStr (get "test_name" exp)). intro.
      generalize (toLowerCase E s). intro. occurs_text.
    + intros Hs. destruct (get "status" exp); try discriminate Hs;
        cbn [optLower andThen] in H; take_apart H;
        generalize (toStr (get "test_name" exp)); intro;
        (split; occurs_text).
  - intros Hs Hplain. apply explanationItem_returns; [|exact Hplain].
    unfold explanationOk, present. now rewrite Hn, Hs.
  - intros Hs.
    assert (Hrun : printable (get "test_name" exp) = true ->
                   explanationItem E exp = Throws (TypeError "call toLowerCase")).
    { intros Hp. unfold explanationItem. rewrite (prop_returns _ _ Hn).
      cbn [andThen]. cbv zeta. unfold str at 1. rewrite Hp. cbn [andThen].
      destruct (get "status" exp); try discriminate Hs; reflexivity. }
    split; [|exact Hrun].
    destruct (printable (get "test_name" exp)) eqn:Hp.
    + eexists. now apply Hrun.
    + unfold explanationItem. rewrite (prop_returns _ _ Hn).
      cbn [andThen]. cbv zeta. unfold str at 1. rewrite Hp.
      eexists. reflexivity.
Qed.

Lemma explanation_status_style_witness :
  explanationItem sampleEngine (VObj [("test_name", VStr "TSH"); ("status", VInt 1)])
  = Throws (TypeError "call toLowerCase") /\
  exists piece,
    explanationItem sampleEngine (VObj [("test_name", VStr "TSH"); ("status", VStr "High")])
    = Returns piece /\
    Contains "<span class=~exp-status high~>High</span>" piece.
Proof.
  split.
  - destruct (explanation_status_style sampleEngine
                (VObj [("test_name", VStr "TSH"); ("status", VInt 1)]) eq_refl)
      as (_ & _ & H).
    destruct (H eq_refl) as (_ & Ht). now apply Ht.
  - destruct (explanation_status_style sampleEngine
                (VObj [("test_name", VStr "TSH"); ("status", VStr "High")]) eq_refl)
      as (H & _).
    eexists. split; [reflexivity|].
    destruct (H _ eq_refl) as (Hs & _).
    exact (Hs "High" eq_refl).
Defined.

(** ** Renderer: fields of another kind than expected *)

(** X23: the translator result never fails to render, and it has no
    placeholder: a translation or validation that is absent is printed as
    the text [undefined], one that is [null] as [null]. *)
Theorem translator_prints_what_it_gets (E : engine) (payload : value) :
  read [Key "status"] payload = Some (VStr "success") ->
  render E Translator payload = Returns (buildTranslatorResults payload) /\
  (get "translation" payload = VUndefined ->
   Contains "<div class=~result-label~>🌐 Translation</div>
            <div class=~result-value~>
                <pre>undefined</pre>" (buildTranslatorResults payload)) /\
  (get "translation" payload = VNull ->
   Contains "<div class=~result-label~>🌐 Translation</div>
            <div class=~result-value~>
                <pre>null</pre>" (buildTranslatorResults payload)) /\
  (get "validation" payload = VUndefined ->
   Contains "<div class=~result-label~>✔️ Validation</div>
            <div class=~result-value~>
                <pre>undefined</pre>" (buildTranslatorResults payload)) /\
  (get "validation" payload = VNull ->
   Contains "<div class=~result-label~>✔️ Validation</div>
            <div class=~result-value~>
                <pre>null</pre>" (buildTranslatorResults payload)).
Proof.
  intros Hs. apply success_status in Hs.
  split; [exact (render_success E Translator payload Hs)|].
  split; [|split; [|split]]; intros Hg; unfold buildTranslatorResults; cbv zeta;
    rewrite Hg;
    match goal with
    | |- context [toStr (stringify (get ?k payload))] =>
        generalize (toStr (stringify (get k payload))); intro
    end;
    occurs_text.
Qed.

Lemma translator_prints_what_it_gets_witness :
  Contains "<div class=~result-label~>🌐 Translation</div>
            <div class=~result-value~>
                <pre>undefined</pre>"
           (buildTranslatorResults (VObj [("status", VStr "success")])).
Proof.
  destruct (translator_prints_what_it_gets sampleEngine
              (VObj [("status", VStr "success")]) eq_refl) as (_ & H & _).
  now apply H.
Defined.

(** X24: the list of lab tests has to be a list. A value that is there
    but is neither an array nor a string, and whose [length] is not 0 (a
    number, [true], an object keyed by test name), makes the rendering of
    the whole report throw: it cannot be iterated. *)
Theorem tests_not_a_list_throws (E : engine) (payload : value) :
  read [Key "status"] payload = Some (VStr "success") ->
  truthy (get "extracted_tests" payload) = true ->
  (forall l, get "extracted_tests" payload <> VArr l) ->
  (forall s, get "extracted_tests" payload <> VStr s) ->
  get "length" (get "extracted_tests" payload) <> VInt 0 ->
  render E Reports payload = Throws (TypeError "iterate").
Proof.
  intros Hs Ht Harr Hstr Hlen. apply success_status in Hs.
  rewrite (render_success E Reports payload Hs).
  unfold buildReportsResults. cbv zeta.
  assert (Hb : buildTestsTable (get "extracted_tests" payload)
               = Throws (TypeError "iterate")).
  { unfold buildTestsTable. rewrite Ht. cbn [negb orb].
    assert (Hz : strictEqZero (get "length" (get "extracted_tests" payload)) = false).
    { destruct (get "length" (get "extracted_tests" payload)); try reflexivity.
      simpl. apply Z.eqb_neq. congruence. }
    rewrite Hz. cbv zeta.
    destruct (get "extracted_tests" payload) as [| |b|z|shown|s|items|props];
      try reflexivity.
    - now destruct (Hstr s).
    - now destruct (Harr items). }
  now rewrite Hb.
Qed.

Lemma tests_not_a_list_throws_witness :
  render sampleEngine Reports
    (VObj [ ("status", VStr "success");
            ("extracted_tests",
             VObj [("Hemoglobin", VObj [("result", VFrac "13.5")])]) ])
  = Throws (TypeError "iterate").
Proof.
  apply (tests_not_a_list_throws sampleEngine
           (VObj [ ("status", VStr "success");
                   ("extracted_tests",
                    VObj [("Hemoglobin", VObj [("result", VFrac "13.5")])]) ]));
    try reflexivity; try discriminate.
Defined.

Lemma listStep_throws (E : engine) (g : string -> string) (x : value)
    (k : string -> string) (otherwise : string) :
  hasItems E x = true -> (forall l, x <> VArr l) ->
  printable (get "length" x) = true ->
  (has <- testItems E x ;;
   if has then items <- mapJoin (fun y => s <- str y ;; Returns (g s)) x ;;
               Returns (k items)
   else Returns otherwise) = Throws (TypeError "call map").
Proof.
  intros Hh Ha Hp.
  assert (Ht : testItems E x = Returns true).
  { unfold testItems, greaterThanZero. unfold hasItems in Hh.
    apply andb_prop in Hh as [-> Hg]. now rewrite Hp, Hg. }
  rewrite Ht. cbn [andThen].
  destruct x as [| |b|z|shown|s|items|props]; try reflexivity.
  now destruct (Ha items).
Qed.

Lemma listStep_stops (E : engine) (g : string -> string) (x : value)
    (k : string -> string) (otherwise : string) :
  hasItems E x = true -> (forall l, x <> VArr l) ->
  exists e,
    (has <- testItems E x ;;
     if has then items <- mapJoin (fun y => s <- str y ;; Returns (g s)) x ;;
                 Returns (k items)
     else Returns otherwise) = Throws e.
Proof.
  intros Hh Ha. destruct (printable (get "length" x)) eqn:Hp.
  - eexists. now apply listStep_throws.
  - unfold testItems, greaterThanZero. unfold hasItems in Hh.
    apply andb_prop in Hh as [-> _]. rewrite Hp. eexists; reflexivity.
Qed.

Lemma listStep_returns_or_throws (E : engine) (g : string -> string) (x : value)
    (k : string -> string) (otherwise : string) :
  plain x = true ->
  (exists h,
     (has <- testItems E x ;;
      if has then items <- mapJoin (fun y => s <- str y ;; Returns (g s)) x ;;
                  Returns (k items)
      else Returns otherwise) = Returns h) \/
  (has <- testItems E x ;;
   if has then items <- mapJoin (fun y => s <- str y ;; Returns (g s)) x ;;
               Returns (k items)
   else Returns otherwise) = Throws (TypeError "call map").
Proof.
  intros Hp. rewrite (testItems_returns E x Hp). cbn [andThen].
  destruct (hasItems E x); [|left; eexists; reflexivity].
  destruct x; try (now right). left.
  cbn [mapJoin]. rewrite mapEach_returns; [eexists; reflexivity|].
  exact (plain_printable (VArr items) Hp).
Qed.

(** Before the list that is no array is reached, a member of the list of
    key points that has no string form stops the summary with the
    conversion error. *)
Lemma summary_stops_at_unprintable_point :
  buildExecutiveSummary sampleEngine
    (VObj [("executive_summary", VArr [VObj [("toString", VInt 1)]]);
           ("critical_flags", VStr "sepsis")])
  = Throws (TypeError "convert to primitive").
Proof. reflexivity. Qed.

(** X25: a list field of the executive summary has to be an array. A
    value that passes the test [x && x.length > 0] without being one (a
    non-empty string where a list of strings was expected, say) makes the
    rendering of the summary throw; it is not shown as a single item.
    What is thrown is the failed call of [map], when no value in the
    summary is an object with a property [toString] of its own. *)
Theorem summary_list_must_be_array (E : engine) (summary : value) (k : string) :
  truthy summary = true ->
  In k ["executive_summary"; "critical_flags"] ->
  hasItems E (get k summary) = true ->
  (forall l, get k summary <> VArr l) ->
  (exists e, buildExecutiveSummary E summary = Throws e) /\
  (plain summary = true ->
   buildExecutiveSummary E summary = Throws (TypeError "call map")).
Proof.
  intros Ht Hk Hh Ha. unfold buildExecutiveSummary. rewrite Ht. cbn [negb]. cbv zeta.
  destruct Hk as [<-|[<-|[]]].
  - match goal with
    | |- (exists e, andThen ?step ?rest = Throws e) /\ _ =>
        assert (Hstops : exists e, step = Throws e)
          by (apply listStep_stops with (g := fun s => _) (k := fun items => _);
              assumption);
        assert (Hmap : plain summary = true -> step = Throws (TypeError "call map"))
          by (intros Hp;
              apply listStep_throws with (g := fun s => _) (k := fun items => _);
              first [assumption | auto with plainness])
    end.
    split.
    + destruct Hstops as [e He]. exists e. now rewrite He.
    + intros Hp. now rewrite (Hmap Hp).
  - match goal with
    | |- (exists e, andThen ?step ?rest = Throws e) /\ _ =>
        assert (Hstops : forall h, exists e, rest h = Throws e);
        [|assert (Hmap : plain summary = true ->
                         forall h, rest h = Throws (TypeError "call map"));
          [|assert (Hfirst : plain summary = true ->
                             (exists h, step = Returns h) \/
                             step = Throws (TypeError "call map"))
              by (intros Hp;
                  apply listStep_returns_or_throws
                    with (g := fun s => _) (k := fun items => _);
                  auto with plainness)]]
    end.
    + intros h. cbv beta.
      match goal with
      | |- exists e, andThen ?step _ = Throws e =>
          assert (Hs : exists e, step = Throws e)
            by (apply listStep_stops with (g := fun s => _) (k := fun items => _);
                assumption)
      end.
      destruct Hs as [e He]. exists e. now rewrite He.
    + intros Hp h. cbv beta.
      match goal with
      | |- andThen ?step _ = Throws _ =>
          assert (Hs : step = Throws (TypeError "call map"))
            by (apply listStep_throws with (g := fun s => _) (k := fun items => _);
                first [assumption | auto with plainness])
      end.
      now rewrite Hs.
    + split.
      * match goal with
        | |- exists e, andThen ?step _ = Throws e =>
            destruct step as [h|e]; [apply Hstops | now exists e]
        end.
      * intros Hp. destruct (Hfirst Hp) as [[h Hr]|Hr]; rewrite Hr; [|reflexivity].
        cbn [andThen]. now apply Hmap.
Qed.

Lemma summary_list_must_be_array_witness :
  buildExecutiveSummary sampleEngine (VObj [("critical_flags", VStr "sepsis")])
  = Throws (TypeError "call map").
Proof.
  destruct (summary_list_must_be_array sampleEngine
              (VObj [("critical_flags", VStr "sepsis")]) "critical_flags") as (_ & H).
  - reflexivity.
  - simpl. tauto.
  - reflexivity.
  - discriminate.
  - now apply H.
Defined.

(** X26: transcribed notes always have an allergies section: the list of
    allergies when it has items, and otherwise (absent, [null], or an
    empty list) the line [No allergies noted]. *)
Theorem allergies_always_shown (E : engine) (notes : value) (html : string) :
  buildTranscribedNotes E notes = Returns html ->
  truthy notes = true ->
  Contains "<div class=~notes-section~>
                <h4>⚠️ Allergies</h4>" html /\
  (hasItems E (get "allergies" notes) = false ->
   Contains "<p class=~no-allergies~>No allergies noted</p>" html) /\
  (forall l v, get "allergies" notes = VArr l -> In v l ->
   Contains ("<li class=~allergy-item~>" ++ toStr v ++ "</li>") html).
Proof.
  intros H Ht. cbv delta [buildTranscribedNotes] in H. enter H Ht.
  split; [|split].
  - take_apart H; occurs_text.
  - intros Hf. take_apart H; try discriminate Hf; occurs_text.
  - intros l v Hg Hin.
    pose proof (hasItems_array E l v Hin) as Hhas.
    rewrite Hg in H. take_apart H; occurs.
Qed.

Lemma allergies_always_shown_witness :
  exists html,
    buildTranscribedNotes sampleEngine (VObj [("allergies", VArr [])]) = Returns html /\
    Contains "<p class=~no-allergies~>No allergies noted</p>" html.
Proof.
  eexists. split; [reflexivity|].
  destruct (allergies_always_shown sampleEngine (VObj [("allergies", VArr [])]) _
              eq_refl eq_refl) as (_ & H & _).
  now apply H.
Defined.

(** ** File stage: the preview once the reads have finished *)

Lemma onload_first (t : tab) (p : page) (r : Z * file) (rs : list (Z * file)) :
  reads (slot t (preview p)) = r :: rs ->
  slot t (preview (onload t 0 p))
  = {| fileCount := fileCount (slot t (preview p));
       previewItems := previewItems (slot t (preview p)) ++ [r];
       reads := rs |}.
Proof.
  intros H. unfold onload. cbv zeta. rewrite H.
  cbn [nth_error firstn skipn app preview withPreview]. apply slot_setSlot.
Qed.

(** The reads under way finish in the order they were started, one for
    each member of [ticks]. *)
Lemma reads_finish_in_order {A : Type} (t : tab) (rs : list (Z * file))
    (ticks : list A) (p : page) :
  List.length ticks = List.length rs ->
  reads (slot t (preview p)) = rs ->
  slot t (preview (fold_left (fun q _ => onload t 0 q) ticks p))
  = {| fileCount := fileCount (slot t (preview p));
       previewItems := previewItems (slot t (preview p)) ++ rs;
       reads := [] |} /\
  fileStorage (fold_left (fun q _ => onload t 0 q) ticks p) = fileStorage p.
Proof.
  revert ticks p; induction rs as [|r rs IH]; intros ticks p Hlen Hr.
  - destruct ticks; [|discriminate Hlen]. cbn [fold_left].
    rewrite app_nil_r, <- Hr. split; [|reflexivity].
    now destruct (slot t (preview p)).
  - destruct ticks as [|a ticks]; [discriminate Hlen|]. cbn [fold_left].
    pose proof (onload_first t p r rs Hr) as Hfirst.
    destruct (IH ticks (onload t 0 p)) as (Hv & Hs).
    + simpl in Hlen. lia.
    + now rewrite Hfirst.
    + rewrite Hv, Hs, Hfirst. cbn [fileCount previewItems].
      rewrite <- app_assoc. split; [reflexivity|].
      now destruct (onload_fields t 0 p) as (_ & -> & _).
Qed.

Lemma indexed_length {A : Type} (from : Z) (l : list A) :
  List.length (indexed from l) = List.length l.
Proof. revert from; induction l as [|x l IH]; intros from; simpl; [|rewrite IH]; reflexivity. Qed.

(** X27: when no read is under way for a tab, an accepted selection
    followed by the end of the reads it started, in the order they were
    started, leaves the preview showing the count line and one item per
    staged file, in the order of the staged set, each with the position
    of its file as the index its remove button passes. *)
Theorem preview_shows_stage_once_read (t : tab) (files : list file) (p : page) :
  reads (slot t (preview p)) = [] ->
  (0 < List.length files <= maxFiles t)%nat ->
  staged t (fold_left (fun q _ => onload t 0 q) (filter isImage files)
              (handleFileSelect t files p))
  = filter isImage files /\
  slot t (preview (fold_left (fun q _ => onload t 0 q) (filter isImage files)
                     (handleFileSelect t files p)))
  = {| fileCount :=
         if (0 <? List.length (filter isImage files))%nat
         then Some (decimal (Z.of_nat (List.length (filter isImage files)))
                    ++ " file(s) selected")
         else None;
       previewItems := indexed 0 (filter isImage files);
       reads := [] |}.
Proof.
  intros Hnone Hlen.
  destruct (handleFileSelect_accepted_fields t files p Hlen) as (Hs & Hv).
  destruct (reads_finish_in_order t (indexed 0 (filter isImage files))
              (filter isImage files) (handleFileSelect t files p)) as (Hshown & Hkept).
  - now rewrite indexed_length.
  - rewrite Hv, slot_setSlot, Hnone. reflexivity.
  - split.
    + unfold staged. now rewrite Hkept, Hs, slot_setSlot.
    + rewrite Hshown, Hv, slot_setSlot. reflexivity.
Qed.

Lemma preview_shows_stage_once_read_witness :
  previewItems
    (slot Triage
       (preview (onload Triage 0
                   (onload Triage 0
                      (handleFileSelect Triage [png "a.png"; pdf "c.pdf"; png "b.png"]
                         freshPage)))))
  = [(0%Z, png "a.png"); (1%Z, png "b.png")].
Proof.
  assert (Hlen : (0 < List.length [png "a.png"; pdf "c.pdf"; png "b.png"]
                  <= maxFiles Triage)%nat) by (simpl; lia).
  destruct (preview_shows_stage_once_read Triage [png "a.png"; pdf "c.pdf"; png "b.png"]
              freshPage eq_refl Hlen) as (_ & Hv).
  exact (f_equal previewItems Hv).
Defined.

(** ** Submission: the loading overlay, whatever the session identifier *)

(** X28: a click on a process button with files staged turns the loading
    overlay on as the first thing and off as the last, once each,
    whatever happens in between: whether the session identifier converts
    to a string or not, and whatever the network answers. *)
Theorem click_releases_loading (E : engine) (t : tab) (net : fetched) (p : page) :
  staged t p <> [] ->
  loading (submit E t net p) = false /\
  exists mid,
    trace (submit E t net p)
    = (trace p ++ [Loading true] ++ mid ++ [Loading false])%list /\
    filter isLoading mid = [].
Proof.
  intros Hne. destruct (printable (sessionId p)) eqn:Hp.
  - rewrite (submit_sent E t net p Hp), (processTab_run E t net p Hne).
    split; [reflexivity|].
    destruct (processTab_try_trace E t net (showLoading true p))
      as (more & Ht & Hf & _).
    rewrite trace_showLoading in Ht.
    change (staged t (showLoading true p)) with (staged t p) in Ht.
    change (sessionField (showLoading true p)) with (sessionField p) in Ht.
    destruct (processTab_try E t net (showLoading true p)) as [q [u|e]];
      cbn [fst] in Ht.
    + exists (Fetch (API_BASE ++ endpoint t) (staged t p) (sessionField p) :: more).
      rewrite trace_showLoading, Ht. split.
      * now rewrite <- !app_assoc.
      * exact Hf.
    + exists (Fetch (API_BASE ++ endpoint t) (staged t p) (sessionField p) :: more
              ++ [ConsoleError "Error processing:" e; Toast ("Error: " ++ message E e) "error"]).
      rewrite trace_showLoading, trace_showToast.
      unfold consoleError, emit at 1. cbn [trace]. rewrite Ht. split.
      * rewrite <- !app_assoc. cbn [app]. rewrite <- ?app_assoc. reflexivity.
      * change (filter isLoading (more ++ [ConsoleError "Error processing:" e;
                                          Toast ("Error: " ++ message E e) "error"]) = []).
        rewrite filter_app, Hf. reflexivity.
  - rewrite (submit_unsent E t net p Hne Hp). split; [reflexivity|].
    exists [ConsoleError "Error processing:" (TypeError "convert to primitive");
            Toast ("Error: " ++ message E (TypeError "convert to primitive")) "error"].
    split; [|reflexivity].
    rewrite trace_showLoading, trace_showToast.
    unfold consoleError, emit. cbn [trace]. rewrite trace_showLoading.
    now rewrite <- !app_assoc.
Qed.

Lemma click_releases_loading_witness :
  loading (submit sampleEngine Triage (FetchRejects "offline")
             (withSession (VObj [("toString", VInt 1)]) twoStaged))
  = false.
Proof.
  assert (Hne : staged Triage (withSession (VObj [("toString", VInt 1)]) twoStaged) <> [])
    by discriminate.
  exact (proj1 (click_releases_loading sampleEngine Triage (FetchRejects "offline")
                  (withSession (VObj [("toString", VInt 1)]) twoStaged) Hne)).
Defined.
